(** * ppt-generation: filling a presentation template from tabular data

    A shallow embedding of [edit_pres.py] (the template filler) and of the
    driver loop of [generate_ppt.py].

    - Python exceptions are values of [exn]; a computation that can raise
      returns a [result].
    - A pandas [DataFrame] is a list of column labels and a row-major grid
      of cells; a cell is an integer, a float or a string.
    - A python-pptx presentation is a list of slides, a slide the list of
      its shapes in shape order.  A shape proxy taken from a slide is a
      reference into that list (an index), so that writing through the
      proxy changes the slide.
    - Files are a finite map from paths to presentations; [edit_pres] reads
      the template from it and stores the result in it.

    The calls into pandas and python-pptx are modelled by what they do to
    these values: selections by label and by position, [squeeze], the
    chart data object and [replace_data], the cells of a table.  Writing
    the file is taken to succeed.  [replace_data] raises where the
    workbook of the chart refuses a data point; the texts that are
    plotted or written are taken to be such as XML holds.
    The driver loop starts from the loaded frames.  The loop that loads
    them (lines 9 to 15 of [generate_ppt.py]) is modelled apart, over
    the paths that [glob] found and the frames that [read_csv] makes of
    the files; the parsing of a file and the making of the output
    directory are not modelled. *)

From Stdlib Require Import ZArith List String Ascii SpecFloat.
From stdpp Require Import base option list gmap strings pretty.

Local Open Scope string_scope.
Local Open Scope list_scope.
Local Open Scope Z_scope.

(** ** Exceptions and results *)

Inductive exn : Set :=
  | KeyError
  | IndexError
  | TypeError
  | OverflowError
  | AttributeError
  | PackageNotFoundError.

Global Instance exn_eq_dec : EqDecision exn.
Proof. solve_decision. Defined.

(** [LookupError] is the common base class of [IndexError] and [KeyError]. *)
Definition is_LookupError (e : exn) : bool :=
  match e with
  | KeyError | IndexError => true
  | _ => false
  end.

Inductive result (A : Type) : Type :=
  | Ok (a : A)
  | Err (e : exn).
Arguments Ok {A} a.
Arguments Err {A} e.

Global Instance result_ret : MRet result := λ A a, Ok a.
Global Instance result_bind : MBind result := λ A B f m,
  match m with
  | Ok a => f a
  | Err e => Err e
  end.

Definition is_Ok {A} (r : result A) : bool :=
  match r with Ok _ => true | Err _ => false end.

(** A [for] loop whose body can raise: the state is threaded through the
    iterations in order and the first exception ends the loop. *)
Fixpoint for_each {S A : Type} (body : S → A → result S) (s : S) (l : list A)
  : result S :=
  match l with
  | [] => Ok s
  | a :: l' => s' ← body s a; for_each body s' l'
  end.

(** [range(a, b)] *)
Definition range (a b : nat) : list nat := seq a (b - a).

(** ** Python sequences and strings *)

(** [l[i]] for a non-negative index. *)
Definition py_index {A} (l : list A) (i : nat) : result A :=
  match l !! i with
  | Some a => Ok a
  | None => Err IndexError
  end.

(** [s.find(sub)]: the least offset at which [sub] occurs in [s], or [-1]. *)
Fixpoint find_from (n : nat) (s sub : string) : Z :=
  if String.prefix sub s then Z.of_nat n
  else match s with
       | EmptyString => -1
       | String _ s' => find_from (S n) s' sub
       end.

Definition str_find (s sub : string) : Z := find_from 0 s sub.

(** ** Numbers

    Integers are unbounded, as Python's.  Floats are IEEE binary64 values
    whose operations are those of the interpreter and of numpy; they enter
    the program only through [str], [sum] and [format], so the interface
    below is all that the filler needs of them.  The running total of
    [sum] is kept apart from the floats: it is a float in the older
    interpreters and a float with a compensation term in the newer.
    Both are given further down, over the binary64 floats of the
    Standard Library. *)

Class PyFloat := {
  float : Type;
  (** [str(x)] for a numpy float64 [x] *)
  float_str : float → string;
  (** ["{:.1f}".format(x)] for a float [x] *)
  float_format_1f : float → string;
  (** [x] is neither a NaN nor an infinity *)
  float_is_finite : float → bool;
  (** the running total of [sum] once it has met a float *)
  fsum : Type;
  (** the int total [z] so far plus the first float; an int too large
      for a float raises [OverflowError] *)
  fsum_start : Z → float → result fsum;
  fsum_add_float : fsum → float → fsum;
  fsum_add_int : fsum → Z → result fsum;
  (** the float that [sum] returns *)
  fsum_value : fsum → float;
}.

(** The value of the binary64 nearest to the integer [z], ties to even, as
    computed by [float(z)] for [z] below the overflow threshold.  Numbers
    of at most 53 bits are kept. *)
Definition round_binary64 (z : Z) : Z :=
  let a := Z.abs z in
  let k := Z.log2 a - 52 in
  if k <=? 0 then z
  else
    let q := Z.shiftr a k in
    let r := Z.land a (Z.ones k) in
    let half := Z.shiftl 1 (k - 1) in
    let q' := if r <? half then q
              else if half <? r then q + 1
              else if Z.even q then q else q + 1 in
    Z.sgn z * Z.shiftl q' k.

(** [float(z)] raises [OverflowError] when the rounded value does not fit
    a binary64. *)
Definition float_of_int (z : Z) : result Z :=
  let v := round_binary64 z in
  if Z.abs v <? 2 ^ 1024 then Ok v else Err OverflowError.

(** ["{:.1f}".format(z)] for an int [z]: the int is converted to a float,
    which is integral, and printed with one fractional digit. *)
Definition int_format_1f (z : Z) : result string :=
  v ← float_of_int z; Ok (pretty v +:+ ".0").

(** The sum of a list of integers. *)
Definition Zsum (l : list Z) : Z := foldr Z.add 0 l.

Section Filler.
Context `{PF : PyFloat}.

(** ** Cells and data frames *)

Inductive value : Type :=
  | VInt (z : Z)
  | VFloat (f : float)
  | VStr (s : string).

(** [str(v)] for a cell taken out of a frame. *)
Definition py_str (v : value) : string :=
  match v with
  | VInt z => pretty z
  | VFloat f => float_str f
  | VStr s => s
  end.

(** [v == group] for a string [group]: a number never equals a string. *)
Definition eq_str (v : value) (group : string) : bool :=
  match v with
  | VStr s => bool_decide (s = group)
  | _ => false
  end.

(** The numbers that the built-in [sum] returns. *)
Inductive number : Type :=
  | NInt (z : Z)
  | NFloat (f : float).

(** The loop of [sum] once the total is a float: ints and floats are
    added to it in turn, a string raises [TypeError]. *)
Fixpoint sum_float (acc : fsum) (l : list value) : result number :=
  match l with
  | [] => Ok (NFloat (fsum_value acc))
  | VInt z :: l' => acc ← fsum_add_int acc z; sum_float acc l'
  | VFloat f :: l' => sum_float (fsum_add_float acc f) l'
  | VStr _ :: _ => Err TypeError
  end.

(** The loop of [sum]: the items are added to the total from left to
    right.  Ints add up exactly; adding a string to a number raises
    [TypeError]; from the first float on the total is a float. *)
Fixpoint sum_from (acc : Z) (l : list value) : result number :=
  match l with
  | [] => Ok (NInt acc)
  | VInt z :: l' => sum_from (acc + z) l'
  | VFloat f :: l' => acc ← fsum_start acc f; sum_float acc l'
  | VStr _ :: _ => Err TypeError
  end.

(** [sum(l)], which starts from the int [0]. *)
Definition py_sum (l : list value) : result number := sum_from 0 l.

(** ["{:.1f}".format(x)] *)
Definition format_1f (x : number) : result string :=
  match x with
  | NInt z => int_format_1f z
  | NFloat f => Ok (float_format_1f f)
  end.

(** A data frame with the default row index: column labels and the cells
    row by row.  Every row of a frame has one cell per column, and the
    labels are pairwise distinct, as [read_csv] makes them. *)
Record DataFrame : Type := {
  columns : list string;
  rows : list (list value);
}.

(** The position of the column labelled [name]. *)
Fixpoint column_pos (names : list string) (name : string) : option nat :=
  match names with
  | [] => None
  | n :: names' =>
      if bool_decide (n = name) then Some 0%nat
      else S <$> column_pos names' name
  end.

(** [df[name]]: the cells of column [name], [KeyError] without it. *)
Definition get_column (df : DataFrame) (name : string) : result (list value) :=
  match column_pos (columns df) name with
  | None => Err KeyError
  | Some c => mapM (λ r, py_index r c) (rows df)
  end.

(** [df[mask]]: the rows at which the boolean mask holds. *)
Fixpoint mask_rows (rs : list (list value)) (mask : list bool)
  : list (list value) :=
  match rs, mask with
  | r :: rs', b :: mask' =>
      if b then r :: mask_rows rs' mask' else mask_rows rs' mask'
  | _, _ => []
  end.

(** [df.iloc[i, j]] for non-negative positions. *)
Definition iloc (df : DataFrame) (i j : nat) : result value :=
  r ← py_index (rows df) i; py_index r j.

(** [df.iloc[:, j]], as the sequence that [sum] iterates over. *)
Definition iloc_col (df : DataFrame) (j : nat) : result (list value) :=
  if bool_decide (j < length (columns df))%nat
  then mapM (λ r, py_index r j) (rows df)
  else Err IndexError.

(** What [squeeze] makes of a frame: axes of length one are dropped. *)
Inductive squeezed : Type :=
  | SqScalar (v : value)
  (** one row: a series labelled by the columns *)
  | SqRow (labels : list string) (vals : list value)
  (** one column and not one row: a series labelled by row numbers *)
  | SqCol (vals : list value)
  | SqFrame (df : DataFrame).

Definition squeeze (df : DataFrame) : squeezed :=
  match rows df, columns df with
  | [[v]], [_] => SqScalar v
  | [r], _ => SqRow (columns df) r
  | rs, [_] => SqCol (omap head rs)
  | _, _ => SqFrame df
  end.

(** The array [x.values]: one axis for a series, two for a frame. *)
Inductive ndarray : Type :=
  | Arr1 (vals : list value)
  | Arr2 (rws : list (list value)).

(** The positions of the labels [names] among [labels]; a label that is
    not there raises [KeyError]. *)
Definition positions (labels names : list string) : result (list nat) :=
  mapM (λ name, match column_pos labels name with
                | Some c => Ok c
                | None => Err KeyError
                end) names.

(** The cells of the row [r] at the positions [ps]. *)
Definition take_cells (r : list value) (ps : list nat) : result (list value) :=
  mapM (py_index r) ps.

(** [series[names].values] for a list of string labels [names]. *)
Definition select_values (series : squeezed) (names : list string)
  : result ndarray :=
  match series with
  | SqScalar (VStr _) => Err TypeError
  | SqScalar _ => Err IndexError
  | SqRow labels r =>
      ps ← positions labels names; vals ← take_cells r ps; Ok (Arr1 vals)
  | SqCol _ => Err KeyError
  | SqFrame df =>
      ps ← positions (columns df) names;
      rws ← mapM (λ r, take_cells r ps) (rows df);
      Ok (Arr2 rws)
  end.

(** The rows of [data_chart[data_chart["group"] == group]]. *)
Definition matching_rows (data_chart : DataFrame) (group : string)
  : result (list (list value)) :=
  col ← get_column data_chart "group";
  Ok (mask_rows (rows data_chart) (map (λ v, eq_str v group) col)).

(** [data_chart[data_chart["group"] == group].squeeze()] *)
Definition select_group (data_chart : DataFrame) (group : string)
  : result squeezed :=
  rs ← matching_rows data_chart group;
  Ok (squeeze {| columns := columns data_chart; rows := rs |}).

(** ** Charts, tables, shapes and slides *)

(** A data point of a series is what iterating over the array of values
    yields: a cell for an array of one axis, a whole row for two. *)
Inductive point : Type :=
  | PVal (v : value)
  | PArr (r : list value).

Record series_data : Type := {
  series_name : string;
  series_points : list point;
}.

Record CategoryChartData : Type := {
  cd_categories : list string;
  cd_series : list series_data;
}.

(** [CategoryChartData()] *)
Definition new_chart_data : CategoryChartData :=
  {| cd_categories := []; cd_series := [] |}.

(** [chart_data.categories = labels] *)
Definition set_categories (cd : CategoryChartData) (labels : list string)
  : CategoryChartData :=
  {| cd_categories := labels; cd_series := cd_series cd |}.

Definition points_of (a : ndarray) : list point :=
  match a with
  | Arr1 vals => map PVal vals
  | Arr2 rws => map PArr rws
  end.

(** [chart_data.add_series(name, values)]: the new series is appended to
    the series that the object already holds. *)
Definition add_series (cd : CategoryChartData) (name : string) (a : ndarray)
  : CategoryChartData :=
  {| cd_categories := cd_categories cd;
     cd_series := cd_series cd ++
                  [{| series_name := name; series_points := points_of a |}] |}.

(** A chart of a slide: its title, if any, and the categories and series
    that it plots. *)
Record chart : Type := {
  chart_title : option string;
  plotted : CategoryChartData;
}.

(** [chart.replace_data(chart_data)] writes the data points of every
    series of [chart_data] into the workbook of the chart, series by
    series.  The workbook takes a number or a text for a cell.  An int
    is tested as a float, which raises [OverflowError] when it is too
    large for one; a NaN or an infinity is refused with [TypeError], and
    so is an array, which is what a data point is when the selection of
    the group has more than one row. *)
Definition write_value (p : point) : result unit :=
  match p with
  | PVal (VInt z) => _ ← float_of_int z; Ok ()
  | PVal (VFloat f) => if float_is_finite f then Ok () else Err TypeError
  | PVal (VStr _) => Ok ()
  | PArr _ => Err TypeError
  end.

Definition write_workbook (cd : CategoryChartData) : result unit :=
  for_each (λ _ s, for_each (λ _ p, write_value p) () (series_points s))
    () (cd_series cd).

(** The categories and series of the chart become those held by
    [chart_data] at the time of the call. *)
Definition replace_data (cd : CategoryChartData) (c : chart) : result chart :=
  _ ← write_workbook cd;
  Ok {| chart_title := chart_title c; plotted := cd |}.

(** [chart.chart_title.text_frame.text = text] *)
Definition set_chart_title (text : string) (c : chart) : chart :=
  {| chart_title := Some text; plotted := plotted c |}.

(** A table is the grid of the texts of its cells. *)
Local Abbreviation Table := (list (list string)).

(** [table.cell(i, j)]: row [i] of the grid, then cell [j] of that row. *)
Definition cell (t : Table) (i j : nat) : result string :=
  r ← py_index t i; py_index r j.

(** [table.cell(i, j).text = text] *)
Definition set_cell (t : Table) (i j : nat) (text : string) : result Table :=
  r ← py_index t i;
  _ ← py_index r j;
  Ok (<[i := <[j := text]> r]> t).

Inductive shape : Type :=
  | TextShape (text : string)
  | ChartFrame (c : chart)
  | TableFrame (t : Table)
  | OtherShape.

Definition has_text_frame (s : shape) : bool :=
  match s with TextShape _ => true | _ => false end.

Definition has_chart (s : shape) : bool :=
  match s with ChartFrame _ => true | _ => false end.

Definition has_table (s : shape) : bool :=
  match s with TableFrame _ => true | _ => false end.

(** The three tests above are defined on every shape of a slide.

    [s.text], read only where [s.has_text_frame] holds. *)
Definition shape_text (s : shape) : string :=
  match s with TextShape text => text | _ => "" end.

(** [s.has_text_frame and s.text.find(marker) != -1] *)
Definition mentions (marker : string) (s : shape) : bool :=
  has_text_frame s && negb (str_find (shape_text s) marker =? -1).

(** A slide is the list of its shapes, a presentation that of its
    slides. *)
Local Abbreviation Slide := (list shape).
Local Abbreviation Presentation := (list (list shape)).

(** [[s for s in shapes if p(s)]]: the selected shapes, as references
    into the slide, in shape order. *)
Fixpoint select_from (n : nat) (p : shape → bool) (shapes : Slide)
  : list nat :=
  match shapes with
  | [] => []
  | s :: shapes' =>
      if p s then n :: select_from (S n) p shapes'
      else select_from (S n) p shapes'
  end.

Definition select_shapes (p : shape → bool) (shapes : Slide) : list nat :=
  select_from 0 p shapes.

(** [ref.text = text] for a reference to a shape with a text frame. *)
Definition set_text (ref : nat) (text : string) (sl : Slide) : Slide :=
  alter (λ s, match s with TextShape _ => TextShape text | _ => s end) ref sl.

(** An update of [ref.chart]. *)
Definition with_chart (ref : nat) (f : chart → chart) (sl : Slide) : Slide :=
  alter (λ s, match s with ChartFrame c => ChartFrame (f c) | _ => s end) ref sl.

(** A call of a method of [ref.chart] that can raise. *)
Definition try_chart (ref : nat) (f : chart → result chart) (sl : Slide)
  : result Slide :=
  match sl !! ref with
  | Some (ChartFrame c) => c' ← f c; Ok (<[ref := ChartFrame c']> sl)
  | _ => Err AttributeError
  end.

(** [refs[0].table.cell(i, j).text = text] *)
Definition write_cell (refs : list nat) (i j : nat) (text : string) (sl : Slide)
  : result Slide :=
  ref ← py_index refs 0;
  match sl !! ref with
  | Some (TableFrame t) =>
      t' ← set_cell t i j text; Ok (<[ref := TableFrame t']> sl)
  | _ => Err AttributeError
  end.

(** ** The template filler *)

(** The presentation files, by path. *)
Local Abbreviation files := (gmap string Presentation).

(** [Presentation(path)] *)
Definition load (fs : files) (path : string) : result Presentation :=
  match fs !! path with
  | Some pres => Ok pres
  | None => Err PackageNotFoundError
  end.

(** The four places where a text is changed have one shape:
    [title = [s for s in shapes if s.has_text_frame and
    s.text.find(marker) != -1]] and then [title[0].text = text]. *)
Definition change_text (marker text : string) (sl : Slide) : result Slide :=
  let title := select_shapes (mentions marker) sl in
  ref ← py_index title 0;
  Ok (set_text ref text sl).

(** Lines 17 to 23, on [slide0]. *)
Definition title_slide (group : string) (slide0 : Slide) : result Slide :=
  (* change title *)
  slide0 ← change_text "Presentation title"
             ("Presentation for Group " +:+ group) slide0;
  (* change subtitle *)
  change_text "Subtitle" ("Financial Information for Group " +:+ group) slide0.

(** Lines 28 to 50, on [slide1]. *)
Definition first_chart (group : string) (series : squeezed) (slide1 : Slide)
  : result Slide :=
  (* change title *)
  slide1 ← change_text "Chart"
             ("Financial Results Summary for Group " +:+ group) slide1;
  (* get charts *)
  let charts := select_shapes has_chart slide1 in
  (* change bar chart *)
  chart0 ← py_index charts 0;
  let chart_data := new_chart_data in
  let chart_data :=
    set_categories chart_data
      (map (λ i : nat, "Category " +:+ pretty i) (range 1 5)) in
  vals ← select_values series ["cat1_1"; "cat2_1"; "cat3_1"; "cat4_1"];
  let chart_data := add_series chart_data "Series 1" vals in
  vals ← select_values series ["cat1_2"; "cat2_2"; "cat3_2"; "cat4_2"];
  let chart_data := add_series chart_data "Series 2" vals in
  vals ← select_values series ["cat1_3"; "cat2_3"; "cat3_3"; "cat4_3"];
  let chart_data := add_series chart_data "Series 3" vals in
  slide1 ← try_chart chart0 (replace_data chart_data) slide1;
  let slide1 :=
    with_chart chart0
      (set_chart_title ("Sales by Category: Group " +:+ group)) slide1 in
  (* change pie chart *)
  chart1 ← py_index charts 1;
  let chart_data :=
    set_categories chart_data ["1st Qtr"; "2nd Qtr"; "3rd Qtr"; "4th Qtr"] in
  vals ← select_values series ["pie1"; "pie2"; "pie3"; "pie4"];
  let chart_data := add_series chart_data "Series 1" vals in
  slide1 ← try_chart chart1 (replace_data chart_data) slide1;
  Ok (with_chart chart1
        (set_chart_title ("Sales by Quarter: Group " +:+ group)) slide1).

(** Lines 62 to 64: the headings. *)
Definition headings (sales_data : DataFrame) (table : list nat) (slide2 : Slide)
  : result Slide :=
  for_each (λ slide2 j,
      name ← py_index (columns sales_data) j;
      write_cell table 0 j ("Product " +:+ name) slide2)
    slide2 (range 0 5).

(** Lines 66 to 69: the data. *)
Definition data (sales_data : DataFrame) (table : list nat) (slide2 : Slide)
  : result Slide :=
  for_each (λ slide2 i,
      for_each (λ slide2 j,
          v ← iloc sales_data (i - 1) j;
          write_cell table i j (py_str v) slide2)
        slide2 (range 0 5))
    slide2 (range 1 9).

(** Lines 71 to 73: the totals. *)
Definition totals (sales_data : DataFrame) (table : list nat) (slide2 : Slide)
  : result Slide :=
  for_each (λ slide2 j,
      col ← iloc_col sales_data j;
      total ← py_sum col;
      text ← format_1f total;
      write_cell table 9 j text slide2)
    slide2 (range 0 5).

(** Lines 55 to 73, on [slide2]. *)
Definition second_chart (group : string) (sales_data : DataFrame)
    (slide2 : Slide) : result Slide :=
  (* change title *)
  slide2 ← change_text "Table" ("Results Table for Group " +:+ group) slide2;
  (* replace table *)
  let table := select_shapes has_table slide2 in
  slide2 ← headings sales_data table slide2;
  slide2 ← data sales_data table slide2;
  totals sales_data table slide2.

(** Lines 8 to 73 of [edit_pres]: everything up to the call of [save].
    The result is the presentation as it stands in memory at that call;
    the three slides are distinct objects, changed in place. *)
Definition edit_pres_in_memory (group : string)
    (data_chart data_table : DataFrame) (input_file : string) (fs : files)
  : result Presentation :=
  (* transform input data for insertion into ppt *)
  series ← select_group data_chart group;
  let sales_data := data_table in
  (* get presentation template *)
  pres ← load fs input_file;
  (* title slide *)
  slide0 ← py_index pres 0;
  slide0 ← title_slide group slide0;
  (* first chart *)
  slide1 ← py_index pres 1;
  slide1 ← first_chart group series slide1;
  (* second chart *)
  slide2 ← py_index pres 2;
  slide2 ← second_chart group sales_data slide2;
  Ok (<[2%nat := slide2]> (<[1%nat := slide1]> (<[0%nat := slide0]> pres))).

(** [edit_pres]: the filled template is saved under [output_file] and the
    success message returned; an exception raised on the way leaves the
    files as they are.  Saving itself is taken to succeed. *)
Definition edit_pres (group : string) (data_chart data_table : DataFrame)
    (input_file output_file : string) (fs : files) : result string * files :=
  match edit_pres_in_memory group data_chart data_table input_file fs with
  | Ok pres =>
      (Ok ("Successfully saved version " +:+ group +:+ "!"),
       <[output_file := pres]> fs)
  | Err e => (Err e, fs)
  end.

(** ** The driver loop of [generate_ppt.py] (lines 21 to 25)

    The frames loaded from the data directory are given, by name. *)

(** [dataframes['chart_df'].group.values] *)
Definition group_values (dataframes : gmap string DataFrame)
  : result (list value) :=
  match dataframes !! "chart_df" with
  | None => Err KeyError
  | Some chart_df =>
      match column_pos (columns chart_df) "group" with
      | None => Err AttributeError
      | Some _ => get_column chart_df "group"
      end
  end.

Definition template_path : string := "templates/ppt-template.pptx".

Definition output_path (group : string) : string :=
  "outputs/results_group_" +:+ group +:+ ".pptx".

(** The body of the loop for one value of the group column.  Only a
    string can be appended to ['table_']. *)
Definition generate_one (dataframes : gmap string DataFrame) (group : value)
    (fs : files) : result string * files :=
  match group with
  | VStr group =>
      match dataframes !! ("table_" +:+ group) with
      | None => (Err KeyError, fs)
      | Some tables_data =>
          match dataframes !! "chart_df" with
          | None => (Err KeyError, fs)
          | Some chart_df =>
              edit_pres group chart_df tables_data
                template_path (output_path group) fs
          end
      end
  | _ => (Err TypeError, fs)
  end.

(** The loop: an exception in one turn ends it. *)
Fixpoint generate_loop (dataframes : gmap string DataFrame)
    (groups : list value) (fs : files) : result unit * files :=
  match groups with
  | [] => (Ok (), fs)
  | group :: groups' =>
      match generate_one dataframes group fs with
      | (Ok _, fs') => generate_loop dataframes groups' fs'
      | (Err e, fs') => (Err e, fs')
      end
  end.

Definition generate_ppt (dataframes : gmap string DataFrame) (fs : files)
  : result unit * files :=
  match group_values dataframes with
  | Ok groups => generate_loop dataframes groups fs
  | Err e => (Err e, fs)
  end.

(** ** What is read back from a saved presentation *)

(** The table of the table slide: that of its first shape with a table. *)
Definition table_of (pres : Presentation) : option Table :=
  slide2 ← pres !! 2%nat;
  ref ← select_shapes has_table slide2 !! 0%nat;
  match slide2 !! ref with
  | Some (TableFrame t) => Some t
  | _ => None
  end.

(** The [n]-th chart of the chart slide, in shape order. *)
Definition chart_of (n : nat) (pres : Presentation) : option chart :=
  slide1 ← pres !! 1%nat;
  ref ← select_shapes has_chart slide1 !! n;
  match slide1 !! ref with
  | Some (ChartFrame c) => Some c
  | _ => None
  end.


(** The cell of the row [r] under the label [name]. *)
Definition at_label (labels : list string) (r : list value) (name : string)
  : option value :=
  c ← column_pos labels name; r !! c.

(** The series [s] is called [name] and its points are the cells of the
    row [r] under the labels [names], in that order. *)
Definition series_from (labels : list string) (r : list value)
    (name : string) (names : list string) (s : series_data) : Prop :=
  series_name s = name ∧
  Forall2 (λ n p, ∃ v, at_label labels r n = Some v ∧ p = PVal v)
    names (series_points s).

(** The places where a placeholder text is looked up: the slide and the
    marker. *)
Definition spots : list (nat * string) :=
  [(0%nat, "Presentation title"); (0%nat, "Subtitle");
   (1%nat, "Chart"); (2%nat, "Table")].

(** The chart data that lines 37 to 41 make of the three selections of
    the bar chart, and what the same object holds after lines 47 and 48:
    the new categories, the three series still, and the series of the
    pie chart behind them. *)
Definition bar_data (a1 a2 a3 : ndarray) : CategoryChartData :=
  {| cd_categories := ["Category 1"; "Category 2"; "Category 3"; "Category 4"];
     cd_series :=
       [ {| series_name := "Series 1"; series_points := points_of a1 |};
         {| series_name := "Series 2"; series_points := points_of a2 |};
         {| series_name := "Series 3"; series_points := points_of a3 |} ] |}.

Definition pie_data (a1 a2 a3 ap : ndarray) : CategoryChartData :=
  {| cd_categories := ["1st Qtr"; "2nd Qtr"; "3rd Qtr"; "4th Qtr"];
     cd_series :=
       cd_series (bar_data a1 a2 a3)
       ++ [ {| series_name := "Series 1"; series_points := points_of ap |} ] |}.

(** The chart dataset has what the filler reads from it, and the charts
    take it: the selection of the row of the group and of the four lists
    of columns do not raise, and the workbook of a chart takes every
    selected cell.  An array is not taken, so the group has one row at
    most. *)
Definition chart_row_readable (data_chart : DataFrame) (group : string)
  : Prop :=
  ∃ series a1 a2 a3 ap,
    select_group data_chart group = Ok series ∧
    select_values series ["cat1_1"; "cat2_1"; "cat3_1"; "cat4_1"] = Ok a1 ∧
    select_values series ["cat1_2"; "cat2_2"; "cat3_2"; "cat4_2"] = Ok a2 ∧
    select_values series ["cat1_3"; "cat2_3"; "cat3_3"; "cat4_3"] = Ok a3 ∧
    select_values series ["pie1"; "pie2"; "pie3"; "pie4"] = Ok ap ∧
    write_workbook (pie_data a1 a2 a3 ap) = Ok ().

(** The rows of the chart dataset whose group identifier is [group]:
    those with the string [group] under the label ["group"].  This is
    said of the frame alone, without the selection of line 8. *)
Definition rows_of_group (data_chart : DataFrame) (group : string)
  : list (list value) :=
  List.filter
    (λ r, match at_label (columns data_chart) r "group" with
          | Some (VStr s) => String.eqb s group
          | _ => false
          end)
    (rows data_chart).

(** What the loops leave in the table [t] for the frame [sales_data]. *)
Definition headings_in (sales_data : DataFrame) (t : Table) : Prop :=
  ∀ j, (j < 5)%nat →
    ∃ name, columns sales_data !! j = Some name ∧
            cell t 0 j = Ok ("Product " +:+ name).

Definition data_in (sales_data : DataFrame) (t : Table) : Prop :=
  ∀ i j, (1 ≤ i < 9)%nat → (j < 5)%nat →
    ∃ v, iloc sales_data (i - 1) j = Ok v ∧ cell t i j = Ok (py_str v).

Definition totals_in (sales_data : DataFrame) (t : Table) : Prop :=
  ∀ j, (j < 5)%nat →
    ∃ col total text,
      iloc_col sales_data j = Ok col ∧ py_sum col = Ok total ∧
      format_1f total = Ok text ∧ cell t 9 j = Ok text.

End Filler.

(** * The rest of the driver: loading the frames

    Lines 9 to 15 of [generate_ppt.py].  The paths that [glob] found are
    given; a file of the data directory is the frame that [read_csv]
    makes of it, and a path without a file raises [FileNotFoundError]. *)

Section Loader.
Context `{PF : PyFloat}.

(** What follows the last slash of [p], if [p] has a slash. *)
Fixpoint after_last_slash (p : string) : option string :=
  match p with
  | EmptyString => None
  | String c p' =>
      match after_last_slash p' with
      | Some b => Some b
      | None => if Ascii.eqb c "/" then Some p' else None
      end
  end.

(** [os.path.basename(p)] *)
Definition basename (p : string) : string :=
  default p (after_last_slash p).

(** [s.split('.')[0]]: what comes before the first dot of [s]. *)
Fixpoint before_dot (s : string) : string :=
  match s with
  | EmptyString => EmptyString
  | String c s' => if Ascii.eqb c "." then EmptyString
                   else String c (before_dot s')
  end.

(** The path that line 15 reads for the name [name]. *)
Definition csv_path (name : string) : string := "data/" +:+ name +:+ ".csv".

(** The outcome of the loop of lines 12 to 15. *)
Inductive loaded : Type :=
  | Frames (dataframes : gmap string DataFrame)
  | FileNotFoundError (path : string).

(** The loop, from the dictionary [dataframes] on. *)
Fixpoint load_frames (disk : gmap string DataFrame) (data_files : list string)
    (dataframes : gmap string DataFrame) : loaded :=
  match data_files with
  | [] => Frames dataframes
  | i :: data_files' =>
      let path := basename i in
      let name := before_dot path in
      match disk !! csv_path name with
      | Some df => load_frames disk data_files' (<[name := df]> dataframes)
      | None => FileNotFoundError (csv_path name)
      end
  end.

(** [s] has the character [c]. *)
Fixpoint has_char (c : ascii) (s : string) : bool :=
  match s with
  | EmptyString => false
  | String c' s' => Ascii.eqb c' c || has_char c s'
  end.

End Loader.

(** * What is said of a run and of the driver *)

Section Notions.
Context `{PF : PyFloat}.

(** Two shapes of the same kind: both with a text frame, both with a
    chart, both with a table, or neither. *)
Definition same_kind (s s' : shape) : Prop :=
  has_text_frame s = has_text_frame s' ∧ has_chart s = has_chart s' ∧
  has_table s = has_table s'.

(** The frame [df] cut down to its first [n] columns. *)
Definition first_columns (n : nat) (df : DataFrame) : DataFrame :=
  {| columns := take n (columns df); rows := take n <$> rows df |}.

(** A template too small for the filler: fewer than three slides, fewer
    than two charts on the chart slide, no table on the table slide, or
    a first table without a cell at one of the rows 0..9 and columns
    0..4. *)
Definition too_small (pres : list (list shape)) : Prop :=
  (length pres < 3)%nat ∨
  (∃ slide1, pres !! 1%nat = Some slide1 ∧
             (length (select_shapes has_chart slide1) < 2)%nat) ∨
  (∃ slide2, pres !! 2%nat = Some slide2 ∧
             select_shapes has_table slide2 = []) ∨
  (∃ t i j, table_of pres = Some t ∧ (i < 10)%nat ∧ (j < 5)%nat ∧
            is_Ok (cell t i j) = false).

(** The presentation that the driver is to save for [group]: the
    template found in [fs], filled with the chart dataset and with the
    detail table of the group. *)
Definition filled_for (dataframes : gmap string DataFrame)
    (fs : gmap string (list (list shape))) (group : string)
    (out : list (list shape)) : Prop :=
  ∃ chart_df tables_data,
    dataframes !! "chart_df" = Some chart_df ∧
    dataframes !! ("table_" +:+ group) = Some tables_data ∧
    edit_pres_in_memory group chart_df tables_data template_path fs = Ok out.

End Notions.

(** * The floats of the interpreter

    A float is a binary64: a signed zero, an infinity, a NaN, or a
    number [m * 2 ^ e] with a mantissa [m] of at most 53 bits, as the
    Standard Library specifies them.  The operations round to nearest,
    ties to even. *)

Definition b64_add : spec_float → spec_float → spec_float := SFadd 53 1024.
Definition b64_sub : spec_float → spec_float → spec_float := SFsub 53 1024.

(** The float nearest to the integer [z]; an infinity when [z] is too
    large. *)
Definition b64_of_Z (z : Z) : spec_float := binary_normalize 53 1024 z 0 false.

(** [float(z)] *)
Definition b64_of_int (z : Z) : result spec_float :=
  match b64_of_Z z with
  | S754_infinity _ => Err OverflowError
  | x => Ok x
  end.

Definition b64_is_finite (x : spec_float) : bool :=
  match x with
  | S754_zero _ | S754_finite _ _ _ => true
  | _ => false
  end.

(** ** Printing

    ["{:.1f}".format(x)] rounds the number that [x] is, not an
    approximation of it, to one fractional digit, ties to even. *)

Definition sign_str (s : bool) : string := if s then "-" else "".

(** The integer nearest to [m * 2 ^ e], ties to even, for [0 <= m]. *)
Definition round_scaled (m e : Z) : Z :=
  if 0 <=? e then m * 2 ^ e
  else
    let d := 2 ^ (- e) in
    let q := m / d in
    let r := m mod d in
    if 2 * r <? d then q
    else if d <? 2 * r then q + 1
    else if Z.even q then q else q + 1.

Definition digits_1f (m e : Z) : string :=
  let n := round_scaled (10 * m) e in
  pretty (n / 10) +:+ "." +:+ pretty (n mod 10).

Definition b64_format_1f (x : spec_float) : string :=
  match x with
  | S754_nan => "nan"
  | S754_infinity s => sign_str s +:+ "inf"
  | S754_zero s => sign_str s +:+ "0.0"
  | S754_finite s m e => sign_str s +:+ digits_1f (Zpos m) e
  end.

(** [str(x)] is the shortest decimal that reads back as [x], and among
    those of that length the nearest to [x].  The decimals that read
    back as [m * 2 ^ e] are those between the middles to the floats
    next to it, the middles included when [m] is even.

    [d * 10 ^ k] compared with [v * 2 ^ e]: *)
Definition scaled_compare (d k v e : Z) : comparison :=
  (d * 10 ^ Z.max k 0 * 2 ^ Z.max (- e) 0)
  ?= (v * 2 ^ Z.max e 0 * 10 ^ Z.max (- k) 0).

Fixpoint dexp_from (fuel : nat) (t m e : Z) : Z :=
  match fuel with
  | O => t
  | S fuel' =>
      match scaled_compare 1 (t + 1) m e with
      | Gt => t
      | _ => dexp_from fuel' (t + 1) m e
      end
  end.

(** The [t] with [10 ^ t <= m * 2 ^ e < 10 ^ (t + 1)]. *)
Definition decimal_exponent (m e : Z) : Z :=
  dexp_from 8 ((Z.log2 m + e) * 30103 / 100000 - 2) m e.

Definition in_interval (closed : bool) (lo hi e d k : Z) : bool :=
  match scaled_compare d k lo e, scaled_compare d k hi e with
  | Gt, Lt => true
  | Eq, Lt | Gt, Eq => closed
  | _, _ => false
  end.

(** The decimal of [n] digits that reads back as [m * 2 ^ e] and is the
    nearest to it, if there is one: it is one of the two next to the
    number.  The bounds are counted in quarters of [2 ^ e]; below a power
    of two the floats are twice as dense. *)
Definition shortest_at (m e : Z) (t n : Z) : option (Z * Z) :=
  let k := t - n + 1 in
  let lo := 4 * m - (if (m =? 2 ^ 52) && (-1074 <? e) then 1 else 2) in
  let hi := 4 * m + 2 in
  let closed := Z.even m in
  let a := m * 2 ^ Z.max e 0 * 10 ^ Z.max (- k) 0 in
  let b := 2 ^ Z.max (- e) 0 * 10 ^ Z.max k 0 in
  let dl := a / b in
  let dh := dl + 1 in
  let inl := in_interval closed lo hi (e - 2) dl k in
  let inh := in_interval closed lo hi (e - 2) dh k in
  match inl, inh with
  | true, true =>
      match scaled_compare (dl + dh) k (2 * m) e with
      | Gt => Some (dl, k)
      | Lt => Some (dh, k)
      | Eq => Some (if Z.even dl then dl else dh, k)
      end
  | true, false => Some (dl, k)
  | false, true => Some (dh, k)
  | false, false => None
  end.

Fixpoint shortest_from (fuel : nat) (m e t n : Z) : Z * Z :=
  match shortest_at m e t n, fuel with
  | Some dk, _ => dk
  | None, S fuel' => shortest_from fuel' m e t (n + 1)
  | None, O => (m * 2 ^ Z.max e 0 * 10 ^ Z.max (- (t - n + 1)) 0
                / (2 ^ Z.max (- e) 0 * 10 ^ Z.max (t - n + 1) 0), t - n + 1)
  end.

Fixpoint strip_zeros (fuel : nat) (d k : Z) : Z * Z :=
  match fuel with
  | O => (d, k)
  | S fuel' => if (d mod 10 =? 0) && (0 <? d) then strip_zeros fuel' (d / 10) (k + 1)
               else (d, k)
  end.

Definition shortest_digits (m e : Z) : string * Z :=
  let t := decimal_exponent m e in
  let '(d, k) := shortest_from 16 m e t 1 in
  let '(d, k) := strip_zeros 20 d k in
  let digits := pretty d in
  (digits, Z.of_nat (String.length digits) + k).

Fixpoint zeros (n : nat) : string :=
  match n with O => "" | S n' => "0" +:+ zeros n' end.

Definition string_take (n : nat) (s : string) : string := String.substring 0 n s.
Definition string_drop (n : nat) (s : string) : string :=
  String.substring n (String.length s - n) s.

Definition repr_digits (digits : string) (decpt : Z) : string :=
  let n := Z.of_nat (String.length digits) in
  if (decpt <=? -4) || (16 <? decpt) then
    let ex := decpt - 1 in
    let mant := string_take 1 digits
                +:+ (if 1 <? n then "." +:+ string_drop 1 digits else "") in
    let exs := pretty (Z.abs ex) in
    mant +:+ "e" +:+ (if ex <? 0 then "-" else "+")
         +:+ (if Z.abs ex <? 10 then "0" else "") +:+ exs
  else if decpt <=? 0 then "0." +:+ zeros (Z.to_nat (- decpt)) +:+ digits
  else if n <=? decpt then digits +:+ zeros (Z.to_nat (decpt - n)) +:+ ".0"
  else string_take (Z.to_nat decpt) digits +:+ "."
       +:+ string_drop (Z.to_nat decpt) digits.

Definition b64_str (x : spec_float) : string :=
  match x with
  | S754_nan => "nan"
  | S754_infinity s => sign_str s +:+ "inf"
  | S754_zero s => sign_str s +:+ "0.0"
  | S754_finite s m e =>
      let '(digits, decpt) := shortest_digits (Zpos m) e in
      sign_str s +:+ repr_digits digits decpt
  end.

(** ** The running total of [sum]

    Before version 3.12 of the interpreter the total is a float, and
    every item is added to it in turn. *)
Definition py_floats : PyFloat := {|
  float := spec_float;
  float_str := b64_str;
  float_format_1f := b64_format_1f;
  float_is_finite := b64_is_finite;
  fsum := spec_float;
  fsum_start := λ z x, v ← b64_of_int z; Ok (b64_add v x);
  fsum_add_float := b64_add;
  fsum_add_int := λ acc z, v ← b64_of_int z; Ok (b64_add acc v);
  fsum_value := λ acc, acc;
|}.

(** From version 3.12 on the total of floats comes with a compensation
    [c] of the rounding errors, added at the end when it is finite and
    not zero.  An int that fits a C [long] (of 64 bits) is added to the
    total as it is; a larger one ends the compensated loop. *)
Inductive compensated : Type :=
  | Compensated (f_result c : spec_float)
  | Uncompensated (result : spec_float).

Definition add_compensation (f_result c : spec_float) : spec_float :=
  if negb (SFeqb c (S754_zero false)) && b64_is_finite c
  then b64_add f_result c else f_result.

Definition compensated_add (acc : compensated) (x : spec_float)
  : compensated :=
  match acc with
  | Compensated f_result c =>
      let t := b64_add f_result x in
      let c :=
        if SFleb (SFabs x) (SFabs f_result)
        then b64_add c (b64_add (b64_sub f_result t) x)
        else b64_add c (b64_add (b64_sub x t) f_result) in
      Compensated t c
  | Uncompensated result => Uncompensated (b64_add result x)
  end.

Definition compensated_add_int (acc : compensated) (z : Z)
  : result compensated :=
  match acc with
  | Compensated f_result c =>
      if (- 2 ^ 63 <=? z) && (z <? 2 ^ 63)
      then Ok (Compensated (b64_add f_result (b64_of_Z z)) c)
      else v ← b64_of_int z;
           Ok (Uncompensated (b64_add (add_compensation f_result c) v))
  | Uncompensated result =>
      v ← b64_of_int z; Ok (Uncompensated (b64_add result v))
  end.

Definition py_floats_compensated : PyFloat := {|
  float := spec_float;
  float_str := b64_str;
  float_format_1f := b64_format_1f;
  float_is_finite := b64_is_finite;
  fsum := compensated;
  fsum_start := λ z x,
    v ← b64_of_int z; Ok (Compensated (b64_add v x) (S754_zero false));
  fsum_add_float := compensated_add;
  fsum_add_int := compensated_add_int;
  fsum_value := λ acc,
    match acc with
    | Compensated f_result c => add_compensation f_result c
    | Uncompensated result => result
    end;
|}.

(** ** Numbers as they are

    The number that a float is, for what is said of sums: [m * 2 ^ e]
    with any integer [m]. *)
Record dyadic : Type := Dyadic { dy_m : Z; dy_e : Z }.

Definition dy_add (a b : dyadic) : dyadic :=
  let e := Z.min (dy_e a) (dy_e b) in
  Dyadic (dy_m a * 2 ^ (dy_e a - e) + dy_m b * 2 ^ (dy_e b - e)) e.

(** The arithmetic sum. *)
Definition dy_sum (l : list dyadic) : dyadic := foldr dy_add (Dyadic 0 0) l.

Definition b64_value (x : spec_float) : option dyadic :=
  match x with
  | S754_zero _ => Some (Dyadic 0 0)
  | S754_finite s m e => Some (Dyadic (if s then Z.neg m else Z.pos m) e)
  | _ => None
  end.

(** A number with one fractional digit, rounded to nearest, ties to
    even. *)
Definition dy_format_1f (d : dyadic) : string :=
  sign_str (dy_m d <? 0) +:+ digits_1f (Z.abs (dy_m d)) (dy_e d).

(** * A worked example

    Frames without float columns need nothing of the floats. *)

#[export] Instance no_floats : PyFloat := {|
  float := Empty_set;
  float_str := λ x, match x with end;
  float_format_1f := λ x, match x with end;
  float_is_finite := λ x, match x with end;
  fsum := Empty_set;
  fsum_start := λ _ x, match x with end;
  fsum_add_float := λ acc _, acc;
  fsum_add_int := λ acc _, Ok acc;
  fsum_value := λ acc, acc;
|}.

(** A chart dataset with the groups A and B. *)
Definition ex_chart : DataFrame := {|
  columns :=
    ["group"; "cat1_1"; "cat2_1"; "cat3_1"; "cat4_1";
     "cat1_2"; "cat2_2"; "cat3_2"; "cat4_2";
     "cat1_3"; "cat2_3"; "cat3_3"; "cat4_3";
     "pie1"; "pie2"; "pie3"; "pie4"];
  rows :=
    [ [VStr "A"; VInt 11; VInt 21; VInt 31; VInt 41;
       VInt 12; VInt 22; VInt 32; VInt 42;
       VInt 13; VInt 23; VInt 33; VInt 43;
       VInt 1; VInt 2; VInt 3; VInt 4];
      [VStr "B"; VInt 51; VInt 61; VInt 71; VInt 81;
       VInt 52; VInt 62; VInt 72; VInt 82;
       VInt 53; VInt 63; VInt 73; VInt 83;
       VInt 5; VInt 6; VInt 7; VInt 8] ];
|}.

(** The detail table of the scenario of the specification: 8 rows of
    ones under the columns P, X, Y, Z and W. *)
Definition ex_table : DataFrame := {|
  columns := ["P"; "X"; "Y"; "Z"; "W"];
  rows := replicate 8 (replicate 5 (VInt 1));
|}.

(** A chart of the template, with the data it comes with. *)
Definition ex_placeholder_chart : chart := {|
  chart_title := Some "Chart Title";
  plotted :=
    {| cd_categories := ["Category 1"; "Category 2"];
       cd_series :=
         [ {| series_name := "Series 1";
              series_points := [PVal (VInt 4); PVal (VInt 2)] |} ] |};
|}.

Definition ex_slide0 : list shape :=
  [TextShape "Presentation title"; TextShape "Subtitle"; OtherShape].

Definition ex_slide1 : list shape :=
  [TextShape "Chart title"; ChartFrame ex_placeholder_chart;
   ChartFrame ex_placeholder_chart].

Definition ex_slide2 : list shape :=
  [TextShape "Table title"; TableFrame (replicate 10 (replicate 5 ""))].

Definition ex_template : list (list shape) := [ex_slide0; ex_slide1; ex_slide2].

Definition ex_fs : gmap string (list (list shape)) :=
  {[ template_path := ex_template ]}.

(** What the filler is to save for the group A. *)
Definition ex_bar_series : list series_data :=
  [ {| series_name := "Series 1";
       series_points :=
         [PVal (VInt 11); PVal (VInt 21); PVal (VInt 31); PVal (VInt 41)] |};
    {| series_name := "Series 2";
       series_points :=
         [PVal (VInt 12); PVal (VInt 22); PVal (VInt 32); PVal (VInt 42)] |};
    {| series_name := "Series 3";
       series_points :=
         [PVal (VInt 13); PVal (VInt 23); PVal (VInt 33); PVal (VInt 43)] |} ].

Definition ex_pie_series : series_data :=
  {| series_name := "Series 1";
     series_points :=
       [PVal (VInt 1); PVal (VInt 2); PVal (VInt 3); PVal (VInt 4)] |}.

Definition ex_filled : list (list shape) :=
  [ [TextShape "Presentation for Group A";
     TextShape "Financial Information for Group A"; OtherShape];
    [TextShape "Financial Results Summary for Group A";
     ChartFrame
       {| chart_title := Some "Sales by Category: Group A";
          plotted :=
            {| cd_categories :=
                 ["Category 1"; "Category 2"; "Category 3"; "Category 4"];
               cd_series := ex_bar_series |} |};
     ChartFrame
       {| chart_title := Some "Sales by Quarter: Group A";
          plotted :=
            {| cd_categories := ["1st Qtr"; "2nd Qtr"; "3rd Qtr"; "4th Qtr"];
               cd_series := ex_bar_series ++ [ex_pie_series] |} |}];
    [TextShape "Results Table for Group A";
     TableFrame
       (["Product P"; "Product X"; "Product Y"; "Product Z"; "Product W"]
        :: replicate 8 (replicate 5 "1")
        ++ [replicate 5 "8.0"])] ].

(** The frames of a data directory in which the table of B is missing. *)
Definition ex_dataframes : gmap string DataFrame :=
  {[ "chart_df" := ex_chart; "table_A" := ex_table ]}.

(** A group whose name contains a marker, and a template whose title
    slide has no shape for the subtitle. *)
Definition ex_chart_subtitle : DataFrame := {|
  columns := columns ex_chart;
  rows :=
    [ [VStr "Subtitle"; VInt 11; VInt 21; VInt 31; VInt 41;
       VInt 12; VInt 22; VInt 32; VInt 42;
       VInt 13; VInt 23; VInt 33; VInt 43;
       VInt 1; VInt 2; VInt 3; VInt 4] ];
|}.

Definition ex_fs_no_subtitle : gmap string (list (list shape)) :=
  {[ template_path :=
       [ [TextShape "Presentation title"; OtherShape]; ex_slide1; ex_slide2 ] ]}.

(** A template whose title slide has two shapes with the marker of the
    title, the second of which also holds that of the subtitle. *)
Definition ex_slide0_twice : list shape :=
  [TextShape "Presentation title";
   TextShape "Presentation title and Subtitle"].

Definition ex_fs_twice : gmap string (list (list shape)) :=
  {[ template_path := [ex_slide0_twice; ex_slide1; ex_slide2] ]}.

(** A template whose chart slide has no shape with the marker ["Chart"],
    and one whose chart slide has two. *)
Definition ex_fs_no_chart_title : gmap string (list (list shape)) :=
  {[ template_path :=
       [ ex_slide0;
         [TextShape "Results"; ChartFrame ex_placeholder_chart;
          ChartFrame ex_placeholder_chart];
         ex_slide2 ] ]}.

Definition ex_slide1_twice : list shape :=
  [TextShape "Chart title"; ChartFrame ex_placeholder_chart;
   TextShape "Chart notes"; ChartFrame ex_placeholder_chart].

Definition ex_fs_two_chart_titles : gmap string (list (list shape)) :=
  {[ template_path := [ex_slide0; ex_slide1_twice; ex_slide2] ]}.

(** A detail table whose first column holds names. *)
Definition ex_table_names : DataFrame := {|
  columns := ["P"; "X"; "Y"; "Z"; "W"];
  rows := replicate 8 [VStr "pen"; VInt 1; VInt 1; VInt 1; VInt 1];
|}.

(** A template whose table slide has no table, and one whose table has
    9 rows only. *)
Definition ex_fs_no_table : gmap string (list (list shape)) :=
  {[ template_path := [ex_slide0; ex_slide1; [TextShape "Table title"]] ]}.

Definition ex_fs_short_table : gmap string (list (list shape)) :=
  {[ template_path :=
       [ ex_slide0; ex_slide1;
         [TextShape "Table title";
          TableFrame (replicate 9 (replicate 5 ""))] ] ]}.

(** A template whose table slide has no shape with the marker
    ["Table"], and a chart dataset without the columns of the pie
    chart. *)
Definition ex_fs_no_table_title : gmap string (list (list shape)) :=
  {[ template_path :=
       [ ex_slide0; ex_slide1;
         [TextShape "Results"; TableFrame (replicate 10 (replicate 5 ""))] ] ]}.

Definition ex_chart_no_pie : DataFrame := {|
  columns := take 13 (columns ex_chart);
  rows := take 13 <$> rows ex_chart;
|}.

(** Files with a second presentation beside the template. *)
Definition ex_fs_more : gmap string (list (list shape)) :=
  <[ "outputs/old.pptx" := [ex_slide0] ]> ex_fs.

(** A detail table of 9 rows. *)
Definition ex_table_nine : DataFrame := {|
  columns := ["P"; "X"; "Y"; "Z"; "W"];
  rows := replicate 9 (replicate 5 (VInt 1));
|}.

(** A template whose table has 9 rows only. *)
Definition ex_template_short : list (list shape) :=
  [ ex_slide0; ex_slide1;
    [TextShape "Table title"; TableFrame (replicate 9 (replicate 5 ""))] ].

(** The frames of a data directory with the tables of both groups. *)
Definition ex_dataframes_all : gmap string DataFrame :=
  <[ "table_B" := ex_table ]> ex_dataframes.

(** A data directory, and the paths of its files. *)
Definition ex_disk : gmap string DataFrame :=
  {[ "data/chart_df.csv" := ex_chart; "data/table_A.csv" := ex_table ]}.

Definition ex_data_files : list string :=
  ["data/chart_df.csv"; "data/table_A.csv"].

(** ** An example with floats

    The chart dataset and the template of the example again, for any
    floats, and a detail table whose first column holds the floats
    [xs]. *)

Section FloatExample.
Context `{PF : PyFloat}.

Definition fl_chart : DataFrame := {|
  columns :=
    ["group"; "cat1_1"; "cat2_1"; "cat3_1"; "cat4_1";
     "cat1_2"; "cat2_2"; "cat3_2"; "cat4_2";
     "cat1_3"; "cat2_3"; "cat3_3"; "cat4_3";
     "pie1"; "pie2"; "pie3"; "pie4"];
  rows :=
    [ [VStr "A"; VInt 11; VInt 21; VInt 31; VInt 41;
       VInt 12; VInt 22; VInt 32; VInt 42;
       VInt 13; VInt 23; VInt 33; VInt 43;
       VInt 1; VInt 2; VInt 3; VInt 4] ];
|}.

Definition fl_table (xs : list float) : DataFrame := {|
  columns := ["P"; "X"; "Y"; "Z"; "W"];
  rows := (λ x, [VFloat x; VInt 1; VInt 1; VInt 1; VInt 1]) <$> xs;
|}.

Definition fl_template : list (list shape) :=
  [ [TextShape "Presentation title"; TextShape "Subtitle"];
    [TextShape "Chart title";
     ChartFrame {| chart_title := None; plotted := new_chart_data |};
     ChartFrame {| chart_title := None; plotted := new_chart_data |}];
    [TextShape "Table title"; TableFrame (replicate 10 (replicate 5 ""))] ].

Definition fl_fs : gmap string (list (list shape)) :=
  {[ template_path := fl_template ]}.

End FloatExample.

(** The float nearest to a tenth. *)
Definition one_tenth : spec_float := SFdiv 53 1024 (b64_of_Z 1) (b64_of_Z 10).

(** Eight tenths, and eight floats with a large one and a small one. *)
Definition ex_tenths : list spec_float := replicate 8 one_tenth.

Definition ex_large : list spec_float :=
  [b64_of_Z (10 ^ 16); b64_of_Z 1] ++ replicate 6 (S754_zero false).

(** * Properties *)

Section Properties.
Context `{PF : PyFloat}.

Local Abbreviation Table := (list (list string)).
Local Abbreviation Slide := (list shape).
Local Abbreviation Presentation := (list (list shape)).
Local Abbreviation files := (gmap string Presentation).

(** ** Results and loops *)

Lemma bind_Ok {A B} (m : result A) (f : A → result B) (b : B) :
  m ≫= f = Ok b ↔ ∃ a, m = Ok a ∧ f a = Ok b.
Proof.
  destruct m as [a|e]; simpl; split.
  - intros Hf. by exists a.
  - by intros (a' & [= <-] & Hf).
  - intros [=].
  - by intros (a' & [=] & _).
Qed.

Lemma bind_Err {A B} (m : result A) (f : A → result B) (e : exn) :
  m ≫= f = Err e ↔ m = Err e ∨ ∃ a, m = Ok a ∧ f a = Err e.
Proof.
  destruct m as [a|e']; simpl; split.
  - intros Hf. right. by exists a.
  - intros [Hm | (a' & Hm & Hf)]; [done|]. by injection Hm as ->.
  - intros [= ->]. by left.
  - intros [Hm | (a' & Hm & _)]; [by injection Hm as -> | discriminate].
Qed.

Lemma py_index_Ok {A} (l : list A) (i : nat) (a : A) :
  py_index l i = Ok a ↔ l !! i = Some a.
Proof.
  unfold py_index. destruct (l !! i); split; intros [=]; by subst.
Qed.

Lemma py_index_Err {A} (l : list A) (i : nat) (e : exn) :
  py_index l i = Err e → e = IndexError ∧ l !! i = None.
Proof.
  unfold py_index. destruct (l !! i); intros [=]; by subst.
Qed.

Lemma for_each_app {S A} (body : S → A → result S) (s : S) (l1 l2 : list A) :
  for_each body s (l1 ++ l2) = for_each body s l1 ≫= λ s', for_each body s' l2.
Proof.
  revert s. induction l1 as [|a l1 IH]; intros s; simpl; [done|].
  destruct (body s a) as [s'|e]; simpl; [apply IH | done].
Qed.

Lemma for_each_ext {S A} (f g : S → A → result S) (s : S) (l : list A) :
  (∀ s a, f s a = g s a) → for_each f s l = for_each g s l.
Proof.
  intros Hfg. revert s. induction l as [|a l IH]; intros s; simpl; [done|].
  rewrite Hfg. destruct (g s a); simpl; [apply IH | done].
Qed.

(** A loop within a loop is one loop over the pairs, rows first. *)
Lemma for_each_nested {S A B} (f : S → A → B → result S) (s : S)
    (la : list A) (lb : list B) :
  for_each (λ s a, for_each (λ s b, f s a b) s lb) s la
  = for_each (λ s ab, f s ab.1 ab.2) s (a ← la; (λ b, (a, b)) <$> lb).
Proof.
  revert s. induction la as [|a la IH]; intros s; simpl; [done|].
  rewrite for_each_app.
  assert (for_each (λ s b, f s a b) s lb
          = for_each (λ s ab, f s ab.1 ab.2) s ((λ b, (a, b)) <$> lb)) as ->.
  { clear IH. revert s. induction lb as [|b lb IHb]; intros s; simpl; [done|].
    destruct (f s a b); simpl; [apply IHb | done]. }
  destruct (for_each _ s (_ <$> lb)); simpl; [apply IH | done].
Qed.

Lemma mapM_Ok_Forall2 {A B} (f : A → result B) (l : list A) (k : list B) :
  mapM f l = Ok k ↔ Forall2 (λ a b, f a = Ok b) l k.
Proof.
  revert k. induction l as [|a l IH]; intros k; simpl.
  - split.
    + intros [= <-]. constructor.
    + intros Hk. by inversion Hk.
  - split.
    + intros Hm. apply bind_Ok in Hm as (b & Hb & Hm).
      apply bind_Ok in Hm as (k' & Hk' & [= <-]).
      constructor; [done | by apply IH].
    + intros Hk. inversion Hk as [|? b ? k' Hb Hk']; subst.
      rewrite Hb. simpl. apply IH in Hk'. by rewrite Hk'.
Qed.

(** ** References into a slide *)

Lemma select_from_ge n p (sl : Slide) :
  Forall (λ ref, n ≤ ref)%nat (select_from n p sl).
Proof.
  revert n. induction sl as [|s sl IH]; intros n; simpl; [constructor|].
  assert (Forall (λ ref, n ≤ ref)%nat (select_from (S n) p sl)) as Hle.
  { eapply Forall_impl; [apply IH | simpl; lia]. }
  destruct (p s); [constructor; [lia | done] | done].
Qed.

(** The first selected shape is the first shape of the slide that
    satisfies the test; the later selections lie behind it. *)
Lemma select_from_first n p (sl : Slide) ref rest :
  select_from n p sl = ref :: rest →
  ∃ i s, ref = (n + i)%nat ∧ sl !! i = Some s ∧ p s = true ∧
         (∀ i' s', (i' < i)%nat → sl !! i' = Some s' → p s' = false) ∧
         Forall (λ r, ref < r)%nat rest.
Proof.
  revert n ref rest. induction sl as [|s sl IH]; intros n ref rest; simpl;
    [done|].
  destruct (p s) eqn:Hp.
  - intros [= <- <-]. exists 0%nat, s.
    split; [lia|]. split; [done|]. split; [done|]. split; [lia|].
    eapply Forall_impl; [apply select_from_ge | simpl; lia].
  - intros Hsel.
    destruct (IH _ _ _ Hsel) as (i & s' & -> & Hi & Hs' & Hbefore & Hrest).
    exists (S i), s'.
    split; [lia|]. split; [done|]. split; [done|]. split; [|done].
    intros [|i'] s'' Hlt; simpl; [by intros [= <-] | ].
    apply Hbefore. lia.
Qed.

Lemma select_shapes_first p (sl : Slide) ref :
  select_shapes p sl !! 0%nat = Some ref →
  ∃ s, sl !! ref = Some s ∧ p s = true ∧
       ∀ i s', (i < ref)%nat → sl !! i = Some s' → p s' = false.
Proof.
  unfold select_shapes. destruct (select_from 0 p sl) as [|r rest] eqn:Hsel;
    [done|]. intros [= ->].
  destruct (select_from_first _ _ _ _ _ Hsel) as (i & s & -> & Hi & Hs & Hb & _).
  by exists s.
Qed.

(** Every selected shape is a shape of the slide that satisfies the
    test. *)
Lemma select_from_elem n p (sl : Slide) ref :
  ref ∈ select_from n p sl →
  ∃ s, (n ≤ ref)%nat ∧ sl !! (ref - n)%nat = Some s ∧ p s = true.
Proof.
  revert n. induction sl as [|s sl IH]; intros n; simpl;
    [by intros ?%elem_of_nil|].
  assert (ref ∈ select_from (S n) p sl →
          ∃ s', (n ≤ ref)%nat ∧ (s :: sl) !! (ref - n)%nat = Some s'
                ∧ p s' = true) as Htail.
  { intros (s' & Hle & Hs' & Hp)%IH. exists s'.
    replace (ref - n)%nat with (S (ref - S n)) by lia.
    split; [lia | done]. }
  destruct (p s) eqn:Hp; [|done].
  intros [->|Hin]%elem_of_cons; [|by apply Htail].
  exists s. rewrite Nat.sub_diag. done.
Qed.

Lemma select_shapes_elem p (sl : Slide) k ref :
  select_shapes p sl !! k = Some ref →
  ∃ s, sl !! ref = Some s ∧ p s = true.
Proof.
  intros Hk%list_elem_of_lookup_2.
  apply select_from_elem in Hk as (s & _ & Hs & Hp).
  rewrite Nat.sub_0_r in Hs. by exists s.
Qed.

(** Two references taken at different places of a selection differ. *)
Lemma select_shapes_distinct p (sl : Slide) a b :
  select_shapes p sl !! 0%nat = Some a →
  select_shapes p sl !! 1%nat = Some b →
  (a < b)%nat.
Proof.
  unfold select_shapes. destruct (select_from 0 p sl) as [|r rest] eqn:Hsel;
    [done|]. intros [= ->] Hb.
  destruct (select_from_first _ _ _ _ _ Hsel) as (_ & _ & _ & _ & _ & _ & Hrest).
  destruct rest as [|r' rest]; [done|]. injection Hb as ->.
  by inversion Hrest.
Qed.

(** A selection only looks at the test on each shape. *)
Lemma select_from_Forall2 n p (sl sl' : Slide) :
  Forall2 (λ s s', p s = p s') sl sl' →
  select_from n p sl = select_from n p sl'.
Proof.
  intros Hsl. revert n. induction Hsl as [|s s' sl sl' Hs _ IH]; intros n;
    simpl; [done|].
  rewrite Hs, IH. done.
Qed.

Lemma select_shapes_alter p f i (sl : Slide) :
  (∀ s, p (f s) = p s) →
  select_shapes p (alter f i sl) = select_shapes p sl.
Proof.
  intros Hf. symmetry. apply select_from_Forall2.
  apply Forall2_alter_r.
  - apply Forall_Forall2_diag, Forall_forall. done.
  - intros x y _ _ ->. by rewrite Hf.
Qed.

Lemma select_shapes_insert p i s s' (sl : Slide) :
  sl !! i = Some s → p s' = p s →
  select_shapes p (<[i := s']> sl) = select_shapes p sl.
Proof.
  intros Hi Hp. rewrite list_insert_alter.
  rewrite <-(list_alter_id (λ x, x) sl i) at 2 by done.
  symmetry. apply select_from_Forall2.
  apply Forall2_same_length_lookup. split; [by rewrite !length_alter|].
  intros k x y. destruct (decide (i = k)) as [->|Hne].
  - rewrite !list_lookup_alter_eq, Hi. simpl. by intros [= <-] [= <-].
  - rewrite !list_lookup_alter_ne by done. by intros -> [= <-].
Qed.

Lemma mentions_text marker s :
  mentions marker s = true → ∃ text, s = TextShape text.
Proof. destruct s; simpl; try done. by eexists. Qed.

Lemma set_text_lookup ref text (sl : Slide) old :
  sl !! ref = Some (TextShape old) →
  set_text ref text sl = <[ref := TextShape text]> sl.
Proof.
  intros Href. unfold set_text. rewrite list_insert_alter.
  apply list_alter_ext; [|done]. intros s. rewrite Href. by intros [= <-].
Qed.

Lemma with_chart_has_chart ref f sl :
  select_shapes has_chart (with_chart ref f sl) = select_shapes has_chart sl.
Proof. apply select_shapes_alter. by intros []. Qed.

(** What [change_text] does when it does not raise. *)
Lemma change_text_Ok marker text (sl sl' : Slide) :
  change_text marker text sl = Ok sl' ↔
  ∃ ref old, select_shapes (mentions marker) sl !! 0%nat = Some ref ∧
             sl !! ref = Some (TextShape old) ∧
             sl' = <[ref := TextShape text]> sl.
Proof.
  unfold change_text. rewrite bind_Ok. split.
  - intros (ref & Href%py_index_Ok & [= <-]).
    destruct (select_shapes_first _ _ _ Href) as (s & Hs & Hm & _).
    destruct (mentions_text _ _ Hm) as [old ->].
    exists ref, old. by rewrite (set_text_lookup _ _ _ old).
  - intros (ref & old & Href & Hold & ->). exists ref.
    by rewrite py_index_Ok, (set_text_lookup _ _ _ old).
Qed.

Lemma change_text_Err marker text (sl : Slide) e :
  change_text marker text sl = Err e ↔
  e = IndexError ∧ select_shapes (mentions marker) sl = [].
Proof.
  unfold change_text, py_index.
  destruct (select_shapes (mentions marker) sl) as [|ref rest]; simpl.
  - split; [by intros [= <-] | by intros [-> _]].
  - split; [done | by intros [_ ?]].
Qed.

(** ** Writing into the table *)

Lemma set_cell_Ok (t t' : Table) i j text :
  set_cell t i j text = Ok t' →
  cell t' i j = Ok text ∧
  ∀ i' j', (i', j') ≠ (i, j) → cell t' i' j' = cell t i' j'.
Proof.
  unfold set_cell. intros (r & Hr%py_index_Ok & Hc)%bind_Ok.
  apply bind_Ok in Hc as (old & Hold%py_index_Ok & [= <-]).
  pose proof (lookup_lt_Some _ _ _ Hr) as Hi.
  pose proof (lookup_lt_Some _ _ _ Hold) as Hj.
  split.
  - unfold cell, py_index. rewrite list_lookup_insert_eq by done. simpl.
    by rewrite list_lookup_insert_eq.
  - intros i' j' Hne. unfold cell, py_index.
    destruct (decide (i = i')) as [<-|Hi'].
    + rewrite list_lookup_insert_eq by done. rewrite Hr. simpl.
      rewrite list_lookup_insert_ne; [done | congruence].
    + by rewrite list_lookup_insert_ne.
Qed.

Lemma write_cell_Ok refs ref i j text (sl sl' : Slide) (t : Table) :
  refs !! 0%nat = Some ref → sl !! ref = Some (TableFrame t) →
  write_cell refs i j text sl = Ok sl' →
  ∃ t', set_cell t i j text = Ok t' ∧ sl' = <[ref := TableFrame t']> sl.
Proof.
  intros Href Ht. unfold write_cell, py_index. rewrite Href. simpl.
  rewrite Ht. intros (t' & Ht' & [= <-])%bind_Ok. by exists t'.
Qed.

(** The reference that [write_cell] goes through is to a table. *)
Lemma write_cell_ref refs i j text (sl sl' : Slide) :
  write_cell refs i j text sl = Ok sl' →
  ∃ ref t, refs !! 0%nat = Some ref ∧ sl !! ref = Some (TableFrame t).
Proof.
  unfold write_cell. intros (ref & Href%py_index_Ok & Hw)%bind_Ok.
  destruct (sl !! ref) as [[| |t|]|] eqn:Ht; try done. by exists ref, t.
Qed.

(** A loop of cell writes, each at its own place [key a] with the text
    [rhs a]: every text of the loop is in its cell afterwards, the other
    cells are as before, and so are the other shapes. *)
Lemma write_loop {A} refs ref (key : A → nat * nat) (rhs : A → result string)
    (l : list A) (sl sl' : Slide) (t : Table) :
  refs !! 0%nat = Some ref → NoDup (key <$> l) →
  sl !! ref = Some (TableFrame t) →
  for_each (λ sl a, text ← rhs a; write_cell refs (key a).1 (key a).2 text sl)
    sl l = Ok sl' →
  ∃ t', sl' = <[ref := TableFrame t']> sl ∧
        (∀ a, a ∈ l → ∃ text, rhs a = Ok text ∧
                               cell t' (key a).1 (key a).2 = Ok text) ∧
        (∀ i j, (i, j) ∉ key <$> l → cell t' i j = cell t i j).
Proof.
  intros Href. revert sl t. induction l as [|a l IH]; intros sl t Hnd Ht; simpl.
  - intros [= <-]. exists t. split; [by rewrite list_insert_id|].
    split; [by intros a Ha%elem_of_nil | done].
  - apply NoDup_cons in Hnd as [Ha Hnd].
    intros (sl1 & Hbody & Hloop)%bind_Ok.
    apply bind_Ok in Hbody as (text & Hrhs & Hw).
    destruct (write_cell_Ok _ _ _ _ _ _ _ _ Href Ht Hw) as (t1 & Hset & ->).
    apply set_cell_Ok in Hset as [Hnew Hold].
    pose proof (lookup_lt_Some _ _ _ Ht) as Hlt.
    destruct (IH (<[ref := TableFrame t1]> sl) t1 Hnd) as (t' & -> & Hin & Hout);
      [by rewrite list_lookup_insert_eq | done |].
    exists t'. split; [by rewrite list_insert_insert_eq|]. split.
    + intros a' [->|Ha']%elem_of_cons; [|by apply Hin].
      exists text. split; [done|]. rewrite Hout; [done|].
      by destruct (key a).
    + intros i j Hij. apply not_elem_of_cons in Hij as [Hne Hij].
      rewrite Hout by done. apply Hold. by destruct (key a).
Qed.

Lemma NoDup_pairs (la lb : list nat) :
  NoDup la → NoDup lb → NoDup (a ← la; (λ b, (a, b)) <$> lb).
Proof.
  intros Ha Hb. induction Ha as [|a la Hnotin Ha IH]; simpl; [constructor|].
  apply NoDup_app. split; [|split; [|done]].
  - apply NoDup_fmap_2; [|done]. by intros ?? [=].
  - intros [x y] (b & [= -> ->] & _)%list_elem_of_fmap Hin.
    apply list_elem_of_bind in Hin as (a' & Hin & Ha').
    apply list_elem_of_fmap in Hin as (b' & [= -> ->] & _). done.
Qed.

Lemma elem_of_range a b i : i ∈ range a b ↔ (a ≤ i < b)%nat.
Proof. unfold range. rewrite elem_of_seq. lia. Qed.

Lemma NoDup_range a b : NoDup (range a b).
Proof. apply NoDup_seq. Qed.

(** ** The three loops of the table slide *)

Section Loops.
Variables (sales_data : DataFrame) (refs : list nat) (ref : nat).
Hypothesis Href : refs !! 0%nat = Some ref.

Lemma headings_spec (sl sl' : Slide) (t : Table) :
  sl !! ref = Some (TableFrame t) →
  headings sales_data refs sl = Ok sl' →
  ∃ t', sl' = <[ref := TableFrame t']> sl ∧
        (∀ j, (j < 5)%nat → ∃ name, columns sales_data !! j = Some name ∧
                                     cell t' 0 j = Ok ("Product " +:+ name)) ∧
        (∀ i j, i ≠ 0%nat → cell t' i j = cell t i j).
Proof.
  intros Ht. unfold headings.
  rewrite (for_each_ext _
    (λ sl j, text ← (name ← py_index (columns sales_data) j;
                      Ok ("Product " +:+ name));
             write_cell refs ((λ j, (0%nat, j)) j).1 ((λ j, (0%nat, j)) j).2
               text sl)).
  2: { intros s j. by destruct (py_index (columns sales_data) j). }
  intros Hloop.
  assert (NoDup ((λ j, (0%nat, j)) <$> range 0 5)) as Hnd.
  { apply NoDup_fmap_2; [by intros ?? [=] | apply NoDup_range]. }
  destruct (write_loop _ _ _ _ _ _ _ _ Href Hnd Ht Hloop)
    as (t' & -> & Hin & Hout).
  exists t'. split; [done|]. split.
  - intros j Hj. destruct (Hin j) as (text & Hrhs & Hcell);
      [apply elem_of_range; lia|].
    apply bind_Ok in Hrhs as (name & Hname%py_index_Ok & [= <-]).
    by exists name.
  - intros i j Hi. apply Hout.
    intros (j' & [= -> ->] & _)%list_elem_of_fmap. done.
Qed.

Lemma data_spec (sl sl' : Slide) (t : Table) :
  sl !! ref = Some (TableFrame t) →
  data sales_data refs sl = Ok sl' →
  ∃ t', sl' = <[ref := TableFrame t']> sl ∧
        (∀ i j, (1 ≤ i < 9)%nat → (j < 5)%nat →
           ∃ v, iloc sales_data (i - 1) j = Ok v ∧
                cell t' i j = Ok (py_str v)) ∧
        (∀ i j, ¬ (1 ≤ i < 9)%nat → cell t' i j = cell t i j).
Proof.
  intros Ht. unfold data.
  rewrite (for_each_nested
    (λ sl i j, v ← iloc sales_data (i - 1) j;
               write_cell refs i j (py_str v) sl)).
  rewrite (for_each_ext _
    (λ sl ij, text ← (v ← iloc sales_data (ij.1 - 1) ij.2; Ok (py_str v));
              write_cell refs (id ij).1 (id ij).2 text sl)).
  2: { intros s ij. simpl. by destruct (iloc sales_data (ij.1 - 1) ij.2). }
  intros Hloop.
  assert (NoDup (id <$> (i ← range 1 9; (λ j, (i, j)) <$> range 0 5))) as Hnd.
  { rewrite list_fmap_id. apply NoDup_pairs; apply NoDup_range. }
  destruct (write_loop _ _ _ _ _ _ _ _ Href Hnd Ht Hloop)
    as (t' & -> & Hin & Hout).
  exists t'. split; [done|]. split.
  - intros i j Hi Hj. destruct (Hin (i, j)) as (text & Hrhs & Hcell).
    { apply list_elem_of_bind. exists i. split; [|apply elem_of_range; lia].
      apply list_elem_of_fmap. exists j. split; [done|].
      apply elem_of_range; lia. }
    apply bind_Ok in Hrhs as (v & Hv & [= <-]). by exists v.
  - intros i j Hi. apply Hout. rewrite list_fmap_id.
    intros (i' & Hin' & Hi'%elem_of_range)%list_elem_of_bind.
    apply list_elem_of_fmap in Hin' as (j' & [= -> ->] & _). lia.
Qed.

Lemma totals_spec (sl sl' : Slide) (t : Table) :
  sl !! ref = Some (TableFrame t) →
  totals sales_data refs sl = Ok sl' →
  ∃ t', sl' = <[ref := TableFrame t']> sl ∧
        (∀ j, (j < 5)%nat →
           ∃ col total text,
             iloc_col sales_data j = Ok col ∧ py_sum col = Ok total ∧
             format_1f total = Ok text ∧ cell t' 9 j = Ok text) ∧
        (∀ i j, i ≠ 9%nat → cell t' i j = cell t i j).
Proof.
  intros Ht. unfold totals.
  rewrite (for_each_ext _
    (λ sl j, text ← (col ← iloc_col sales_data j; total ← py_sum col;
                      format_1f total);
             write_cell refs ((λ j, (9%nat, j)) j).1 ((λ j, (9%nat, j)) j).2
               text sl)).
  2: { intros s j. destruct (iloc_col sales_data j) as [col|]; simpl; [|done].
       by destruct (py_sum col). }
  intros Hloop.
  assert (NoDup ((λ j, (9%nat, j)) <$> range 0 5)) as Hnd.
  { apply NoDup_fmap_2; [by intros ?? [=] | apply NoDup_range]. }
  destruct (write_loop _ _ _ _ _ _ _ _ Href Hnd Ht Hloop)
    as (t' & -> & Hin & Hout).
  exists t'. split; [done|]. split.
  - intros j Hj. destruct (Hin j) as (text & Hrhs & Hcell);
      [apply elem_of_range; lia|].
    apply bind_Ok in Hrhs as (col & Hcol & Hrhs).
    apply bind_Ok in Hrhs as (total & Htotal & Htext).
    by exists col, total, text.
  - intros i j Hi. apply Hout.
    intros (j' & [= -> ->] & _)%list_elem_of_fmap. done.
Qed.

End Loops.

(** The first of the cell writes already needs the table. *)
Lemma headings_ref sales_data refs (sl sl' : Slide) :
  headings sales_data refs sl = Ok sl' →
  ∃ ref t, refs !! 0%nat = Some ref ∧ sl !! ref = Some (TableFrame t).
Proof.
  unfold headings, range. simpl.
  intros (sl1 & Hbody & _)%bind_Ok.
  apply bind_Ok in Hbody as (name & _ & Hw). by eapply write_cell_ref.
Qed.

(** The table slide after [second_chart]: the title shape and the first
    table are replaced, the table holds headings, data and totals. *)
Lemma second_chart_spec group sales_data (sl sl' : Slide) :
  second_chart group sales_data sl = Ok sl' →
  ∃ tref old ref t t',
    select_shapes (mentions "Table") sl !! 0%nat = Some tref ∧
    sl !! tref = Some (TextShape old) ∧
    select_shapes has_table sl !! 0%nat = Some ref ∧
    sl !! ref = Some (TableFrame t) ∧
    sl' = <[ref := TableFrame t']>
            (<[tref := TextShape ("Results Table for Group " +:+ group)]> sl) ∧
    headings_in sales_data t' ∧ data_in sales_data t' ∧
    totals_in sales_data t'.
Proof.
  unfold second_chart. intros (sl0 & Htitle & Hrest)%bind_Ok.
  apply change_text_Ok in Htitle as (tref & old & Htref & Hold & ->).
  assert (select_shapes has_table
            (<[tref := TextShape ("Results Table for Group " +:+ group)]> sl)
          = select_shapes has_table sl) as Hsel
    by by eapply select_shapes_insert.
  rewrite Hsel in Hrest. set (sl0 := <[tref := _]> sl) in *.
  apply bind_Ok in Hrest as (sl1 & Hh & Hrest).
  apply bind_Ok in Hrest as (sl2 & Hd & Ht).
  destruct (headings_ref _ _ _ _ Hh) as (ref & t & Href & Hreft).
  destruct (headings_spec _ _ _ Href _ _ _ Hreft Hh) as (t1 & -> & Hh1 & Hh2).
  pose proof (lookup_lt_Some _ _ _ Hreft) as Hlt.
  assert (<[ref := TableFrame t1]> sl0 !! ref = Some (TableFrame t1)) as Hreft1
    by by rewrite list_lookup_insert_eq.
  destruct (data_spec _ _ _ Href _ _ _ Hreft1 Hd) as (t2 & -> & Hd1 & Hd2).
  rewrite list_insert_insert_eq in Ht.
  assert (<[ref := TableFrame t2]> sl0 !! ref = Some (TableFrame t2)) as Hreft2
    by by rewrite list_lookup_insert_eq.
  destruct (totals_spec _ _ _ Href _ _ _ Hreft2 Ht) as (t3 & -> & Ht1 & Ht2).
  rewrite list_insert_insert_eq.
  assert (tref ≠ ref) as Hne.
  { intros ->. subst sl0. rewrite list_lookup_insert_eq in Hreft; [done|].
    by eapply lookup_lt_Some. }
  exists tref, old, ref, t, t3.
  split; [done|]. split; [done|]. split; [done|].
  split; [subst sl0; by rewrite list_lookup_insert_ne in Hreft|].
  split; [done|]. split; [|split; [|done]].
  - intros j Hj. destruct (Hh1 j Hj) as (name & Hname & Hcell).
    exists name. split; [done|].
    rewrite Ht2 by done. rewrite Hd2 by lia. done.
  - intros i j Hi Hj. destruct (Hd1 i j Hi Hj) as (v & Hv & Hcell).
    exists v. split; [done|]. rewrite Ht2 by lia. done.
Qed.

(** ** A run that succeeds, taken apart *)

Lemma edit_pres_in_memory_Ok group data_chart data_table input_file
    (fs : files) (out : Presentation) :
  edit_pres_in_memory group data_chart data_table input_file fs = Ok out ↔
  ∃ series pres slide0 slide0' slide1 slide1' slide2 slide2',
    select_group data_chart group = Ok series ∧
    fs !! input_file = Some pres ∧
    pres !! 0%nat = Some slide0 ∧ title_slide group slide0 = Ok slide0' ∧
    pres !! 1%nat = Some slide1 ∧
    first_chart group series slide1 = Ok slide1' ∧
    pres !! 2%nat = Some slide2 ∧
    second_chart group data_table slide2 = Ok slide2' ∧
    out = <[2%nat := slide2']>
            (<[1%nat := slide1']> (<[0%nat := slide0']> pres)).
Proof.
  unfold edit_pres_in_memory, load. split.
  - intros (series & Hseries & H)%bind_Ok.
    apply bind_Ok in H as (pres & Hpres & H).
    destruct (fs !! input_file) as [pres'|] eqn:Hfs; [|done].
    injection Hpres as ->.
    apply bind_Ok in H as (slide0 & H0%py_index_Ok & H).
    apply bind_Ok in H as (slide0' & H0' & H).
    apply bind_Ok in H as (slide1 & H1%py_index_Ok & H).
    apply bind_Ok in H as (slide1' & H1' & H).
    apply bind_Ok in H as (slide2 & H2%py_index_Ok & H).
    apply bind_Ok in H as (slide2' & H2' & [= <-]).
    by exists series, pres, slide0, slide0', slide1, slide1', slide2, slide2'.
  - intros (series & pres & slide0 & slide0' & slide1 & slide1' & slide2 &
            slide2' & -> & -> & H0%py_index_Ok & H0' & H1%py_index_Ok & H1' &
            H2%py_index_Ok & H2' & ->).
    simpl. rewrite H0. simpl. rewrite H0'. simpl. rewrite H1. simpl.
    rewrite H1'. simpl. rewrite H2. simpl. by rewrite H2'.
Qed.

Lemma edit_pres_Ok group data_chart data_table input_file output_file
    (fs fs' : files) msg :
  edit_pres group data_chart data_table input_file output_file fs
  = (Ok msg, fs') ↔
  ∃ out, edit_pres_in_memory group data_chart data_table input_file fs = Ok out
         ∧ msg = "Successfully saved version " +:+ group +:+ "!"
         ∧ fs' = <[output_file := out]> fs.
Proof.
  unfold edit_pres.
  destruct (edit_pres_in_memory _ _ _ _ _) as [out|e]; split.
  - intros [= <- <-]. by exists out.
  - by intros (out' & [= <-] & -> & ->).
  - done.
  - by intros (out' & [=] & _).
Qed.

(** The three slides of the presentation in memory. *)
Lemma filled_slides (pres : Presentation) s0 s1 s2 s0' s1' s2' :
  pres !! 0%nat = Some s0 → pres !! 1%nat = Some s1 → pres !! 2%nat = Some s2 →
  let out := <[2%nat := s2']> (<[1%nat := s1']> (<[0%nat := s0']> pres)) in
  out !! 0%nat = Some s0' ∧ out !! 1%nat = Some s1' ∧ out !! 2%nat = Some s2'.
Proof.
  intros H0%lookup_lt_Some H1%lookup_lt_Some H2%lookup_lt_Some. simpl.
  split; [|split].
  - rewrite !list_lookup_insert_ne by done. by rewrite list_lookup_insert_eq.
  - rewrite list_lookup_insert_ne by done.
    rewrite list_lookup_insert_eq; [done | by rewrite length_insert].
  - rewrite list_lookup_insert_eq; [done | by rewrite !length_insert].
Qed.

(** The table saved by a run that succeeds. *)
Lemma saved_table group data_chart data_table input_file output_file
    (fs fs' : files) msg :
  edit_pres group data_chart data_table input_file output_file fs
  = (Ok msg, fs') →
  ∃ pres t, fs' !! output_file = Some pres ∧ table_of pres = Some t ∧
            headings_in data_table t ∧ data_in data_table t ∧
            totals_in data_table t.
Proof.
  intros (out & Hmem & _ & ->)%edit_pres_Ok.
  apply edit_pres_in_memory_Ok in Hmem
    as (series & pres & s0 & s0' & s1 & s1' & s2 & s2' & _ & _ & H0 & _ &
        H1 & _ & H2 & Hsecond & ->).
  destruct (filled_slides pres _ _ _ s0' s1' s2' H0 H1 H2) as (_ & _ & Hout2).
  apply second_chart_spec in Hsecond
    as (tref & old & ref & t & t' & Htref & Hold & Href & Ht & -> & Hh & Hd & Ht').
  eexists _, t'. split; [by rewrite lookup_insert_eq|].
  split; [|done].
  unfold table_of. rewrite Hout2. simpl.
  assert (tref ≠ ref) as Hne by (intros ->; congruence).
  erewrite select_shapes_insert;
    [ | by rewrite list_lookup_insert_ne | done].
  erewrite select_shapes_insert; [ | done | done].
  rewrite Href. simpl. rewrite list_lookup_insert_eq; [done|].
  rewrite length_insert. by eapply lookup_lt_Some.
Qed.

(** ** Sums and the one-digit format *)

Lemma sum_from_ints acc (zs : list Z) :
  sum_from acc (VInt <$> zs) = Ok (NInt (acc + Zsum zs)).
Proof.
  revert acc. induction zs as [|z zs IH]; intros acc; simpl.
  - by rewrite Z.add_0_r.
  - rewrite IH. do 2 f_equal. unfold Zsum. simpl. lia.
Qed.

Lemma py_sum_ints (zs : list Z) : py_sum (VInt <$> zs) = Ok (NInt (Zsum zs)).
Proof. unfold py_sum. by rewrite sum_from_ints. Qed.

(** A column of floats: the first is added to the int [0], the others to
    the running total, in their order. *)
Lemma sum_float_floats acc (xs : list float) :
  sum_float acc (VFloat <$> xs)
  = Ok (NFloat (fsum_value (foldl fsum_add_float acc xs))).
Proof.
  revert acc. induction xs as [|x xs IH]; intros acc; [done|]. simpl.
  apply IH.
Qed.

Lemma py_sum_floats x (xs : list float) :
  py_sum (VFloat <$> x :: xs)
  = acc ← fsum_start 0 x;
    Ok (NFloat (fsum_value (foldl fsum_add_float acc xs))).
Proof.
  unfold py_sum. simpl. destruct (fsum_start 0 x) as [acc|]; [|done]. simpl.
  apply sum_float_floats.
Qed.

(** Integers of magnitude up to [2 ^ 53] are binary64 values. *)
Lemma round_binary64_exact z : Z.abs z ≤ 2 ^ 53 → round_binary64 z = z.
Proof.
  intros Hz. unfold round_binary64.
  destruct (Z.leb_spec (Z.log2 (Z.abs z) - 52) 0) as [Hk|Hk]; [done|].
  assert (Z.abs z = 2 ^ 53) as Habs.
  { destruct (Z.eq_dec (Z.abs z) (2 ^ 53)) as [|Hne]; [done|].
    assert (Z.log2 (Z.abs z) < 53); [|lia].
    destruct (Z.eq_dec (Z.abs z) 0) as [->|Hnz]; [done|].
    apply Z.log2_lt_pow2; lia. }
  rewrite Habs. destruct z as [|p|p]; simpl in Habs; [done| |].
  - by injection Habs as ->.
  - by injection Habs as ->.
Qed.

Lemma int_format_1f_exact z :
  Z.abs z ≤ 2 ^ 53 → int_format_1f z = Ok (pretty z +:+ ".0").
Proof.
  intros Hz. unfold int_format_1f, float_of_int.
  rewrite round_binary64_exact by done.
  destruct (Z.ltb_spec (Z.abs z) (2 ^ 1024)) as [|Hge]; [done|].
  assert (2 ^ 53 < 2 ^ 1024) by (apply Z.pow_lt_mono_r; lia). lia.
Qed.

Lemma iloc_col_Ok (df : DataFrame) j col :
  iloc_col df j = Ok col →
  Forall2 (λ r v, r !! j = Some v) (rows df) col.
Proof.
  unfold iloc_col. case_bool_decide; [|done].
  intros Hcol%mapM_Ok_Forall2. eapply Forall2_impl; [done|].
  intros r v. apply py_index_Ok.
Qed.

(** ** The table of the saved presentation *)

(** C8: in the table saved by a run that succeeds, the cell of row 0 at
    each column [j] of 0..4 holds ["Product "] followed by the label of
    the [j]-th column of the detail table, in the order of its columns. *)
Theorem header_row group data_chart data_table input_file output_file
    (fs fs' : files) msg :
  edit_pres group data_chart data_table input_file output_file fs
  = (Ok msg, fs') →
  ∃ pres t, fs' !! output_file = Some pres ∧ table_of pres = Some t ∧
    ∀ j, (j < 5)%nat →
      ∃ name, columns data_table !! j = Some name ∧
              cell t 0 j = Ok ("Product " +:+ name).
Proof.
  intros (pres & t & Hpres & Ht & Hh & _ & _)%saved_table.
  by exists pres, t.
Qed.

(** C3: in the table saved by a run that succeeds, the cell at row [i]
    of 1..8 and column [j] of 0..4 holds [str] of the cell of the detail
    table at the positions [i - 1] and [j]; no label is looked up. *)
Theorem data_rows group data_chart data_table input_file output_file
    (fs fs' : files) msg :
  edit_pres group data_chart data_table input_file output_file fs
  = (Ok msg, fs') →
  ∃ pres t, fs' !! output_file = Some pres ∧ table_of pres = Some t ∧
    ∀ i j, (1 ≤ i ≤ 8)%nat → (j < 5)%nat →
      ∃ r v, rows data_table !! (i - 1)%nat = Some r ∧ r !! j = Some v ∧
             cell t i j = Ok (py_str v).
Proof.
  intros (pres & t & Hpres & Ht & _ & Hd & _)%saved_table.
  exists pres, t. split; [done|]. split; [done|].
  intros i j Hi Hj. destruct (Hd i j ltac:(lia) Hj) as (v & Hv & Hcell).
  apply bind_Ok in Hv as (r & Hr%py_index_Ok & Hv%py_index_Ok).
  by exists r, v.
Qed.


(** ** The charts of the saved presentation *)

Lemma select_values_row labels r names a :
  select_values (SqRow labels r) names = Ok a →
  ∃ vals, a = Arr1 vals ∧
          Forall2 (λ n v, at_label labels r n = Some v) names vals.
Proof.
  simpl. intros (ps & Hps & Hvals)%bind_Ok.
  apply bind_Ok in Hvals as (vals & Hvals & [= <-]).
  exists vals. split; [done|].
  apply mapM_Ok_Forall2 in Hps. apply mapM_Ok_Forall2 in Hvals.
  revert vals Hvals. induction Hps as [|n c names ps Hc _ IH];
    intros vals Hvals; inversion Hvals as [|? v ? vals' Hv Hvals']; subst;
    constructor; [|by apply IH].
  unfold at_label. destruct (column_pos labels n); [|done].
  injection Hc as ->. simpl. by apply py_index_Ok.
Qed.

(** With one matching row the selected series is that row, labelled by
    the columns, unless the frame has the one column ["group"]. *)
Lemma select_group_one data_chart group r series :
  matching_rows data_chart group = Ok [r] →
  select_group data_chart group = Ok series →
  series = SqRow (columns data_chart) r ∨ ∃ v, series = SqScalar v.
Proof.
  unfold select_group. intros ->. simpl. intros [= <-]. unfold squeeze. simpl.
  destruct r as [|v [|v' r]], (columns data_chart) as [|l [|l' ls]];
    eauto.
Qed.

Lemma select_values_scalar v names : is_Ok (select_values (SqScalar v) names) = false.
Proof. by destruct v. Qed.

Lemma try_chart_Ok ref (f : chart → result chart) (sl sl' : Slide) :
  try_chart ref f sl = Ok sl' →
  ∃ c c', sl !! ref = Some (ChartFrame c) ∧ f c = Ok c' ∧
          sl' = <[ref := ChartFrame c']> sl.
Proof.
  unfold try_chart. destruct (sl !! ref) as [[|c| |]|]; try done.
  intros (c' & Hc' & [= <-])%bind_Ok. by exists c, c'.
Qed.

Lemma replace_data_Ok cd c c' :
  replace_data cd c = Ok c' →
  write_workbook cd = Ok () ∧
  c' = {| chart_title := chart_title c; plotted := cd |}.
Proof. unfold replace_data. by intros ([] & Hw & [= <-])%bind_Ok. Qed.

Lemma with_chart_insert ref f c (sl : Slide) :
  (ref < length sl)%nat →
  with_chart ref f (<[ref := ChartFrame c]> sl) = <[ref := ChartFrame (f c)]> sl.
Proof.
  intros Hlt. unfold with_chart. apply list_eq. intros i.
  destruct (decide (i = ref)) as [->|Hne].
  - by rewrite list_lookup_alter_eq, !list_lookup_insert_eq.
  - by rewrite list_lookup_alter_ne, !list_lookup_insert_ne.
Qed.

Lemma try_chart_replace ref cd (sl : Slide) c :
  sl !! ref = Some (ChartFrame c) → write_workbook cd = Ok () →
  try_chart ref (replace_data cd) sl
  = Ok (<[ref := ChartFrame {| chart_title := chart_title c; plotted := cd |}]>
          sl).
Proof. unfold try_chart, replace_data. by intros -> ->. Qed.

(** The workbook of the pie chart holds the series of the bar chart, so
    that the one is written when the other is. *)
Lemma write_workbook_bar a1 a2 a3 ap :
  write_workbook (pie_data a1 a2 a3 ap) = Ok () →
  write_workbook (bar_data a1 a2 a3) = Ok ().
Proof.
  unfold write_workbook, pie_data. cbn [cd_series]. rewrite for_each_app.
  by intros ([] & H & _)%bind_Ok.
Qed.

(** [first_chart], when it succeeds, step by step. *)
Lemma first_chart_Ok group series (sl sl' : Slide) :
  first_chart group series sl = Ok sl' →
  ∃ tref old chart0 chart1 a1 a2 a3 ap old0 old1,
    select_shapes (mentions "Chart") sl !! 0%nat = Some tref ∧
    sl !! tref = Some (TextShape old) ∧
    select_shapes has_chart sl !! 0%nat = Some chart0 ∧
    select_shapes has_chart sl !! 1%nat = Some chart1 ∧
    sl !! chart0 = Some (ChartFrame old0) ∧
    sl !! chart1 = Some (ChartFrame old1) ∧
    (chart0 < chart1)%nat ∧ tref ≠ chart0 ∧ tref ≠ chart1 ∧
    select_values series ["cat1_1"; "cat2_1"; "cat3_1"; "cat4_1"] = Ok a1 ∧
    select_values series ["cat1_2"; "cat2_2"; "cat3_2"; "cat4_2"] = Ok a2 ∧
    select_values series ["cat1_3"; "cat2_3"; "cat3_3"; "cat4_3"] = Ok a3 ∧
    select_values series ["pie1"; "pie2"; "pie3"; "pie4"] = Ok ap ∧
    write_workbook (bar_data a1 a2 a3) = Ok () ∧
    write_workbook (pie_data a1 a2 a3 ap) = Ok () ∧
    sl' = <[chart1 := ChartFrame
              {| chart_title := Some ("Sales by Quarter: Group " +:+ group);
                 plotted := pie_data a1 a2 a3 ap |}]>
            (<[chart0 := ChartFrame
                 {| chart_title := Some ("Sales by Category: Group " +:+ group);
                    plotted := bar_data a1 a2 a3 |}]>
               (<[tref := TextShape
                            ("Financial Results Summary for Group " +:+ group)]>
                  sl)).
Proof.
  unfold first_chart. intros (sl0 & Htitle & H)%bind_Ok.
  apply change_text_Ok in Htitle as (tref & old & Htref & Hold & ->).
  erewrite select_shapes_insert in H; [|done..].
  set (sl0 := <[tref := _]> sl) in *.
  apply bind_Ok in H as (chart0 & H0%py_index_Ok & H).
  apply bind_Ok in H as (a1 & Ha1 & H).
  apply bind_Ok in H as (a2 & Ha2 & H).
  apply bind_Ok in H as (a3 & Ha3 & H).
  apply bind_Ok in H as (slA & HA & H).
  apply bind_Ok in H as (chart1 & H1%py_index_Ok & H).
  apply bind_Ok in H as (ap & Hap & H).
  apply bind_Ok in H as (slC & HC & [= <-]).
  pose proof (select_shapes_distinct _ _ _ _ H0 H1) as Hlt.
  destruct (select_shapes_first _ _ _ H0) as (s0 & Hs0 & Hc0 & _).
  destruct s0 as [|old0| |]; try done.
  destruct (select_shapes_elem _ _ _ _ H1) as (s1 & Hs1 & Hc1).
  destruct s1 as [|old1| |]; try done.
  assert (tref ≠ chart0) as Hne0 by (intros ->; congruence).
  assert (tref ≠ chart1) as Hne1 by (intros ->; congruence).
  assert (length sl0 = length sl) as Hlen by (subst sl0; by rewrite length_insert).
  pose proof (lookup_lt_Some _ _ _ Hs0) as Hlt0.
  pose proof (lookup_lt_Some _ _ _ Hs1) as Hlt1.
  apply try_chart_Ok in HA as (c0 & c0' & Hc0' & [Hw0 ->]%replace_data_Ok & ->).
  rewrite with_chart_insert in HC by lia. simpl in HC.
  apply try_chart_Ok in HC as (c1 & c1' & Hc1' & [Hw1 ->]%replace_data_Ok & ->).
  rewrite with_chart_insert by (rewrite length_insert; lia). simpl.
  exists tref, old, chart0, chart1, a1, a2, a3, ap, old0, old1.
  do 6 (split; [done|]). split; [done|]. do 2 (split; [done|]).
  do 4 (split; [done|]). split; [exact Hw0|]. split; [exact Hw1|]. done.
Qed.

(** The chart slide after [first_chart]. *)
Lemma first_chart_spec group series (sl sl' : Slide) :
  first_chart group series sl = Ok sl' →
  ∃ chart0 chart1 a1 a2 a3 ap old0 old1,
    select_shapes has_chart sl !! 0%nat = Some chart0 ∧
    select_shapes has_chart sl !! 1%nat = Some chart1 ∧
    select_values series ["cat1_1"; "cat2_1"; "cat3_1"; "cat4_1"] = Ok a1 ∧
    select_values series ["cat1_2"; "cat2_2"; "cat3_2"; "cat4_2"] = Ok a2 ∧
    select_values series ["cat1_3"; "cat2_3"; "cat3_3"; "cat4_3"] = Ok a3 ∧
    select_values series ["pie1"; "pie2"; "pie3"; "pie4"] = Ok ap ∧
    select_shapes has_chart sl' = select_shapes has_chart sl ∧
    sl !! chart0 = Some (ChartFrame old0) ∧
    sl !! chart1 = Some (ChartFrame old1) ∧
    sl' !! chart0 = Some (ChartFrame
      {| chart_title := Some ("Sales by Category: Group " +:+ group);
         plotted :=
           {| cd_categories :=
                ["Category 1"; "Category 2"; "Category 3"; "Category 4"];
              cd_series :=
                [ {| series_name := "Series 1"; series_points := points_of a1 |};
                  {| series_name := "Series 2"; series_points := points_of a2 |};
                  {| series_name := "Series 3"; series_points := points_of a3 |}
                ] |} |}) ∧
    sl' !! chart1 = Some (ChartFrame
      {| chart_title := Some ("Sales by Quarter: Group " +:+ group);
         plotted :=
           {| cd_categories := ["1st Qtr"; "2nd Qtr"; "3rd Qtr"; "4th Qtr"];
              cd_series :=
                [ {| series_name := "Series 1"; series_points := points_of a1 |};
                  {| series_name := "Series 2"; series_points := points_of a2 |};
                  {| series_name := "Series 3"; series_points := points_of a3 |};
                  {| series_name := "Series 1"; series_points := points_of ap |}
                ] |} |}).
Proof.
  intros (tref & old & chart0 & chart1 & a1 & a2 & a3 & ap & old0 & old1 &
          Htref & Hold & H0 & H1 & Hs0 & Hs1 & Hlt & Hne0 & Hne1 & Ha1 & Ha2 &
          Ha3 & Hap & _ & _ & ->)%first_chart_Ok.
  pose proof (lookup_lt_Some _ _ _ Hs0) as Hlt0.
  pose proof (lookup_lt_Some _ _ _ Hs1) as Hlt1.
  exists chart0, chart1, a1, a2, a3, ap, old0, old1.
  do 6 (split; [done|]). split.
  { erewrite select_shapes_insert;
      [|by rewrite !list_lookup_insert_ne by lia|done].
    erewrite select_shapes_insert; [|by rewrite list_lookup_insert_ne|done].
    by erewrite select_shapes_insert. }
  do 2 (split; [done|]). split.
  - rewrite list_lookup_insert_ne by lia.
    by rewrite list_lookup_insert_eq by (rewrite length_insert; lia).
  - by rewrite list_lookup_insert_eq by (rewrite !length_insert; lia).
Qed.

(** The selection of line 8 keeps the rows of the group, in their order:
    those that hold the string [group] under the label ["group"]. *)
Lemma mask_rows_filter (rs : list (list value)) (col : list value) c group :
  Forall2 (λ r v, r !! c = Some v) rs col →
  mask_rows rs (map (λ v, eq_str v group) col)
  = List.filter (λ r, match r !! c with
                      | Some (VStr s) => String.eqb s group
                      | _ => false
                      end) rs.
Proof.
  induction 1 as [|r v rs col Hr _ IH]; [done|]. simpl. rewrite Hr, IH.
  destruct v as [z|f|s]; simpl; [done..|].
  case_bool_decide as Hs.
  - by rewrite (proj2 (String.eqb_eq s group) Hs).
  - by rewrite (proj2 (String.eqb_neq s group) Hs).
Qed.

Lemma matching_rows_of_group data_chart group rs :
  matching_rows data_chart group = Ok rs → rs = rows_of_group data_chart group.
Proof.
  unfold matching_rows, get_column, rows_of_group, at_label.
  destruct (column_pos (columns data_chart) "group") as [c|]; [|done].
  intros (col & Hcol%mapM_Ok_Forall2 & [= <-])%bind_Ok. simpl.
  apply mask_rows_filter. eapply Forall2_impl; [done|].
  intros r v. apply py_index_Ok.
Qed.

(** The two charts saved by a run that succeeds on a chart dataset with
    one row for the group: both are filled from that row, with the three
    series of the bar chart, and the pie chart with a fourth series
    behind them. *)
Lemma saved_charts group data_chart data_table input_file output_file
    (fs fs' : files) msg r :
  rows_of_group data_chart group = [r] →
  edit_pres group data_chart data_table input_file output_file fs
  = (Ok msg, fs') →
  ∃ pres bar pie s1 s2 s3 s4,
    fs' !! output_file = Some pres ∧
    chart_of 0 pres = Some bar ∧ chart_of 1 pres = Some pie ∧
    cd_categories (plotted bar)
    = ["Category 1"; "Category 2"; "Category 3"; "Category 4"] ∧
    cd_series (plotted bar) = [s1; s2; s3] ∧
    cd_categories (plotted pie) = ["1st Qtr"; "2nd Qtr"; "3rd Qtr"; "4th Qtr"] ∧
    cd_series (plotted pie) = [s1; s2; s3; s4] ∧
    series_from (columns data_chart) r "Series 1"
      ["cat1_1"; "cat2_1"; "cat3_1"; "cat4_1"] s1 ∧
    series_from (columns data_chart) r "Series 2"
      ["cat1_2"; "cat2_2"; "cat3_2"; "cat4_2"] s2 ∧
    series_from (columns data_chart) r "Series 3"
      ["cat1_3"; "cat2_3"; "cat3_3"; "cat4_3"] s3 ∧
    series_from (columns data_chart) r "Series 1"
      ["pie1"; "pie2"; "pie3"; "pie4"] s4.
Proof.
  intros Hgroup (out & Hmem & _ & ->)%edit_pres_Ok.
  apply edit_pres_in_memory_Ok in Hmem
    as (series & pres & s0 & s0' & sl1 & sl1' & sl2 & sl2' & Hseries & _ & H0 &
        _ & H1 & Hfirst & H2 & _ & ->).
  destruct (filled_slides pres _ _ _ s0' sl1' sl2' H0 H1 H2) as (_ & Hout1 & _).
  apply first_chart_spec in Hfirst
    as (chart0 & chart1 & a1 & a2 & a3 & ap & old0 & old1 & Hc0 & Hc1 & Ha1 &
        Ha2 & Ha3 & Hap & Hsel & _ & _ & Hbar & Hpie).
  assert (matching_rows data_chart group = Ok [r]) as Hone.
  { unfold select_group in Hseries.
    apply bind_Ok in Hseries as (rs & Hrs & _).
    by rewrite (matching_rows_of_group _ _ _ Hrs), Hgroup in Hrs. }
  destruct (select_group_one _ _ _ _ Hone Hseries) as [->|[v ->]].
  2: { pose proof (select_values_scalar v ["pie1"; "pie2"; "pie3"; "pie4"]) as Hv.
       by rewrite Hap in Hv. }
  apply select_values_row in Ha1 as (v1 & -> & Hv1).
  apply select_values_row in Ha2 as (v2 & -> & Hv2).
  apply select_values_row in Ha3 as (v3 & -> & Hv3).
  apply select_values_row in Hap as (vp & -> & Hvp).
  assert (∀ names vals name,
            Forall2 (λ n v, at_label (columns data_chart) r n = Some v)
              names vals →
            series_from (columns data_chart) r name names
              {| series_name := name; series_points := PVal <$> vals |})
    as Hfrom.
  { intros names vals name Hvals. split; [done|]. simpl.
    apply Forall2_fmap_r. eapply Forall2_impl; [done|]. simpl. eauto. }
  eexists _, _, _, _, _, _, _. split; [by rewrite lookup_insert_eq|].
  unfold chart_of. rewrite Hout1. simpl. rewrite Hsel, Hc0, Hc1. simpl.
  rewrite Hbar, Hpie. simpl.
  do 6 (split; [done|]). auto.
Qed.


(** On the same inputs the pie chart, the second chart of the chart
    slide, is saved with four series over the four quarters: those of the
    bar chart, which the chart data object still holds, and behind them
    the series of [pie1] to [pie4]. *)
Lemma pie_chart_series group data_chart data_table input_file output_file
    (fs fs' : files) msg r :
  rows_of_group data_chart group = [r] →
  edit_pres group data_chart data_table input_file output_file fs
  = (Ok msg, fs') →
  ∃ pres pie s1 s2 s3 s4,
    fs' !! output_file = Some pres ∧ chart_of 1 pres = Some pie ∧
    plotted pie
    = {| cd_categories := ["1st Qtr"; "2nd Qtr"; "3rd Qtr"; "4th Qtr"];
         cd_series := [s1; s2; s3; s4] |} ∧
    series_from (columns data_chart) r "Series 1"
      ["cat1_1"; "cat2_1"; "cat3_1"; "cat4_1"] s1 ∧
    series_from (columns data_chart) r "Series 2"
      ["cat1_2"; "cat2_2"; "cat3_2"; "cat4_2"] s2 ∧
    series_from (columns data_chart) r "Series 3"
      ["cat1_3"; "cat2_3"; "cat3_3"; "cat4_3"] s3 ∧
    series_from (columns data_chart) r "Series 1"
      ["pie1"; "pie2"; "pie3"; "pie4"] s4.
Proof.
  intros Hone Hrun.
  destruct (saved_charts _ _ _ _ _ _ _ _ _ Hone Hrun)
    as (pres & bar & pie & s1 & s2 & s3 & s4 & Hpres & _ & Hpie & _ & _ &
        Hcat & Hser & H1 & H2 & H3 & H4).
  exists pres, pie, s1, s2, s3, s4. split; [done|]. split; [done|].
  split; [|done]. destruct pie as [title [cats sers]]. simpl in *. by subst.
Qed.

(** ** The placeholder texts *)

Lemma select_from_nil n p (sl : Slide) :
  select_from n p sl = [] ↔ Forall (λ s, p s = false) sl.
Proof.
  revert n. induction sl as [|s sl IH]; intros n; simpl.
  - split; [constructor | done].
  - destruct (p s) eqn:Hp.
    + split; [done|]. intros Hall. inversion Hall; congruence.
    + rewrite IH. split; [by constructor | by inversion 1].
Qed.

Lemma select_shapes_nil_insert p i s (sl : Slide) :
  select_shapes p sl = [] → p s = false → select_shapes p (<[i := s]> sl) = [].
Proof.
  unfold select_shapes. rewrite !select_from_nil. intros Hall Hs.
  by apply Forall_insert.
Qed.

Lemma title_slide_Ok group (s0 s0' : Slide) :
  title_slide group s0 = Ok s0' ↔
  ∃ r1 old1 r2 old2,
    select_shapes (mentions "Presentation title") s0 !! 0%nat = Some r1 ∧
    s0 !! r1 = Some (TextShape old1) ∧
    select_shapes (mentions "Subtitle")
      (<[r1 := TextShape ("Presentation for Group " +:+ group)]> s0) !! 0%nat
    = Some r2 ∧
    <[r1 := TextShape ("Presentation for Group " +:+ group)]> s0 !! r2
    = Some (TextShape old2) ∧
    s0' = <[r2 := TextShape ("Financial Information for Group " +:+ group)]>
            (<[r1 := TextShape ("Presentation for Group " +:+ group)]> s0).
Proof.
  unfold title_slide. rewrite bind_Ok. split.
  - intros (s & (r1 & old1 & Hr1 & Hold1 & ->)%change_text_Ok
              & (r2 & old2 & Hr2 & Hold2 & ->)%change_text_Ok).
    by exists r1, old1, r2, old2.
  - intros (r1 & old1 & r2 & old2 & Hr1 & Hold1 & Hr2 & Hold2 & ->).
    eexists. split; apply change_text_Ok; eauto 10.
Qed.

Lemma title_slide_Err group (s0 : Slide) e :
  title_slide group s0 = Err e → e = IndexError.
Proof.
  unfold title_slide.
  intros [[-> _]%change_text_Err | (s & _ & [-> _]%change_text_Err)]%bind_Err;
    done.
Qed.

(** The texts of the chart slide after [first_chart]: that of the first
    shape mentioning ["Chart"] is replaced, the other shapes that are not
    charts are as before. *)
Lemma first_chart_texts group series (sl sl' : Slide) :
  first_chart group series sl = Ok sl' →
  ∃ tref old,
    select_shapes (mentions "Chart") sl !! 0%nat = Some tref ∧
    sl !! tref = Some (TextShape old) ∧
    sl' !! tref
    = Some (TextShape ("Financial Results Summary for Group " +:+ group)) ∧
    ∀ i s, i ≠ tref → sl !! i = Some s → has_chart s = false →
           sl' !! i = Some s.
Proof.
  intros (tref & old & chart0 & chart1 & a1 & a2 & a3 & ap & old0 & old1 &
          Htref & Hold & H0 & H1 & Hs0 & Hs1 & Hlt & Hne0 & Hne1 & _ & _ &
          _ & _ & _ & _ & ->)%first_chart_Ok.
  pose proof (lookup_lt_Some _ _ _ Hold) as Hltt.
  exists tref, old. do 2 (split; [done|]). split.
  - rewrite !list_lookup_insert_ne by done. by rewrite list_lookup_insert_eq.
  - intros i s Hi Hs Hc.
    assert (chart0 ≠ i) by (intros ->; by simplify_eq).
    assert (chart1 ≠ i) by (intros ->; by simplify_eq).
    by rewrite !list_lookup_insert_ne.
Qed.

Lemma first_chart_Err group series (sl : Slide) e a1 a2 a3 ap :
  select_values series ["cat1_1"; "cat2_1"; "cat3_1"; "cat4_1"] = Ok a1 →
  select_values series ["cat1_2"; "cat2_2"; "cat3_2"; "cat4_2"] = Ok a2 →
  select_values series ["cat1_3"; "cat2_3"; "cat3_3"; "cat4_3"] = Ok a3 →
  select_values series ["pie1"; "pie2"; "pie3"; "pie4"] = Ok ap →
  write_workbook (pie_data a1 a2 a3 ap) = Ok () →
  first_chart group series sl = Err e →
  e = IndexError.
Proof.
  intros Ha1 Ha2 Ha3 Hap Hpie.
  pose proof (write_workbook_bar _ _ _ _ Hpie) as Hbar.
  unfold first_chart. rewrite Ha1, Ha2, Ha3, Hap.
  intros [[-> _]%change_text_Err | (sl0 & Htitle & H)]%bind_Err; [done|].
  apply change_text_Ok in Htitle as (tref & old & Htref & Hold & ->).
  erewrite select_shapes_insert in H; [|done..].
  set (sl0 := <[tref := _]> sl) in *.
  apply bind_Err in H as [[-> _]%py_index_Err | (chart0 & H0%py_index_Ok & H)];
    [done|].
  simpl in H.
  destruct (select_shapes_first _ _ _ H0) as (s0 & Hs0 & Hc0 & _).
  destruct s0 as [|old0| |]; try done.
  assert (tref ≠ chart0) as Hne0 by (intros ->; congruence).
  assert (sl0 !! chart0 = Some (ChartFrame old0)) as Hs0'
    by (subst sl0; by rewrite list_lookup_insert_ne).
  pose proof (lookup_lt_Some _ _ _ Hs0') as Hlt0.
  erewrite try_chart_replace in H; [|exact Hs0'|exact Hbar]. simpl in H.
  apply bind_Err in H as [[-> _]%py_index_Err | (chart1 & H1%py_index_Ok & H)];
    [done|].
  exfalso.
  pose proof (select_shapes_distinct _ _ _ _ H0 H1) as Hlt.
  destruct (select_shapes_elem _ _ _ _ H1) as (s1 & Hs1 & Hc1).
  destruct s1 as [|old1| |]; try done.
  assert (tref ≠ chart1) as Hne1 by (intros ->; congruence).
  rewrite with_chart_insert in H by done.
  erewrite try_chart_replace in H; [done| |exact Hpie].
  rewrite list_lookup_insert_ne by lia. subst sl0.
  by rewrite list_lookup_insert_ne.
Qed.

(** A slide without the marker stops its part of the filler at the
    lookup.  The subtitle is looked up after the title has been replaced,
    so the new title must not bring the marker in. *)
Lemma spot_fails group (pres : Presentation) k marker (sl : Slide) :
  (k, marker) ∈ spots → pres !! k = Some sl →
  select_shapes (mentions marker) sl = [] →
  (marker = "Subtitle" →
   str_find ("Presentation for Group " +:+ group) "Subtitle" = -1) →
  (k = 0%nat ∧ title_slide group sl = Err IndexError) ∨
  (k = 1%nat ∧ ∀ series, first_chart group series sl = Err IndexError) ∨
  (k = 2%nat ∧ ∀ sales_data, second_chart group sales_data sl = Err IndexError).
Proof.
  intros Hspot Hk Hnil Hgroup. unfold spots in Hspot.
  repeat (apply elem_of_cons in Hspot as [[= -> ->]|Hspot]);
    [| | | | by apply elem_of_nil in Hspot].
  - left. split; [done|]. unfold title_slide, change_text. by rewrite Hnil.
  - left. split; [done|]. unfold title_slide.
    destruct (change_text "Presentation title" _ sl) as [s|e] eqn:Htitle; simpl.
    + apply change_text_Ok in Htitle as (r1 & old & _ & _ & ->).
      unfold change_text. rewrite select_shapes_nil_insert; [done..|].
      unfold mentions. simpl. by rewrite Hgroup.
    + by apply change_text_Err in Htitle as [-> _].
  - right. left. split; [done|]. intros series.
    unfold first_chart, change_text. by rewrite Hnil.
  - right. right. split; [done|]. intros sales_data.
    unfold second_chart, change_text. by rewrite Hnil.
Qed.


(** C9, as amended: a lookup that finds several shapes does not fail; it
    overwrites the first of them in shape order and leaves every other
    shape of the slide as it is.  In the file saved by a run that
    succeeds, the shapes of the title slide other than the first found
    for ["Presentation title"] and the first found for ["Subtitle"] once
    the title is replaced are as in the template, and so are the text
    shapes of the chart slide and of the table slide other than the first
    found for ["Chart"] and for ["Table"]. *)
Theorem first_match_only :
  (∀ marker text (sl : Slide) ref rest,
     select_shapes (mentions marker) sl = ref :: rest →
     (∃ old, sl !! ref = Some (TextShape old)) ∧
     change_text marker text sl = Ok (<[ref := TextShape text]> sl) ∧
     ∀ i, i ≠ ref → <[ref := TextShape text]> sl !! i = sl !! i) ∧
  (∀ group data_chart data_table input_file output_file (fs fs' : files)
     (pres : Presentation) msg,
     fs !! input_file = Some pres →
     edit_pres group data_chart data_table input_file output_file fs
     = (Ok msg, fs') →
     ∃ (out : Presentation) (s0 s1 s2 s0' s1' s2' : Slide) r1 r2 rc rt,
       fs' !! output_file = Some out ∧
       pres !! 0%nat = Some s0 ∧ pres !! 1%nat = Some s1 ∧
       pres !! 2%nat = Some s2 ∧
       out !! 0%nat = Some s0' ∧ out !! 1%nat = Some s1' ∧
       out !! 2%nat = Some s2' ∧
       select_shapes (mentions "Presentation title") s0 !! 0%nat = Some r1 ∧
       select_shapes (mentions "Subtitle")
         (<[r1 := TextShape ("Presentation for Group " +:+ group)]> s0)
         !! 0%nat = Some r2 ∧
       select_shapes (mentions "Chart") s1 !! 0%nat = Some rc ∧
       select_shapes (mentions "Table") s2 !! 0%nat = Some rt ∧
       (∀ i, i ≠ r1 → i ≠ r2 → s0' !! i = s0 !! i) ∧
       (∀ i text, i ≠ rc → s1 !! i = Some (TextShape text) →
                  s1' !! i = Some (TextShape text)) ∧
       (∀ i text, i ≠ rt → s2 !! i = Some (TextShape text) →
                  s2' !! i = Some (TextShape text))).
Proof.
  split.
  - intros marker text sl ref rest Hsel.
    assert (select_shapes (mentions marker) sl !! 0%nat = Some ref) as Href
      by by rewrite Hsel.
    destruct (select_shapes_first _ _ _ Href) as (s & Hs & Hm & _).
    destruct (mentions_text _ _ Hm) as [old ->].
    split; [by exists old|]. split.
    + apply change_text_Ok. by exists ref, old.
    + intros i Hi. by rewrite list_lookup_insert_ne.
  - intros group data_chart data_table input_file output_file fs fs' pres msg
      Hfs (out & Hmem & _ & ->)%edit_pres_Ok.
    apply edit_pres_in_memory_Ok in Hmem
      as (series & pres' & s0 & s0' & s1 & s1' & s2 & s2' & _ & Hfs' & H0 &
          Ht & H1 & Hc & H2 & Hs & ->).
    assert (pres' = pres) as -> by congruence.
    destruct (filled_slides pres _ _ _ s0' s1' s2' H0 H1 H2)
      as (Hout0 & Hout1 & Hout2).
    apply title_slide_Ok in Ht
      as (r1 & old1 & r2 & old2 & Hr1 & Hold1 & Hr2 & Hold2 & ->).
    apply first_chart_texts in Hc as (rc & oldc & Hrc & _ & _ & Hkeep).
    apply second_chart_spec in Hs
      as (rt & oldt & ref & t & t' & Hrt & Holdt & _ & Href & -> & _).
    eexists _, s0, s1, s2, _, s1', _, r1, r2, rc, rt.
    split; [by rewrite lookup_insert_eq|].
    do 10 (split; [done|]).
    split; [|split].
    + intros i Hi1 Hi2. by rewrite !list_lookup_insert_ne.
    + intros i text Hi Htext. by apply Hkeep.
    + intros i text Hi Htext.
      assert (ref ≠ i) as Hne by (intros ->; congruence).
      rewrite !list_lookup_insert_ne by done. done.
Qed.

(** ** Failures, repeated runs and the driver *)

(** What a run reads of the files is the template. *)
Lemma edit_pres_in_memory_reads group data_chart data_table input_file
    (fs1 fs2 : files) :
  fs1 !! input_file = fs2 !! input_file →
  edit_pres_in_memory group data_chart data_table input_file fs1
  = edit_pres_in_memory group data_chart data_table input_file fs2.
Proof.
  intros Hin. unfold edit_pres_in_memory, load. by rewrite Hin.
Qed.

Lemma edit_pres_Err group data_chart data_table input_file output_file
    (fs fs' : files) e :
  edit_pres group data_chart data_table input_file output_file fs
  = (Err e, fs') →
  edit_pres_in_memory group data_chart data_table input_file fs = Err e
  ∧ fs' = fs.
Proof.
  unfold edit_pres.
  destruct (edit_pres_in_memory _ _ _ _ _) as [out|e']; [done|].
  by intros [= -> ->].
Qed.

Lemma edit_pres_fails group data_chart data_table input_file output_file
    (fs : files) e :
  edit_pres_in_memory group data_chart data_table input_file fs = Err e →
  edit_pres group data_chart data_table input_file output_file fs = (Err e, fs).
Proof. unfold edit_pres. by intros ->. Qed.

(** C10: whatever makes a run fail, it fails before the presentation is
    saved: the files, and with them what is under the output path, are
    as they were. *)
Theorem failure_saves_nothing group data_chart data_table input_file
    output_file (fs fs' : files) e :
  edit_pres group data_chart data_table input_file output_file fs
  = (Err e, fs') →
  fs' = fs ∧ fs' !! output_file = fs !! output_file.
Proof.
  intros [_ ->]%edit_pres_Err. done.
Qed.

(** C7: the outcome of a run is a function of the group, the two
    frames and the template found under the input path.  Two runs on
    files that hold the same template return the same, and when they
    succeed they save the same presentation: titles, table and charts.
    A second run after the first, with an output path other than the
    input path, returns the same and leaves the files as the first run
    left them. *)
Theorem same_inputs_same_output group data_chart data_table input_file
    output_file (fs1 fs2 : files) :
  fs1 !! input_file = fs2 !! input_file →
  let run := edit_pres group data_chart data_table input_file output_file in
  (run fs1).1 = (run fs2).1 ∧
  (is_Ok (run fs1).1 = true →
   (run fs1).2 !! output_file = (run fs2).2 !! output_file) ∧
  (input_file ≠ output_file → run (run fs1).2 = run fs1).
Proof.
  intros Hin run. subst run. unfold edit_pres.
  rewrite (edit_pres_in_memory_reads _ _ _ _ fs1 fs2 Hin).
  destruct (edit_pres_in_memory _ _ _ _ fs2) as [out|e] eqn:Hmem; simpl.
  - split; [done|]. split; [by rewrite !lookup_insert_eq|].
    intros Hne.
    rewrite (edit_pres_in_memory_reads _ _ _ _ _ fs2), Hmem.
    + by rewrite insert_insert_eq.
    + by rewrite lookup_insert_ne.
  - split; [done|]. split; [done|]. intros _.
    by rewrite (edit_pres_in_memory_reads _ _ _ _ fs1 fs2 Hin), Hmem.
Qed.

Lemma string_app_length (s t : string) :
  String.length (s +:+ t) = (String.length s + String.length t)%nat.
Proof.
  induction s as [|a s IH]; [done|].
  change (S (String.length (s +:+ t))
          = S (String.length s + String.length t)). by rewrite IH.
Qed.

Lemma string_app_inj_r (s1 s2 t : string) : s1 +:+ t = s2 +:+ t → s1 = s2.
Proof.
  revert s2. induction s1 as [|a s1 IH]; intros [|b s2] Heq; [done| | |].
  - apply (f_equal String.length) in Heq.
    rewrite !string_app_length in Heq. simpl in Heq. lia.
  - apply (f_equal String.length) in Heq.
    rewrite !string_app_length in Heq. simpl in Heq. lia.
  - change (String a (s1 +:+ t) = String b (s2 +:+ t)) in Heq.
    injection Heq as -> Heq. f_equal. by apply IH.
Qed.

Lemma output_path_inj group1 group2 :
  output_path group1 = output_path group2 → group1 = group2.
Proof.
  unfold output_path. intros Heq.
  apply (inj (String.app "outputs/results_group_")) in Heq.
  by apply string_app_inj_r in Heq.
Qed.

(** One turn of the loop either fails and leaves the files alone, or it
    saves under the output path of its own group, which has a table. *)
Lemma generate_one_cases dataframes g (fs fs' : files) r :
  generate_one dataframes g fs = (r, fs') →
  (∃ e, r = Err e ∧ fs' = fs) ∨
  (∃ group (out : Presentation),
     g = VStr group ∧ is_Some (dataframes !! ("table_" +:+ group)) ∧
     fs' = <[output_path group := out]> fs).
Proof.
  unfold generate_one. destruct g as [z|f|group]; [intros [= <- <-]; eauto.. |].
  destruct (dataframes !! ("table_" +:+ group)) as [tables_data|] eqn:Htable;
    [|intros [= <- <-]; eauto].
  destruct (dataframes !! "chart_df") as [chart_df|]; [|intros [= <- <-]; eauto].
  destruct r as [msg|e].
  - intros (out & _ & _ & ->)%edit_pres_Ok. right. by exists group, out.
  - intros [_ ->]%edit_pres_Err. left. by exists e.
Qed.

Lemma generate_loop_missing dataframes group groups (fs : files) :
  VStr group ∈ groups →
  dataframes !! ("table_" +:+ group) = None →
  ∃ e fs', generate_loop dataframes groups fs = (Err e, fs') ∧
           fs' !! output_path group = fs !! output_path group.
Proof.
  intros Hin Hnone. revert fs. induction groups as [|g groups IH]; intros fs;
    [by apply elem_of_nil in Hin|].
  simpl. destruct (generate_one dataframes g fs) as [r fs1] eqn:Hone.
  apply elem_of_cons in Hin as [<-|Hin].
  { simpl in Hone. rewrite Hnone in Hone. injection Hone as <- <-. eauto. }
  apply generate_one_cases in Hone
    as [(e & -> & ->) | (group' & out & -> & Htable & ->)]; [by eauto|].
  destruct r as [msg|e].
  - destruct (IH Hin (<[output_path group' := out]> fs)) as (e & fs' & Hloop & Hout).
    exists e, fs'. split; [done|]. rewrite Hout. apply lookup_insert_ne.
    intros ->%output_path_inj. rewrite Hnone in Htable. by destruct Htable.
  - exists e, (<[output_path group' := out]> fs). split; [done|].
    apply lookup_insert_ne.
    intros ->%output_path_inj. rewrite Hnone in Htable. by destruct Htable.
Qed.

(** C6: for a group of the chart dataset without a frame [table_<group>]
    among the loaded ones, the turn of the loop for that group raises
    [KeyError], a lookup error, and saves nothing; the whole run of the
    driver fails and leaves what is under the output path of that group
    as it was. *)
Theorem missing_detail_table (dataframes : gmap string DataFrame) chart_df
    groups group (fs : files) :
  dataframes !! "chart_df" = Some chart_df →
  get_column chart_df "group" = Ok groups →
  VStr group ∈ groups →
  dataframes !! ("table_" +:+ group) = None →
  generate_one dataframes (VStr group) fs = (Err KeyError, fs) ∧
  is_LookupError KeyError = true ∧
  ∃ e fs', generate_ppt dataframes fs = (Err e, fs') ∧
           fs' !! output_path group = fs !! output_path group.
Proof.
  intros Hchart Hgroups Hin Hnone. split; [|split; [done|]].
  - simpl. by rewrite Hnone.
  - unfold generate_ppt, group_values. rewrite Hchart.
    unfold get_column in *.
    destruct (column_pos (columns chart_df) "group"); [|done].
    rewrite Hgroups. by apply generate_loop_missing.
Qed.

End Properties.

(** * More of the filler and of the driver *)

Section Coverage.
Context `{PF : PyFloat}.

Local Abbreviation Table := (list (list string)).
Local Abbreviation Slide := (list shape).
Local Abbreviation Presentation := (list (list shape)).
Local Abbreviation files := (gmap string Presentation).

(** ** What a run keeps of the template *)

Lemma same_kind_refl s : same_kind s s.
Proof. done. Qed.

Lemma same_kind_insert (sl : Slide) i s s' :
  sl !! i = Some s → same_kind s s' → Forall2 same_kind sl (<[i := s']> sl).
Proof.
  intros Hi Hk. apply Forall2_same_length_lookup.
  split; [by rewrite length_insert|].
  intros k x y Hx. destruct (decide (i = k)) as [->|Hne].
  - rewrite list_lookup_insert_eq by by eapply lookup_lt_Some.
    intros [= <-]. congruence.
  - rewrite list_lookup_insert_ne by done. intros Hy.
    assert (x = y) as -> by congruence. done.
Qed.

Lemma same_kind_trans (l1 l2 l3 : Slide) :
  Forall2 same_kind l1 l2 → Forall2 same_kind l2 l3 → Forall2 same_kind l1 l3.
Proof.
  intros H12 H23. eapply Forall2_trans; [|done..].
  intros x y z (? & ? & ?) (? & ? & ?). repeat split; congruence.
Qed.

(** The chart slide after [first_chart], shape by shape: only the first
    shape with the marker and the first two charts are written to. *)
Lemma first_chart_frame group series (sl sl' : Slide) :
  first_chart group series sl = Ok sl' →
  ∃ tref chart0 chart1,
    select_shapes (mentions "Chart") sl !! 0%nat = Some tref ∧
    select_shapes has_chart sl !! 0%nat = Some chart0 ∧
    select_shapes has_chart sl !! 1%nat = Some chart1 ∧
    length sl' = length sl ∧
    (∀ i, i ≠ tref → i ≠ chart0 → i ≠ chart1 → sl' !! i = sl !! i) ∧
    Forall2 same_kind sl sl'.
Proof.
  intros (tref & old & chart0 & chart1 & a1 & a2 & a3 & ap & old0 & old1 &
          Htref & Hold & H0 & H1 & Hs0 & Hs1 & Hlt & Hne0 & Hne1 & _ & _ &
          _ & _ & _ & _ & ->)%first_chart_Ok.
  exists tref, chart0, chart1. do 3 (split; [done|]).
  split; [by rewrite !length_insert|]. split.
  - intros i Ht Hc0 Hc1. by rewrite !list_lookup_insert_ne.
  - eapply same_kind_trans; [|eapply same_kind_trans].
    + by apply (same_kind_insert _ tref (TextShape old)
                  (TextShape ("Financial Results Summary for Group "
                              +:+ group))).
    + apply (same_kind_insert _ chart0 (ChartFrame old0)
               (ChartFrame
                  {| chart_title := Some ("Sales by Category: Group " +:+ group);
                     plotted := bar_data a1 a2 a3 |})); [|done].
      by rewrite list_lookup_insert_ne.
    + apply (same_kind_insert _ chart1 (ChartFrame old1)); [|done].
      rewrite list_lookup_insert_ne by lia. by rewrite list_lookup_insert_ne.
Qed.

(** A successful run, with the slides of the template and of the saved
    presentation side by side. *)
Lemma edit_pres_slides group data_chart data_table input_file output_file
    (fs fs' : files) (pres : Presentation) msg :
  fs !! input_file = Some pres →
  edit_pres group data_chart data_table input_file output_file fs
  = (Ok msg, fs') →
  ∃ series (out : Presentation) (s0 s1 s2 s0' s1' s2' : Slide),
    select_group data_chart group = Ok series ∧
    fs' = <[output_file := out]> fs ∧
    out = <[2%nat := s2']> (<[1%nat := s1']> (<[0%nat := s0']> pres)) ∧
    pres !! 0%nat = Some s0 ∧ pres !! 1%nat = Some s1 ∧
    pres !! 2%nat = Some s2 ∧
    out !! 0%nat = Some s0' ∧ out !! 1%nat = Some s1' ∧
    out !! 2%nat = Some s2' ∧
    title_slide group s0 = Ok s0' ∧ first_chart group series s1 = Ok s1' ∧
    second_chart group data_table s2 = Ok s2'.
Proof.
  intros Hfs (out & Hmem & _ & ->)%edit_pres_Ok.
  apply edit_pres_in_memory_Ok in Hmem
    as (series & pres' & s0 & s0' & s1 & s1' & s2 & s2' & Hseries & Hfs' & H0 &
        Ht & H1 & Hc & H2 & Hs & ->).
  assert (pres' = pres) as -> by congruence.
  destruct (filled_slides pres _ _ _ s0' s1' s2' H0 H1 H2)
    as (Hout0 & Hout1 & Hout2).
  by eexists series, _, s0, s1, s2, s0', s1', s2'.
Qed.

(** X1: a run that succeeds saves a presentation with the slides of the
    template, one for one: each slide has as many shapes, each shape is
    of the kind it was, and the slides behind the third are the
    template's. *)
Theorem layout_kept group data_chart data_table input_file output_file
    (fs fs' : files) (pres : Presentation) msg :
  fs !! input_file = Some pres →
  edit_pres group data_chart data_table input_file output_file fs
  = (Ok msg, fs') →
  ∃ out : Presentation,
    fs' !! output_file = Some out ∧
    length out = length pres ∧
    (∀ k (sl sl' : Slide), pres !! k = Some sl → out !! k = Some sl' →
       Forall2 same_kind sl sl') ∧
    (∀ k, (3 ≤ k)%nat → out !! k = pres !! k).
Proof.
  intros Hfs Hrun.
  destruct (edit_pres_slides _ _ _ _ _ _ _ _ _ Hfs Hrun)
    as (series & out & s0 & s1 & s2 & s0' & s1' & s2' & _ & -> & Hout & H0 &
        H1 & H2 & H0' & H1' & H2' & Ht & Hc & Hs).
  assert (Forall2 same_kind s0 s0') as K0.
  { apply title_slide_Ok in Ht
      as (r1 & old1 & r2 & old2 & _ & Hold1 & _ & Hold2 & ->).
    eapply same_kind_trans;
      [by apply (same_kind_insert _ r1 (TextShape old1)
                   (TextShape ("Presentation for Group " +:+ group)))
      |by apply (same_kind_insert _ r2 (TextShape old2))]. }
  assert (Forall2 same_kind s1 s1') as K1.
  { by apply first_chart_frame in Hc as (_ & _ & _ & _ & _ & _ & _ & _ & ?). }
  assert (Forall2 same_kind s2 s2') as K2.
  { apply second_chart_spec in Hs
      as (rt & oldt & ref & t & t' & _ & Holdt & _ & Href & -> & _).
    eapply same_kind_trans;
      [by apply (same_kind_insert _ rt (TextShape oldt)
                   (TextShape ("Results Table for Group " +:+ group)))|].
    apply (same_kind_insert _ ref (TableFrame t)); [|done].
    rewrite list_lookup_insert_ne; [done|]. intros ->. congruence. }
  exists out. split; [by rewrite lookup_insert_eq|].
  split; [subst out; by rewrite !length_insert|]. split.
  - intros k sl sl' Hk Hk'.
    destruct k as [|[|[|k]]]; [congruence..|].
    subst out. rewrite !list_lookup_insert_ne in Hk' by done.
    assert (sl' = sl) as -> by congruence.
    apply Forall_Forall2_diag, Forall_forall. done.
  - intros k Hk. subst out. by rewrite !list_lookup_insert_ne by lia.
Qed.

(** X2: on the chart slide a run that succeeds writes to the first
    shape with the marker and to the first two charts, on the table
    slide to the first shape with the marker and to the first table: the
    other shapes of both slides, a third chart or a second table among
    them, are saved as they were. *)
Theorem other_shapes_kept group data_chart data_table input_file output_file
    (fs fs' : files) (pres : Presentation) msg :
  fs !! input_file = Some pres →
  edit_pres group data_chart data_table input_file output_file fs
  = (Ok msg, fs') →
  ∃ (out : Presentation) (s1 s2 s1' s2' : Slide),
    fs' !! output_file = Some out ∧
    pres !! 1%nat = Some s1 ∧ pres !! 2%nat = Some s2 ∧
    out !! 1%nat = Some s1' ∧ out !! 2%nat = Some s2' ∧
    (∀ i, select_shapes (mentions "Chart") s1 !! 0%nat ≠ Some i →
          select_shapes has_chart s1 !! 0%nat ≠ Some i →
          select_shapes has_chart s1 !! 1%nat ≠ Some i →
          s1' !! i = s1 !! i) ∧
    (∀ i, select_shapes (mentions "Table") s2 !! 0%nat ≠ Some i →
          select_shapes has_table s2 !! 0%nat ≠ Some i →
          s2' !! i = s2 !! i).
Proof.
  intros Hfs Hrun.
  destruct (edit_pres_slides _ _ _ _ _ _ _ _ _ Hfs Hrun)
    as (series & out & s0 & s1 & s2 & s0' & s1' & s2' & _ & -> & Hout & H0 &
        H1 & H2 & H0' & H1' & H2' & Ht & Hc & Hs).
  exists out, s1, s2, s1', s2'. split; [by rewrite lookup_insert_eq|].
  do 4 (split; [done|]). split.
  - apply first_chart_frame in Hc
      as (tref & chart0 & chart1 & Htref & Hc0 & Hc1 & _ & Hother & _).
    intros i Hi Hi0 Hi1. apply Hother; congruence.
  - apply second_chart_spec in Hs
      as (rt & oldt & ref & t & t' & Hrt & _ & Href & _ & -> & _).
    intros i Hi Hi'. rewrite !list_lookup_insert_ne; [done| |]; congruence.
Qed.

(** X3: whatever the rows of the chart dataset, a run that succeeds
    gives the first chart of the chart slide the title ["Sales by
    Category: Group "] and the second ["Sales by Quarter: Group "], each
    followed by the group, and plots the first over the four categories
    and the second over the four quarters. *)
Theorem chart_titles group data_chart data_table input_file output_file
    (fs fs' : files) msg :
  edit_pres group data_chart data_table input_file output_file fs
  = (Ok msg, fs') →
  ∃ (out : Presentation) bar pie,
    fs' !! output_file = Some out ∧
    chart_of 0 out = Some bar ∧ chart_of 1 out = Some pie ∧
    chart_title bar = Some ("Sales by Category: Group " +:+ group) ∧
    chart_title pie = Some ("Sales by Quarter: Group " +:+ group) ∧
    cd_categories (plotted bar)
    = ["Category 1"; "Category 2"; "Category 3"; "Category 4"] ∧
    cd_categories (plotted pie) = ["1st Qtr"; "2nd Qtr"; "3rd Qtr"; "4th Qtr"].
Proof.
  intros (out & Hmem & _ & ->)%edit_pres_Ok.
  apply edit_pres_in_memory_Ok in Hmem
    as (series & pres & s0 & s0' & sl1 & sl1' & sl2 & sl2' & _ & _ & H0 &
        _ & H1 & Hfirst & H2 & _ & ->).
  destruct (filled_slides pres _ _ _ s0' sl1' sl2' H0 H1 H2) as (_ & Hout1 & _).
  apply first_chart_spec in Hfirst
    as (chart0 & chart1 & a1 & a2 & a3 & ap & old0 & old1 & Hc0 & Hc1 & _ &
        _ & _ & _ & Hsel & _ & _ & Hbar & Hpie).
  eexists _, _, _. split; [by rewrite lookup_insert_eq|].
  unfold chart_of. rewrite Hout1. simpl. rewrite Hsel, Hc0, Hc1. simpl.
  rewrite Hbar, Hpie. done.
Qed.

(** ** The table, beyond the cells that are filled *)

Lemma set_cell_rows (t t' : Table) i j text :
  set_cell t i j text = Ok t' →
  Forall2 (λ r r' : list string, length r' = length r) t t'.
Proof.
  unfold set_cell. intros (r & Hr%py_index_Ok & Hc)%bind_Ok.
  apply bind_Ok in Hc as (old & _ & [= <-]).
  apply Forall2_same_length_lookup. split; [by rewrite length_insert|].
  intros k x y Hx. destruct (decide (i = k)) as [->|Hne].
  - rewrite list_lookup_insert_eq by by eapply lookup_lt_Some.
    intros [= <-]. rewrite length_insert. congruence.
  - rewrite list_lookup_insert_ne by done. congruence.
Qed.

Lemma same_lengths_trans (t1 t2 t3 : Table) :
  Forall2 (λ r r' : list string, length r' = length r) t1 t2 →
  Forall2 (λ r r' : list string, length r' = length r) t2 t3 →
  Forall2 (λ r r' : list string, length r' = length r) t1 t3.
Proof.
  intros H12 H23. eapply Forall2_trans; [|done..]. simpl. congruence.
Qed.

(** A loop of cell writes keeps the rows of the table and their lengths,
    and the cells that it does not write to. *)
Lemma write_loop_frame {A} refs ref (key : A → nat * nat)
    (rhs : A → result string) (l : list A) (sl sl' : Slide) (t : Table) :
  refs !! 0%nat = Some ref →
  sl !! ref = Some (TableFrame t) →
  for_each (λ sl a, text ← rhs a; write_cell refs (key a).1 (key a).2 text sl)
    sl l = Ok sl' →
  ∃ t', sl' = <[ref := TableFrame t']> sl ∧
        Forall2 (λ r r' : list string, length r' = length r) t t' ∧
        (∀ i j, (i, j) ∉ key <$> l → cell t' i j = cell t i j).
Proof.
  intros Href. revert sl t. induction l as [|a l IH]; intros sl t Ht; simpl.
  - intros [= <-]. exists t. split; [by rewrite list_insert_id|].
    split; [|done]. apply Forall_Forall2_diag, Forall_forall. done.
  - intros (sl1 & Hbody & Hloop)%bind_Ok.
    apply bind_Ok in Hbody as (text & _ & Hw).
    destruct (write_cell_Ok _ _ _ _ _ _ _ _ Href Ht Hw) as (t1 & Hset & ->).
    pose proof (set_cell_rows _ _ _ _ _ Hset) as Hrows1.
    apply set_cell_Ok in Hset as [_ Hold].
    pose proof (lookup_lt_Some _ _ _ Ht) as Hlt.
    destruct (IH (<[ref := TableFrame t1]> sl) t1) as (t' & -> & Hrows & Hout);
      [by rewrite list_lookup_insert_eq | done |].
    exists t'. split; [by rewrite list_insert_insert_eq|]. split.
    + by eapply same_lengths_trans.
    + intros i j Hij. apply not_elem_of_cons in Hij as [Hne Hij].
      rewrite Hout by done. apply Hold. by destruct (key a).
Qed.

(** The table slide after [second_chart], with what the table keeps. *)
Lemma second_chart_frame group sales_data (sl sl' : Slide) :
  second_chart group sales_data sl = Ok sl' →
  ∃ ref (t t' : Table),
    select_shapes has_table sl !! 0%nat = Some ref ∧
    sl !! ref = Some (TableFrame t) ∧
    select_shapes has_table sl' !! 0%nat = Some ref ∧
    sl' !! ref = Some (TableFrame t') ∧
    headings_in sales_data t' ∧ data_in sales_data t' ∧
    totals_in sales_data t' ∧
    Forall2 (λ r r' : list string, length r' = length r) t t' ∧
    (∀ i j, (10 ≤ i)%nat ∨ (5 ≤ j)%nat → cell t' i j = cell t i j).
Proof.
  intros Hrun.
  pose proof (second_chart_spec _ _ _ _ Hrun)
    as (tref & old & ref & t & t' & Htref & Hold & Href & Ht & Hsl' & Hh & Hd &
        Htot).
  assert (tref ≠ ref) as Hne by (intros ->; congruence).
  pose proof (lookup_lt_Some _ _ _ Ht) as Hlt.
  assert (sl' !! ref = Some (TableFrame t')) as Ht'.
  { subst sl'. rewrite list_lookup_insert_eq; [done|]. by rewrite length_insert. }
  exists ref, t, t'. do 2 (split; [done|]). split.
  { subst sl'. erewrite select_shapes_insert;
      [ | by rewrite list_lookup_insert_ne | done].
    by erewrite select_shapes_insert. }
  do 4 (split; [done|]).
  unfold second_chart in Hrun. apply bind_Ok in Hrun as (sl0 & Htitle & Hrest).
  apply change_text_Ok in Htitle as (tref' & old' & Htref' & _ & ->).
  assert (tref' = tref) as -> by congruence.
  erewrite select_shapes_insert in Hrest; [|done..].
  set (sl0 := <[tref := _]> sl) in *.
  assert (sl0 !! ref = Some (TableFrame t)) as Ht0
    by (subst sl0; by rewrite list_lookup_insert_ne).
  apply bind_Ok in Hrest as (sl1 & Hh1 & Hrest).
  apply bind_Ok in Hrest as (sl2 & Hd1 & Ht1).
  unfold headings in Hh1.
  rewrite (for_each_ext _
    (λ s j, text ← (name ← py_index (columns sales_data) j;
                     Ok ("Product " +:+ name));
            write_cell (select_shapes has_table sl)
              ((λ j, (0%nat, j)) j).1 ((λ j, (0%nat, j)) j).2 text s)) in Hh1.
  2: { intros s j. by destruct (py_index (columns sales_data) j). }
  destruct (write_loop_frame _ _ _ _ _ _ _ _ Href Ht0 Hh1)
    as (t1 & -> & Hrows1 & Hout1).
  unfold data in Hd1.
  rewrite (for_each_nested
    (λ s i j, v ← iloc sales_data (i - 1) j;
              write_cell (select_shapes has_table sl) i j (py_str v) s))
    in Hd1.
  rewrite (for_each_ext _
    (λ s ij, text ← (v ← iloc sales_data (ij.1 - 1) ij.2; Ok (py_str v));
             write_cell (select_shapes has_table sl) (id ij).1 (id ij).2
               text s)) in Hd1.
  2: { intros s ij. simpl. by destruct (iloc sales_data (ij.1 - 1) ij.2). }
  assert (<[ref := TableFrame t1]> sl0 !! ref = Some (TableFrame t1)) as Hreft1
    by (rewrite list_lookup_insert_eq; [done|subst sl0; by rewrite length_insert]).
  destruct (write_loop_frame _ _ _ _ _ _ _ _ Href Hreft1 Hd1)
    as (t2 & -> & Hrows2 & Hout2).
  rewrite list_insert_insert_eq in Ht1.
  unfold totals in Ht1.
  rewrite (for_each_ext _
    (λ s j, text ← (col ← iloc_col sales_data j; total ← py_sum col;
                     format_1f total);
            write_cell (select_shapes has_table sl)
              ((λ j, (9%nat, j)) j).1 ((λ j, (9%nat, j)) j).2 text s))
    in Ht1.
  2: { intros s j. destruct (iloc_col sales_data j) as [col|]; simpl; [|done].
       by destruct (py_sum col). }
  assert (<[ref := TableFrame t2]> sl0 !! ref = Some (TableFrame t2)) as Hreft2
    by (rewrite list_lookup_insert_eq; [done|subst sl0; by rewrite length_insert]).
  destruct (write_loop_frame _ _ _ _ _ _ _ _ Href Hreft2 Ht1)
    as (t3 & Hsl3 & Hrows3 & Hout3).
  rewrite list_insert_insert_eq in Hsl3.
  assert (t3 = t') as ->.
  { rewrite Hsl3 in Ht'. rewrite list_lookup_insert_eq in Ht'; [congruence|].
    subst sl0. by rewrite length_insert. }
  split.
  - eapply same_lengths_trans; [|done]. by eapply same_lengths_trans.
  - intros i j Hij. rewrite Hout3, Hout2, Hout1; [done| | |].
    + intros (j' & [= -> ->] & Hj'%elem_of_range)%list_elem_of_fmap. lia.
    + rewrite list_fmap_id.
      intros (i' & Hin' & Hi'%elem_of_range)%list_elem_of_bind.
      apply list_elem_of_fmap in Hin' as (j' & [= -> ->] & Hj'%elem_of_range).
      lia.
    + intros (j' & [= -> ->] & Hj'%elem_of_range)%list_elem_of_fmap. lia.
Qed.

(** The tables of the template and of the saved presentation. *)
Lemma saved_table_frame group data_chart data_table input_file output_file
    (fs fs' : files) (pres : Presentation) msg :
  fs !! input_file = Some pres →
  edit_pres group data_chart data_table input_file output_file fs
  = (Ok msg, fs') →
  ∃ (out : Presentation) (t t' : Table),
    fs' !! output_file = Some out ∧
    table_of pres = Some t ∧ table_of out = Some t' ∧
    headings_in data_table t' ∧ data_in data_table t' ∧
    totals_in data_table t' ∧
    Forall2 (λ r r' : list string, length r' = length r) t t' ∧
    (∀ i j, (10 ≤ i)%nat ∨ (5 ≤ j)%nat → cell t' i j = cell t i j).
Proof.
  intros Hfs Hrun.
  destruct (edit_pres_slides _ _ _ _ _ _ _ _ _ Hfs Hrun)
    as (series & out & s0 & s1 & s2 & s0' & s1' & s2' & _ & -> & _ & H0 &
        H1 & H2 & H0' & H1' & H2' & _ & _ & Hs).
  apply second_chart_frame in Hs
    as (ref & t & t' & Href & Ht & Href' & Ht' & Hh & Hd & Htot & Hrows & Hout).
  exists out, t, t'. split; [by rewrite lookup_insert_eq|].
  unfold table_of. rewrite H2, H2'. simpl. rewrite Href, Href'. simpl.
  by rewrite Ht, Ht'.
Qed.

(** X4: the table that a run saves has the rows of the table of the
    template, each as long as it was, and beyond the rows 0..9 and the
    columns 0..4 every cell keeps its text. *)
Theorem table_kept group data_chart data_table input_file output_file
    (fs fs' : files) (pres : Presentation) msg :
  fs !! input_file = Some pres →
  edit_pres group data_chart data_table input_file output_file fs
  = (Ok msg, fs') →
  ∃ (out : Presentation) (t t' : Table),
    fs' !! output_file = Some out ∧
    table_of pres = Some t ∧ table_of out = Some t' ∧
    length t' = length t ∧
    (∀ i (r r' : list string),
       t !! i = Some r → t' !! i = Some r' → length r' = length r) ∧
    (∀ i j, (10 ≤ i)%nat ∨ (5 ≤ j)%nat → cell t' i j = cell t i j).
Proof.
  intros Hfs Hrun.
  destruct (saved_table_frame _ _ _ _ _ _ _ _ _ Hfs Hrun)
    as (out & t & t' & Hout & Ht & Ht' & _ & _ & _ & Hrows & Hcells).
  exists out, t, t'. do 3 (split; [done|]).
  split; [by rewrite (Forall2_length _ _ _ Hrows)|]. split; [|done].
  intros i r r' Hr Hr'. by eapply Forall2_lookup_lr in Hrows.
Qed.

(** ** What a run needs of the detail table and of the template *)

Lemma sum_float_Ok acc (l : list value) n :
  sum_float acc l = Ok n → Forall (λ v, ∀ s, v ≠ VStr s) l.
Proof.
  revert acc. induction l as [|v l IH]; intros acc; [by constructor|].
  destruct v as [z|f|s]; simpl; [| |done].
  - intros (acc' & _ & H)%bind_Ok. constructor; [done|by eapply IH].
  - intros H. constructor; [done|by eapply IH].
Qed.

Lemma py_sum_Ok (l : list value) n :
  py_sum l = Ok n → Forall (λ v, ∀ s, v ≠ VStr s) l.
Proof.
  unfold py_sum. generalize 0. induction l as [|v l IH]; intros acc;
    [by constructor|].
  destruct v as [z|f|s]; simpl; [| |done].
  - intros H. constructor; [done|by eapply IH].
  - intros (acc' & _ & H)%bind_Ok. constructor; [done|by eapply sum_float_Ok].
Qed.

(** What a run that succeeds has read of the detail table. *)
Lemma detail_table_read group data_chart data_table input_file output_file
    (fs fs' : files) msg :
  edit_pres group data_chart data_table input_file output_file fs
  = (Ok msg, fs') →
  (5 ≤ length (columns data_table))%nat ∧
  (8 ≤ length (rows data_table))%nat ∧
  ∀ r j, r ∈ rows data_table → (j < 5)%nat →
    ∃ v, r !! j = Some v ∧ ∀ s, v ≠ VStr s.
Proof.
  intros (pres & t & _ & _ & Hh & Hd & Htot)%saved_table.
  split; [|split].
  - destruct (Hh 4%nat) as (name & Hname%lookup_lt_Some & _); lia.
  - destruct (Hd 8%nat 0%nat) as (v & Hv & _); [lia..|].
    apply bind_Ok in Hv as (r & Hr%py_index_Ok & _).
    apply lookup_lt_Some in Hr. simpl in Hr. lia.
  - intros r j Hr Hj.
    destruct (Htot j Hj) as (col & total & text & Hcol%iloc_col_Ok & Hsum & _).
    apply py_sum_Ok in Hsum.
    apply list_elem_of_lookup in Hr as [i Hi].
    destruct (Forall2_lookup_l _ _ _ _ _ Hcol Hi) as (v & Hv & Hrv).
    exists v. split; [done|]. by eapply Forall_lookup_1 in Hsum.
Qed.

(** A run either saves or fails and leaves the files as they are. *)
Lemma edit_pres_cases group data_chart data_table input_file output_file
    (fs : files) :
  (∃ msg fs',
     edit_pres group data_chart data_table input_file output_file fs
     = (Ok msg, fs')) ∨
  (∃ e,
     edit_pres group data_chart data_table input_file output_file fs
     = (Err e, fs)).
Proof.
  unfold edit_pres. destruct (edit_pres_in_memory _ _ _ _ _); eauto.
Qed.

(** X5: the totals of row 9 are those of whole columns.  A detail table
    may have more than 8 rows: the rows 1..8 of the saved table hold its
    first 8 rows, and the rows behind the eighth, which are in no data
    row, count in the totals. *)
Theorem totals_of_all_rows group data_chart data_table input_file output_file
    (fs fs' : files) msg :
  edit_pres group data_chart data_table input_file output_file fs
  = (Ok msg, fs') →
  (8 ≤ length (rows data_table))%nat ∧
  ∃ (out : Presentation) (t : Table),
    fs' !! output_file = Some out ∧ table_of out = Some t ∧
    (∀ i j, (1 ≤ i < 9)%nat → (j < 5)%nat →
       ∃ v, iloc data_table (i - 1) j = Ok v ∧ cell t i j = Ok (py_str v)) ∧
    ∀ j, (j < 5)%nat →
      ∃ col total text,
        length col = length (rows data_table) ∧
        Forall2 (λ r v, r !! j = Some v) (rows data_table) col ∧
        py_sum col = Ok total ∧ format_1f total = Ok text ∧
        cell t 9 j = Ok text.
Proof.
  intros Hrun. split; [by eapply detail_table_read|].
  apply saved_table in Hrun as (out & t & Hout & Ht & _ & Hd & Htot).
  exists out, t. do 2 (split; [done|]). split; [exact Hd|]. intros j Hj.
  destruct (Htot j Hj) as (col & total & text & Hcol%iloc_col_Ok & Hsum & Hfmt &
                           Hcell).
  exists col, total, text. split; [by rewrite <-(Forall2_length _ _ _ Hcol)|].
  done.
Qed.

(** X6: a detail table with fewer than 5 columns or fewer than 8 rows
    makes the run fail, whatever the template: nothing is saved. *)
Theorem short_detail_table group data_chart data_table input_file output_file
    (fs : files) :
  (length (columns data_table) < 5)%nat ∨ (length (rows data_table) < 8)%nat →
  ∃ e, edit_pres group data_chart data_table input_file output_file fs
       = (Err e, fs).
Proof.
  intros Hshort.
  destruct (edit_pres_cases group data_chart data_table input_file output_file
              fs) as [(msg & fs' & Hrun)|]; [|done].
  apply detail_table_read in Hrun as (Hcols & Hrows & _). lia.
Qed.

(** X7: a text in one of the first five columns of the detail table, in
    whatever row, makes the run fail: the column cannot be summed. *)
Theorem text_in_detail_table group data_chart data_table input_file
    output_file (fs : files) r j s :
  r ∈ rows data_table → (j < 5)%nat → r !! j = Some (VStr s) →
  ∃ e, edit_pres group data_chart data_table input_file output_file fs
       = (Err e, fs).
Proof.
  intros Hr Hj Hs.
  destruct (edit_pres_cases group data_chart data_table input_file output_file
              fs) as [(msg & fs' & Hrun)|]; [|done].
  apply detail_table_read in Hrun as (_ & _ & Hnum).
  destruct (Hnum r j Hr Hj) as (v & Hv & Hne). destruct (Hne s). congruence.
Qed.

Lemma cell_is_Ok_lengths (t t' : Table) i j :
  Forall2 (λ r r' : list string, length r' = length r) t t' →
  is_Ok (cell t i j) = is_Ok (cell t' i j).
Proof.
  intros Hrows. unfold cell, py_index. destruct (t !! i) as [r|] eqn:Hr.
  - destruct (Forall2_lookup_l _ _ _ _ _ Hrows Hr) as (r' & -> & Hlen). simpl.
    destruct (r !! j) eqn:Hj; destruct (r' !! j) eqn:Hj'; try done.
    + apply lookup_lt_Some in Hj. apply lookup_ge_None in Hj'. lia.
    + apply lookup_lt_Some in Hj'. apply lookup_ge_None in Hj. lia.
  - assert (t' !! i = None) as ->; [|done].
    apply lookup_ge_None. rewrite <-(Forall2_length _ _ _ Hrows).
    by apply lookup_ge_None.
Qed.

(** X8: a template with fewer than three slides, fewer than two charts
    on its chart slide, no table on its table slide, or a first table
    that lacks one of the cells of the rows 0..9 and the columns 0..4,
    makes every run fail: nothing is saved, whatever the data. *)
Theorem small_template group data_chart data_table input_file output_file
    (fs : files) (pres : Presentation) :
  fs !! input_file = Some pres → too_small pres →
  ∃ e, edit_pres group data_chart data_table input_file output_file fs
       = (Err e, fs).
Proof.
  intros Hfs Hsmall.
  destruct (edit_pres_cases group data_chart data_table input_file output_file
              fs) as [(msg & fs' & Hrun)|]; [|done].
  exfalso.
  destruct (edit_pres_slides _ _ _ _ _ _ _ _ _ Hfs Hrun)
    as (series & out & s0 & s1 & s2 & s0' & s1' & s2' & _ & _ & _ & H0 &
        H1 & H2 & _ & _ & _ & _ & Hc & Hs).
  destruct Hsmall as [Hlen|[(sl & Hsl & Hcharts)|[(sl & Hsl & Htab)|Hcell]]].
  - apply lookup_lt_Some in H2. lia.
  - assert (sl = s1) as -> by congruence.
    apply first_chart_frame in Hc
      as (_ & _ & chart1 & _ & _ & Hc1%lookup_lt_Some & _). lia.
  - assert (sl = s2) as -> by congruence.
    apply second_chart_frame in Hs as (ref & _ & _ & Href & _).
    by rewrite Htab in Href.
  - destruct Hcell as (t0 & i & j & Ht0 & Hi & Hj & Hno).
    destruct (saved_table_frame _ _ _ _ _ _ _ _ _ Hfs Hrun)
      as (out' & t & t' & _ & Ht & _ & Hh & Hd & Htot & Hrows & _).
    assert (t0 = t) as -> by congruence.
    rewrite (cell_is_Ok_lengths _ _ i j Hrows) in Hno.
    destruct (decide (i = 0%nat)) as [->|];
      [destruct (Hh j Hj) as (? & _ & Hc'); by rewrite Hc' in Hno|].
    destruct (decide (i = 9%nat)) as [->|];
      [destruct (Htot j Hj) as (? & ? & ? & _ & _ & _ & Hc');
       by rewrite Hc' in Hno|].
    destruct (Hd i j ltac:(lia) Hj) as (? & _ & Hc'). by rewrite Hc' in Hno.
Qed.

(** ** The columns of the detail table that are read *)

Lemma for_each_ext_in {S A} (f g : S → A → result S) (s : S) (l : list A) :
  (∀ s a, a ∈ l → f s a = g s a) → for_each f s l = for_each g s l.
Proof.
  revert s. induction l as [|a l IH]; intros s Hfg; [done|]. simpl.
  rewrite Hfg by left. destruct (g s a) as [s'|]; [|done]. simpl.
  apply IH. intros s0 a0 Hin. apply Hfg. by right.
Qed.

Lemma iloc_first_columns (df : DataFrame) n i j :
  (j < n)%nat → iloc (first_columns n df) i j = iloc df i j.
Proof.
  intros Hj. unfold iloc, py_index, first_columns. simpl.
  rewrite list_lookup_fmap. destruct (rows df !! i) as [r|]; [|done]. simpl.
  by rewrite lookup_take_lt.
Qed.

Lemma iloc_col_first_columns (df : DataFrame) n j :
  (j < n)%nat → iloc_col (first_columns n df) j = iloc_col df j.
Proof.
  intros Hj. unfold iloc_col, first_columns. simpl. rewrite length_take.
  assert (mapM (λ r : list value, py_index r j) (take n <$> rows df)
          = mapM (λ r, py_index r j) (rows df)) as ->.
  { induction (rows df) as [|r rs IH]; [done|].
    rewrite fmap_cons. simpl. rewrite IH.
    assert (py_index (take n r) j = py_index r j) as ->; [|done].
    unfold py_index. by rewrite lookup_take_lt. }
  repeat case_bool_decide; (done || lia).
Qed.

(** X9: of the detail table the filler reads the first five columns
    only: the outcome of a run, the saved presentation included, is that
    of the run on the table cut down to them. *)
Theorem later_columns_unread group data_chart data_table input_file
    output_file (fs : files) :
  edit_pres group data_chart data_table input_file output_file fs
  = edit_pres group data_chart (first_columns 5 data_table) input_file
      output_file fs.
Proof.
  assert (∀ sl : Slide,
            second_chart group data_table sl
            = second_chart group (first_columns 5 data_table) sl) as Hsecond.
  { intros sl. unfold second_chart.
    destruct (change_text _ _ sl) as [sl0|]; [|done]. simpl.
    assert (∀ sl1 : Slide,
              headings data_table (select_shapes has_table sl0) sl1
              = headings (first_columns 5 data_table)
                  (select_shapes has_table sl0) sl1) as ->.
    { intros sl1. apply for_each_ext_in. intros s j [_ Hj]%elem_of_range.
      unfold py_index, first_columns. simpl. by rewrite lookup_take_lt. }
    destruct (headings _ _ sl0) as [sl1|]; [|done]. simpl.
    assert (∀ sl2 : Slide,
              data data_table (select_shapes has_table sl0) sl2
              = data (first_columns 5 data_table)
                  (select_shapes has_table sl0) sl2) as ->.
    { intros sl2. apply for_each_ext_in. intros s i _.
      apply for_each_ext_in. intros s' j [_ Hj]%elem_of_range.
      by rewrite iloc_first_columns. }
    destruct (data _ _ sl1) as [sl2|]; [|done]. simpl.
    apply for_each_ext_in. intros s j [_ Hj]%elem_of_range.
    by rewrite iloc_col_first_columns. }
  unfold edit_pres, edit_pres_in_memory.
  destruct (select_group data_chart group) as [series|]; [|done]. simpl.
  destruct (load fs input_file) as [pres|]; [|done]. simpl.
  destruct (py_index pres 0) as [s0|]; [|done]. simpl.
  destruct (title_slide group s0) as [s0'|]; [|done]. simpl.
  destruct (py_index pres 1) as [s1|]; [|done]. simpl.
  destruct (first_chart group series s1) as [s1'|]; [|done]. simpl.
  destruct (py_index pres 2) as [s2|]; [|done]. simpl.
  by rewrite Hsecond.
Qed.

(** ** The driver, turn by turn *)

Lemma template_not_output group : template_path ≠ output_path group.
Proof. unfold template_path, output_path. discriminate. Qed.

Lemma filled_for_fun dataframes (fs : files) group (out out' : Presentation) :
  filled_for dataframes fs group out → filled_for dataframes fs group out' →
  out = out'.
Proof.
  intros (c & t & Hc & Ht & Hmem) (c' & t' & Hc' & Ht' & Hmem'). congruence.
Qed.

Lemma generate_one_Ok dataframes g (fs fs' : files) msg :
  generate_one dataframes g fs = (Ok msg, fs') →
  ∃ group (out : Presentation),
    g = VStr group ∧ filled_for dataframes fs group out ∧
    fs' = <[output_path group := out]> fs.
Proof.
  unfold generate_one. destruct g as [z|f|group]; [done..|].
  destruct (dataframes !! ("table_" +:+ group)) as [dt|] eqn:Hdt; [|done].
  destruct (dataframes !! "chart_df") as [chart_df|] eqn:Hc; [|done].
  intros (out & Hmem & _ & ->)%edit_pres_Ok.
  exists group, out. split; [done|]. split; [|done]. by exists chart_df, dt.
Qed.

Lemma generate_one_Err dataframes g (fs fs' : files) e :
  generate_one dataframes g fs = (Err e, fs') → fs' = fs.
Proof.
  unfold generate_one. destruct g as [z|f|group]; [by intros [= _ <-]..|].
  destruct (dataframes !! ("table_" +:+ group)); [|by intros [= _ <-]].
  destruct (dataframes !! "chart_df"); [|by intros [= _ <-]].
  by intros [_ ->]%edit_pres_Err.
Qed.

Lemma filled_for_reads dataframes (fs fs0 : files) group (out : Presentation) :
  fs !! template_path = fs0 !! template_path →
  filled_for dataframes fs group out → filled_for dataframes fs0 group out.
Proof.
  intros Htpl (c & t & Hc & Ht & Hmem). exists c, t. do 2 (split; [done|]).
  by rewrite <-(edit_pres_in_memory_reads _ _ _ _ fs fs0).
Qed.

(** The files in the course of the loop: the template stays, and a file
    is as it was or is the presentation of a group of the loop. *)
Lemma generate_loop_files dataframes (fs0 : files) groups :
  ∀ (fs fs' : files) r,
    fs !! template_path = fs0 !! template_path →
    generate_loop dataframes groups fs = (r, fs') →
    fs' !! template_path = fs0 !! template_path ∧
    ∀ path,
      fs' !! path = fs !! path ∨
      ∃ group (out : Presentation),
        VStr group ∈ groups ∧ path = output_path group ∧
        filled_for dataframes fs0 group out ∧ fs' !! path = Some out.
Proof.
  induction groups as [|g groups IH]; intros fs fs' r Htpl; simpl.
  { intros [= <- <-]. split; [done|]. intros path. by left. }
  destruct (generate_one dataframes g fs) as [[msg|e1] fs1] eqn:Hone.
  - apply generate_one_Ok in Hone as (group & out & -> & Hfilled & ->).
    apply (filled_for_reads _ _ fs0) in Hfilled; [|done].
    intros Hloop.
    assert (<[output_path group := out]> fs !! template_path
            = fs0 !! template_path) as Htpl1.
    { rewrite lookup_insert_ne; [done|]. apply not_eq_sym, template_not_output. }
    destruct (IH _ _ _ Htpl1 Hloop) as [Ht Hfiles]. split; [done|].
    intros path.
    destruct (Hfiles path) as [Heq|(group' & out' & Hin & -> & Hf & Hout)].
    + destruct (decide (path = output_path group)) as [->|Hne].
      * right. exists group, out. rewrite lookup_insert_eq in Heq.
        split; [by left|done].
      * left. by rewrite Heq, lookup_insert_ne.
    + right. exists group', out'. split; [by right|done].
  - apply generate_one_Err in Hone as ->. intros [= <- <-].
    split; [done|]. intros path. by left.
Qed.

(** A loop that comes to its end has saved the presentation of every
    group. *)
Lemma generate_loop_Ok dataframes (fs0 : files) groups :
  ∀ (fs fs' : files),
    fs !! template_path = fs0 !! template_path →
    generate_loop dataframes groups fs = (Ok (), fs') →
    ∀ g, g ∈ groups →
      ∃ group (out : Presentation),
        g = VStr group ∧ filled_for dataframes fs0 group out ∧
        fs' !! output_path group = Some out.
Proof.
  induction groups as [|g groups IH]; intros fs fs' Htpl; simpl.
  { by intros _ g' ?%elem_of_nil. }
  destruct (generate_one dataframes g fs) as [[msg|e1] fs1] eqn:Hone; [|done].
  apply generate_one_Ok in Hone as (group & out & -> & Hfilled & ->).
  apply (filled_for_reads _ _ fs0) in Hfilled; [|done].
  assert (<[output_path group := out]> fs !! template_path
          = fs0 !! template_path) as Htpl1.
  { rewrite lookup_insert_ne; [done|]. apply not_eq_sym, template_not_output. }
  intros Hloop g' [->|Hin]%elem_of_cons; [|by eapply IH].
  exists group, out. do 2 (split; [done|]).
  destruct (generate_loop_files _ fs0 _ _ _ _ Htpl1 Hloop) as [_ Hfiles].
  destruct (Hfiles (output_path group))
    as [Heq|(group' & out' & _ & <-%output_path_inj & Hf & Hout)].
  - by rewrite Heq, lookup_insert_eq.
  - rewrite Hout. f_equal. by eapply filled_for_fun.
Qed.

(** A loop that fails has come to the end of the turns before the one
    that raised. *)
Lemma generate_loop_Err dataframes groups :
  ∀ (fs fs' : files) e,
    generate_loop dataframes groups fs = (Err e, fs') →
    ∃ gs1 g gs2,
      groups = gs1 ++ g :: gs2 ∧
      generate_loop dataframes gs1 fs = (Ok (), fs') ∧
      generate_one dataframes g fs' = (Err e, fs').
Proof.
  induction groups as [|g groups IH]; intros fs fs' e; simpl; [done|].
  destruct (generate_one dataframes g fs) as [[msg|e1] fs1] eqn:Hone.
  - intros (gs1 & g' & gs2 & -> & Hloop & Hfail)%IH.
    exists (g :: gs1), g', gs2. split; [done|]. split; [|done].
    simpl. by rewrite Hone.
  - intros [= -> ->]. pose proof (generate_one_Err _ _ _ _ _ Hone) as ->.
    by exists [], g, groups.
Qed.

(** X10: whatever its outcome, the driver leaves the template as it is,
    and every file is as it was before or is, under the output path of
    a group of the chart dataset, the template filled for that group. *)
Theorem driver_files dataframes groups (fs fs' : files) r :
  group_values dataframes = Ok groups →
  generate_ppt dataframes fs = (r, fs') →
  fs' !! template_path = fs !! template_path ∧
  ∀ path,
    fs' !! path = fs !! path ∨
    ∃ group (out : Presentation),
      VStr group ∈ groups ∧ path = output_path group ∧
      filled_for dataframes fs group out ∧ fs' !! path = Some out.
Proof.
  unfold generate_ppt. intros ->. by apply generate_loop_files.
Qed.

(** A selection of two rows or more is not plotted: the charts take no
    arrays. *)
Lemma select_values_frame df names a :
  select_values (SqFrame df) names = Ok a →
  ∃ rws, a = Arr2 rws ∧ length rws = length (rows df).
Proof.
  simpl. intros (ps & _ & H)%bind_Ok.
  apply bind_Ok in H as (rws & Hrws%mapM_Ok_Forall2 & [= <-]).
  exists rws. split; [done|]. by rewrite (Forall2_length _ _ _ Hrws).
Qed.

Lemma squeeze_rows cols r1 r2 (rs : list (list value)) :
  let df := {| columns := cols; rows := r1 :: r2 :: rs |} in
  (∃ vals, squeeze df = SqCol vals) ∨ squeeze df = SqFrame df.
Proof.
  unfold squeeze. simpl.
  destruct cols as [|c [|c' cols]], r1 as [|v [|v' r1]]; eauto.
Qed.

Lemma one_row_at_most group cols (rs : list (list value)) (sl sl' : Slide) :
  first_chart group (squeeze {| columns := cols; rows := rs |}) sl = Ok sl' →
  (length rs ≤ 1)%nat.
Proof.
  destruct rs as [|r1 [|r2 rs]]; [simpl; lia..|].
  intros (tref & old & chart0 & chart1 & a1 & a2 & a3 & ap & old0 & old1 &
          _ & _ & _ & _ & _ & _ & _ & _ & _ & Ha1 & _ & _ & _ & Hbar & _)
         %first_chart_Ok.
  exfalso. destruct (squeeze_rows cols r1 r2 rs) as [[vals Hsq]|Hsq];
    rewrite Hsq in Ha1; [done|].
  apply select_values_frame in Ha1 as (rws & -> & Hlen).
  by destruct rws.
Qed.

Lemma mask_rows_length (rs : list (list value)) (f : value → bool) col :
  length rs = length col →
  length (mask_rows rs (map f col)) = length (List.filter f col).
Proof.
  revert rs. induction col as [|v col IH]; intros [|r rs]; simpl; try done.
  intros [= Hlen]. destruct (f v); simpl; by rewrite IH.
Qed.

Lemma NoDup_groups (col : list value) :
  (∀ g, g ∈ col →
     ∃ group, g = VStr group ∧
       (length (List.filter (λ v, eq_str v group) col) ≤ 1)%nat) →
  NoDup col.
Proof.
  induction col as [|x col IH]; intros Hcol; [constructor|].
  destruct (Hcol x) as (group & -> & Hone); [by left|].
  simpl in Hone. rewrite bool_decide_eq_true_2 in Hone by done.
  simpl in Hone. constructor.
  - intros Hin%list_elem_of_In.
    assert (In (VStr group) (List.filter (λ v, eq_str v group) col)) as Hf.
    { apply filter_In. split; [done|]. simpl. by apply bool_decide_eq_true_2. }
    destruct (List.filter _ col); [done|simpl in Hone; lia].
  - apply IH. intros g Hg. destruct (Hcol g) as (group' & -> & Hone');
      [by right|].
    exists group'. split; [done|]. simpl in Hone'.
    destruct (bool_decide (group = group')); simpl in Hone'; lia.
Qed.

(** The template is filled for a group that has one row at most in the
    chart dataset. *)
Lemma filled_for_rows dataframes (fs : files) group (out : Presentation)
    chart_df col :
  dataframes !! "chart_df" = Some chart_df →
  get_column chart_df "group" = Ok col →
  filled_for dataframes fs group out →
  (length (List.filter (λ v, eq_str v group) col) ≤ 1)%nat.
Proof.
  intros Hchart Hcol (chart_df' & dt & Hchart' & _ & Hmem).
  assert (chart_df' = chart_df) as -> by congruence.
  apply edit_pres_in_memory_Ok in Hmem
    as (series & pres & s0 & s0' & s1 & s1' & s2 & s2' & Hseries & _ & _ &
        _ & _ & Hfirst & _).
  unfold select_group, matching_rows in Hseries. rewrite Hcol in Hseries.
  simpl in Hseries. injection Hseries as <-.
  apply one_row_at_most in Hfirst.
  rewrite mask_rows_length in Hfirst; [done|].
  unfold get_column in Hcol.
  destruct (column_pos (columns chart_df) "group"); [|done].
  apply mapM_Ok_Forall2 in Hcol. by apply Forall2_length in Hcol.
Qed.


(** X12: when the driver fails, it has failed in the turn of one group
    of the column: the turns of the groups before it have saved their
    presentations, which stay, and no other file has changed, so that
    the groups behind it have none. *)
Theorem driver_failure dataframes groups (fs fs' : files) e :
  group_values dataframes = Ok groups →
  generate_ppt dataframes fs = (Err e, fs') →
  ∃ gs1 g gs2,
    groups = gs1 ++ g :: gs2 ∧
    generate_one dataframes g fs' = (Err e, fs') ∧
    (∀ g', g' ∈ gs1 →
       ∃ group (out : Presentation),
         g' = VStr group ∧ filled_for dataframes fs group out ∧
         fs' !! output_path group = Some out) ∧
    (∀ path, (∀ group, VStr group ∈ gs1 → path ≠ output_path group) →
       fs' !! path = fs !! path).
Proof.
  unfold generate_ppt. intros ->.
  intros (gs1 & g & gs2 & -> & Hloop & Hfail)%generate_loop_Err.
  exists gs1, g, gs2. do 2 (split; [done|]). split.
  - by eapply generate_loop_Ok.
  - intros path Hpath.
    destruct (generate_loop_files _ fs _ _ _ _ eq_refl Hloop) as [_ Hfiles].
    destruct (Hfiles path) as [|(group & out & Hin & -> & _)]; [done|].
    by destruct (Hpath group Hin).
Qed.

(** ** The loading of the frames *)

Lemma has_char_app c (s t : string) :
  has_char c (s +:+ t) = has_char c s || has_char c t.
Proof.
  induction s as [|a s IH]; [done|].
  change (Ascii.eqb a c || has_char c (s +:+ t)
          = Ascii.eqb a c || has_char c s || has_char c t).
  rewrite IH. by destruct (Ascii.eqb a c).
Qed.

Lemma string_app_assoc (s t u : string) : (s +:+ t) +:+ u = s +:+ t +:+ u.
Proof.
  induction s as [|a s IH]; [done|].
  change (String a ((s +:+ t) +:+ u) = String a (s +:+ t +:+ u)).
  by rewrite IH.
Qed.

Lemma after_last_slash_None s :
  has_char "/" s = false → after_last_slash s = None.
Proof.
  induction s as [|a s IH]; [done|]. simpl.
  intros [Ha Hs]%orb_false_elim. by rewrite IH, Ha.
Qed.

Lemma basename_csv_path stem :
  has_char "/" stem = false → basename (csv_path stem) = stem +:+ ".csv".
Proof.
  intros Hstem. unfold basename, csv_path.
  change ("data/" +:+ stem +:+ ".csv")
    with (String "d" (String "a" (String "t" (String "a" (String "/"
            (stem +:+ ".csv")))))).
  simpl. rewrite after_last_slash_None; [done|].
  rewrite has_char_app, Hstem. done.
Qed.

Lemma before_dot_app stem rest :
  has_char "." stem = false → before_dot (stem +:+ "." +:+ rest) = stem.
Proof.
  induction stem as [|a stem IH]; [done|]. simpl.
  intros [Ha Hs]%orb_false_elim.
  change (before_dot (String a (stem +:+ "." +:+ rest)) = String a stem).
  simpl. by rewrite Ha, IH.
Qed.

Lemma before_dot_clean s : has_char "." (before_dot s) = false.
Proof.
  induction s as [|a s IH]; [done|]. simpl.
  destruct (Ascii.eqb a ".") eqn:Ha; [done|]. simpl. by rewrite Ha, IH.
Qed.

(** The name that the loop makes of the path of a data file whose stem
    has neither dot nor slash is that stem. *)
Lemma name_of_csv_path stem :
  has_char "." stem = false → has_char "/" stem = false →
  before_dot (basename (csv_path stem)) = stem.
Proof.
  intros Hdot Hslash. rewrite basename_csv_path by done.
  by apply (before_dot_app stem "csv").
Qed.

Lemma load_frames_spec disk data_files :
  ∀ dataframes0 dataframes,
    load_frames disk data_files dataframes0 = Frames dataframes →
    (∀ i, i ∈ data_files → is_Some (dataframes !! before_dot (basename i))) ∧
    ∀ name,
      dataframes !! name = dataframes0 !! name ∨
      ∃ i, i ∈ data_files ∧ name = before_dot (basename i) ∧
           is_Some (dataframes !! name) ∧
           dataframes !! name = disk !! csv_path name.
Proof.
  induction data_files as [|i data_files IH]; intros dfs0 dfs; simpl.
  { intros [= <-]. split; [by intros i ?%elem_of_nil|]. intros name. by left. }
  destruct (disk !! csv_path (before_dot (basename i))) as [df|] eqn:Hdisk;
    [|done].
  intros [Hkeys Hnames]%IH.
  assert (∀ name,
            dfs !! name = dfs0 !! name ∨
            ∃ i', i' ∈ i :: data_files ∧ name = before_dot (basename i') ∧
                  is_Some (dfs !! name) ∧ dfs !! name = disk !! csv_path name)
    as Hnames'.
  { intros name. destruct (Hnames name) as [Heq|(i' & Hin & ? & ? & ?)].
    - destruct (decide (name = before_dot (basename i))) as [->|Hne].
      + right. exists i. rewrite lookup_insert_eq in Heq.
        split; [by left|]. split; [done|]. by rewrite Heq, Hdisk.
      + left. by rewrite Heq, lookup_insert_ne.
    - right. exists i'. split; [by right|done]. }
  split; [|done]. intros i' [->|Hin]%elem_of_cons; [|by apply Hkeys].
  destruct (Hnames (before_dot (basename i))) as [Heq|(_ & _ & _ & ? & _)];
    [|done].
  by rewrite Heq, lookup_insert_eq.
Qed.

(** X13: when the loader comes to its end, every path that [glob] found
    has given a frame, and every frame stands under a name without a dot
    and is the file [data/<name>.csv], whatever the path it was made
    for. *)
Theorem loaded_frames disk data_files dataframes :
  load_frames disk data_files ∅ = Frames dataframes →
  (∀ i, i ∈ data_files → is_Some (dataframes !! before_dot (basename i))) ∧
  ∀ name df, dataframes !! name = Some df →
    disk !! csv_path name = Some df ∧ has_char "." name = false ∧
    ∃ i, i ∈ data_files ∧ name = before_dot (basename i).
Proof.
  intros [Hkeys Hnames]%load_frames_spec. split; [done|].
  intros name df Hname.
  destruct (Hnames name) as [Heq|(i & Hin & -> & _ & Hdisk)].
  - by rewrite Hname, lookup_empty in Heq.
  - split; [by rewrite <-Hdisk|]. split; [apply before_dot_clean|by exists i].
Qed.

(** X14: for data files [data/<stem>.csv] whose stems have neither dot
    nor slash the loader comes to its end, and its frames are those
    files, each under its stem, and no other. *)
Theorem load_clean disk stems :
  Forall (λ stem, has_char "." stem = false ∧ has_char "/" stem = false ∧
                  is_Some (disk !! csv_path stem)) stems →
  ∃ dataframes,
    load_frames disk (csv_path <$> stems) ∅ = Frames dataframes ∧
    ∀ name,
      dataframes !! name
      = if bool_decide (name ∈ stems) then disk !! csv_path name else None.
Proof.
  intros Hstems.
  assert (∀ dataframes0,
    ∃ dataframes,
      load_frames disk (csv_path <$> stems) dataframes0 = Frames dataframes ∧
      ∀ name,
        dataframes !! name
        = if bool_decide (name ∈ stems) then disk !! csv_path name
          else dataframes0 !! name) as Hloop.
  { induction Hstems as [|stem stems (Hdot & Hslash & [df Hdf]) _ IH];
      intros dfs0.
    { exists dfs0. split; [done|]. intros name.
      by rewrite bool_decide_eq_false_2 by apply not_elem_of_nil. }
    rewrite fmap_cons. simpl. rewrite name_of_csv_path, Hdf by done.
    destruct (IH (<[stem := df]> dfs0)) as (dfs & -> & Hdfs).
    exists dfs. split; [done|]. intros name. rewrite Hdfs.
    destruct (decide (name ∈ stems)) as [Hin|Hin].
    - rewrite !bool_decide_eq_true_2; [done| by right | done].
    - rewrite (bool_decide_eq_false_2 _ Hin).
      destruct (decide (name = stem)) as [->|Hne].
      + rewrite lookup_insert_eq, bool_decide_eq_true_2; [done|by left].
      + rewrite lookup_insert_ne by done.
        rewrite bool_decide_eq_false_2; [done|].
        by intros [?|?]%elem_of_cons. }
  destruct (Hloop ∅) as (dfs & Hload & Hdfs). exists dfs. split; [done|].
  intros name. rewrite Hdfs. by rewrite lookup_empty.
Qed.

(** X15: a data file whose stem has a dot, [data/<a>.<b>.csv], is not
    read: the loop reads [data/<a>.csv] in its place, and raises
    [FileNotFoundError] when there is no such file. *)
Theorem dotted_data_file disk a b rest dataframes :
  has_char "." a = false → has_char "/" a = false → has_char "/" b = false →
  load_frames disk (csv_path (a +:+ "." +:+ b) :: rest) dataframes
  = match disk !! csv_path a with
    | Some df => load_frames disk rest (<[a := df]> dataframes)
    | None => FileNotFoundError (csv_path a)
    end.
Proof.
  intros Hdot Hslasha Hslashb. simpl.
  assert (before_dot (basename (csv_path (a +:+ "." +:+ b))) = a) as ->; [|done].
  rewrite basename_csv_path.
  - rewrite string_app_assoc. by apply (before_dot_app a (b +:+ ".csv")).
  - rewrite !has_char_app, Hslasha, Hslashb. done.
Qed.

(** ** The driver, run again *)

(** Two loops over the same groups, from files with the same template:
    they end alike, and a file is the same after both or is left alone
    by both. *)
Lemma generate_loop_reads dataframes groups :
  ∀ fs1 fs2 : files,
    fs1 !! template_path = fs2 !! template_path →
    (generate_loop dataframes groups fs1).1
    = (generate_loop dataframes groups fs2).1 ∧
    ∀ path,
      (generate_loop dataframes groups fs1).2 !! path
      = (generate_loop dataframes groups fs2).2 !! path ∨
      ((generate_loop dataframes groups fs1).2 !! path = fs1 !! path ∧
       (generate_loop dataframes groups fs2).2 !! path = fs2 !! path).
Proof.
  induction groups as [|g groups IH]; intros fs1 fs2 Htpl; simpl.
  { split; [done|]. intros path. by right. }
  destruct g as [z|f|group]; simpl;
    [split; [done|intros path; by right]..|].
  destruct (dataframes !! ("table_" +:+ group)) as [dt|];
    [|split; [done|intros path; by right]].
  destruct (dataframes !! "chart_df") as [chart_df|];
    [|split; [done|intros path; by right]].
  unfold edit_pres.
  rewrite (edit_pres_in_memory_reads _ _ _ _ fs1 fs2 Htpl).
  destruct (edit_pres_in_memory _ _ _ _ fs2) as [out|e];
    [|split; [done|intros path; by right]].
  assert (<[output_path group := out]> fs1 !! template_path
          = <[output_path group := out]> fs2 !! template_path) as Htpl1.
  { rewrite !lookup_insert_ne; [done|..]; apply not_eq_sym, template_not_output. }
  destruct (IH _ _ Htpl1) as [Hres Hfiles]. split; [done|].
  intros path. destruct (Hfiles path) as [Heq|[Heq1 Heq2]]; [by left|].
  destruct (decide (path = output_path group)) as [->|Hne].
  - left. by rewrite Heq1, Heq2, !lookup_insert_eq.
  - right. by rewrite Heq1, Heq2, !lookup_insert_ne.
Qed.

(** X16: the driver can be run again: on the files that a run has left,
    a second run has the same outcome and leaves the files as they
    are. *)
Theorem driver_twice dataframes (fs : files) :
  generate_ppt dataframes (generate_ppt dataframes fs).2
  = generate_ppt dataframes fs.
Proof.
  unfold generate_ppt. destruct (group_values dataframes) as [groups|e]; [|done].
  destruct (generate_loop dataframes groups fs) as [r fs'] eqn:Hloop. simpl.
  destruct (generate_loop_files _ fs _ _ _ _ eq_refl Hloop) as [Htpl _].
  destruct (generate_loop_reads dataframes groups fs' fs Htpl)
    as [Hres Hfiles].
  rewrite Hloop in Hres, Hfiles. simpl in Hres, Hfiles.
  destruct (generate_loop dataframes groups fs') as [r' fs''].
  simpl in Hres, Hfiles. subst r'. f_equal. apply map_eq. intros path.
  destruct (Hfiles path) as [|[? _]]; done.
Qed.

(** ** The markers *)

Lemma prefix_app (sub s : string) :
  String.prefix sub s = true ↔ ∃ post, s = sub +:+ post.
Proof.
  revert s. induction sub as [|a sub IH]; intros s.
  { split; [intros _; by exists s|]. intros _. by destruct s. }
  destruct s as [|b s]; simpl.
  { split; [done|]. by intros [post ?]. }
  destruct (ascii_dec a b) as [->|Hne].
  - rewrite IH. split; intros [post H]; exists post.
    + change (String b s = String b (sub +:+ post)). by rewrite H.
    + change (String b s = String b (sub +:+ post)) in H. by injection H.
  - split; [done|]. intros [post H].
    change (String b s = String a (sub +:+ post)) in H. by injection H.
Qed.

Lemma find_from_eq n (s sub : string) :
  find_from n s sub
  = if String.prefix sub s then Z.of_nat n
    else match s with
         | EmptyString => -1
         | String _ s' => find_from (S n) s' sub
         end.
Proof. by destruct s. Qed.

(** [find] gives [-1] for a text without [sub], and an offset for a
    text with it. *)
Lemma find_from_spec (s sub : string) n :
  (find_from n s sub = -1 ∧ ¬ ∃ pre post, s = pre +:+ sub +:+ post) ∨
  (Z.of_nat n ≤ find_from n s sub ∧ ∃ pre post, s = pre +:+ sub +:+ post).
Proof.
  revert n. induction s as [|a s IH]; intros n; rewrite find_from_eq.
  - destruct (String.prefix sub "") eqn:Hp.
    + right. split; [lia|]. apply prefix_app in Hp as [post Hp].
      by exists "", post.
    + left. split; [done|]. intros (pre & post & H).
      destruct pre as [|c pre]; [|done].
      assert (String.prefix sub "" = true) by (apply prefix_app; by exists post).
      congruence.
  - destruct (String.prefix sub (String a s)) eqn:Hp.
    + right. split; [lia|]. apply prefix_app in Hp as [post Hp].
      by exists "", post.
    + destruct (IH (S n)) as [[Heq Hno]|[Hle (pre & post & ->)]].
      * left. split; [done|]. intros (pre & post & H).
        destruct pre as [|c pre].
        -- assert (String.prefix sub (String a s) = true)
             by (apply prefix_app; by exists post).
           congruence.
        -- change (String a s = String c (pre +:+ sub +:+ post)) in H.
           injection H as -> ->. apply Hno. by exists pre, post.
      * right. split; [lia|]. by exists (String a pre), post.
Qed.

(** X17: the shapes that a lookup selects for a marker are those with a
    text frame whose text has the marker in it, wherever it stands and
    letter for letter. *)
Theorem marker_is_substring marker (s : shape) :
  mentions marker s = true ↔ ∃ pre post, s = TextShape (pre +:+ marker +:+ post).
Proof.
  unfold mentions, str_find.
  destruct s as [text| | |]; simpl;
    [|split; [done|by intros (? & ? & ?)]..].
  destruct (find_from_spec text marker 0) as [[-> Hno]|[Hle Hyes]]; simpl.
  - split; [done|]. intros (pre & post & [= ->]). destruct Hno. eauto.
  - split.
    + intros _. destruct Hyes as (pre & post & ->). eauto.
    + intros _. by destruct (Z.eqb_spec (find_from 0 text marker) (-1)); [lia|].
Qed.

End Coverage.

(** * The worked example, run *)

Lemma pair_eq_fst {A B} (p : A * B) (a : A) : p.1 = a → p = (a, p.2).
Proof. destruct p as [a' b]. simpl. by intros ->. Qed.

(** The run for the group A on the example with floats [xs], for the
    floats [PF]. *)
Local Abbreviation fl_run PF xs :=
  (edit_pres (PF := PF) "A" (fl_chart (PF := PF)) (fl_table (PF := PF) xs)
     template_path (output_path "A") (fl_fs (PF := PF))).

Local Abbreviation ex_run :=
  (edit_pres "A" ex_chart ex_table template_path (output_path "A")).

(** The run for the group A saves [ex_filled]. *)
Lemma ex_run_saves :
  ex_run ex_fs
  = (Ok "Successfully saved version A!", <[output_path "A" := ex_filled]> ex_fs).
Proof.
  apply edit_pres_Ok. exists ex_filled. split; [|done].
  vm_compute. reflexivity.
Qed.

(** The headings of the example: the labels P, X, Y, Z and W. *)
Lemma header_row_witness :
  ∃ pres t,
    (<[output_path "A" := ex_filled]> ex_fs) !! output_path "A" = Some pres ∧
    table_of pres = Some t ∧
    ∀ j, (j < 5)%nat →
      ∃ name, columns ex_table !! j = Some name ∧
              cell t 0 j = Ok ("Product " +:+ name).
Proof.
  apply (header_row "A" ex_chart ex_table template_path (output_path "A")
           ex_fs _ "Successfully saved version A!").
  exact ex_run_saves.
Defined.

(** The data rows of the example. *)
Lemma data_rows_witness :
  ∃ pres t,
    (<[output_path "A" := ex_filled]> ex_fs) !! output_path "A" = Some pres ∧
    table_of pres = Some t ∧
    ∀ i j, (1 ≤ i ≤ 8)%nat → (j < 5)%nat →
      ∃ r v, rows ex_table !! (i - 1)%nat = Some r ∧ r !! j = Some v ∧
             cell t i j = Ok (py_str v).
Proof.
  apply (data_rows "A" ex_chart ex_table template_path (output_path "A")
           ex_fs _ "Successfully saved version A!").
  exact ex_run_saves.
Defined.

Section FloatRun.
#[local] Existing Instance py_floats | 0.


(** The claim of C1 fails for floats: with [1e16] and [1.0] in a column
    of zeros the total is [1e16], since the float next to it is [2]
    away, and the row of totals shows [10000000000000000.0], while the
    cells add up to [10000000000000001].  The interpreters from 3.12 on
    give the same. *)
Lemma float_total_is_not_the_sum :
  length (rows (fl_table (PF := py_floats) ex_large)) = 8%nat ∧
  (fl_run py_floats ex_large).1 = Ok "Successfully saved version A!" ∧
  (((fl_run py_floats ex_large).2 !! output_path "A" ≫= table_of)
     ≫= (.!! 9%nat)) ≫= (.!! 0%nat)
  = Some "10000000000000000.0" ∧
  (((fl_run py_floats_compensated ex_large).2 !! output_path "A"
      ≫= table_of (PF := py_floats_compensated))
     ≫= (.!! 9%nat)) ≫= (.!! 0%nat)
  = Some "10000000000000000.0" ∧
  b64_value <$> ex_large
  = Some <$> [Dyadic 5000000000000000 1; Dyadic 4503599627370496 (-52);
              Dyadic 0 0; Dyadic 0 0; Dyadic 0 0; Dyadic 0 0; Dyadic 0 0;
              Dyadic 0 0] ∧
  5000000000000000 * 2 ^ 1 = 10 ^ 16 ∧ 4503599627370496 = 1 * 2 ^ 52 ∧
  dy_format_1f (dy_sum (omap b64_value ex_large)) = "10000000000000001.0".
Proof. vm_compute. done. Qed.

End FloatRun.


(** C2 on the code: the chart data object of the bar chart is used again
    for the pie chart, so the pie chart of the saved file has four
    series, the three of the bar chart and behind them the one made of
    [pie1] to [pie4]. *)
Theorem pie_chart_has_four_series :
  ∃ pie,
    (ex_run ex_fs).2 !! output_path "A" ≫= chart_of 1 = Some pie ∧
    cd_categories (plotted pie) = ["1st Qtr"; "2nd Qtr"; "3rd Qtr"; "4th Qtr"] ∧
    length (cd_series (plotted pie)) = 4%nat ∧
    cd_series (plotted pie) = ex_bar_series ++ [ex_pie_series] ∧
    cd_series (plotted pie) !! 0%nat
    = Some {| series_name := "Series 1";
              series_points :=
                [PVal (VInt 11); PVal (VInt 21); PVal (VInt 31);
                 PVal (VInt 41)] |}.
Proof. eexists. vm_compute. done. Qed.



(** The claim of C9 fails on a title slide with two shapes that hold
    the marker of the title: the second one is not left as it is, the
    lookup of the subtitle finds it and writes over it. *)
Lemma second_title_shape_overwritten :
  select_shapes (mentions "Presentation title") ex_slide0_twice
  = [0%nat; 1%nat] ∧
  ex_slide0_twice !! 1%nat
  = Some (TextShape "Presentation title and Subtitle") ∧
  (ex_run ex_fs_twice).1 = Ok "Successfully saved version A!" ∧
  ((ex_run ex_fs_twice).2 !! output_path "A") ≫= (.!! 0%nat)
  = Some [TextShape "Presentation for Group A";
          TextShape "Financial Information for Group A"].
Proof. vm_compute. done. Qed.

(** A chart slide with two shapes that hold the marker: the first one is
    overwritten, the second one is saved as it was. *)
Lemma first_match_only_witness :
  select_shapes (mentions "Chart") ex_slide1_twice = [0%nat; 2%nat] ∧
  change_text "Chart" "Results" ex_slide1_twice
  = Ok (<[0%nat := TextShape "Results"]> ex_slide1_twice) ∧
  ∃ (out : list (list shape)) (s1' : list shape),
    (ex_run ex_fs_two_chart_titles).2 !! output_path "A" = Some out ∧
    out !! 1%nat = Some s1' ∧
    s1' !! 2%nat = Some (TextShape "Chart notes").
Proof.
  split; [by vm_compute|]. split.
  - apply (proj1 first_match_only "Chart" "Results" ex_slide1_twice
             0%nat [2%nat]). by vm_compute.
  - destruct (proj2 first_match_only "A" ex_chart ex_table template_path
                (output_path "A") ex_fs_two_chart_titles
                (ex_run ex_fs_two_chart_titles).2
                [ex_slide0; ex_slide1_twice; ex_slide2]
                "Successfully saved version A!" eq_refl)
      as (out & s0 & s1 & s2 & s0' & s1' & s2' & r1 & r2 & rc & rt & Hout &
          H0 & H1 & H2 & H0' & H1' & H2' & Hr1 & Hr2 & Hrc & Hrt & Hk0 & Hk1 &
          Hk2).
    { unfold edit_pres.
      destruct (edit_pres_in_memory _ _ _ _ _) as [out|e] eqn:Hmem; [done|].
      vm_compute in Hmem. discriminate. }
    injection H1 as <-. vm_compute in Hrc. injection Hrc as <-.
    exists out, s1'. split; [done|]. split; [done|]. by apply Hk1.
Defined.

(** A detail table with names in its first column cannot be summed: the
    run raises [TypeError] and the files are as before. *)
Lemma failure_saves_nothing_witness :
  edit_pres "A" ex_chart ex_table_names template_path (output_path "A") ex_fs
  = (Err TypeError, ex_fs) ∧
  ex_fs = ex_fs ∧ ex_fs !! output_path "A" = ex_fs !! output_path "A".
Proof.
  assert (edit_pres "A" ex_chart ex_table_names template_path
            (output_path "A") ex_fs = (Err TypeError, ex_fs)) as Hrun
    by (apply edit_pres_fails; vm_compute; reflexivity).
  split; [done|].
  exact (failure_saves_nothing "A" ex_chart ex_table_names template_path
           (output_path "A") ex_fs ex_fs TypeError Hrun).
Defined.

(** Two sets of files with the template of the example, and the run for
    A done twice. *)
Lemma same_inputs_same_output_witness :
  ex_fs !! template_path = ex_fs_more !! template_path ∧
  (ex_run ex_fs).1 = (ex_run ex_fs_more).1 ∧
  (ex_run ex_fs).2 !! output_path "A" = (ex_run ex_fs_more).2 !! output_path "A" ∧
  ex_run (ex_run ex_fs).2 = ex_run ex_fs.
Proof.
  assert (ex_fs !! template_path = ex_fs_more !! template_path) as Hin
    by by vm_compute.
  split; [done|].
  destruct (same_inputs_same_output "A" ex_chart ex_table template_path
              (output_path "A") ex_fs ex_fs_more Hin) as (Hres & Hout & Htwice).
  split; [done|]. split.
  - apply Hout. vm_compute. reflexivity.
  - apply Htwice. intros Heq. vm_compute in Heq. discriminate.
Defined.

(** The frames of the example have no table for the group B. *)
Lemma missing_detail_table_witness :
  generate_one ex_dataframes (VStr "B") ex_fs = (Err KeyError, ex_fs) ∧
  is_LookupError KeyError = true ∧
  ∃ e fs', generate_ppt ex_dataframes ex_fs = (Err e, fs') ∧
           fs' !! output_path "B" = ex_fs !! output_path "B".
Proof.
  apply (missing_detail_table ex_dataframes ex_chart [VStr "A"; VStr "B"]).
  - by vm_compute.
  - by vm_compute.
  - repeat constructor.
  - by vm_compute.
Defined.

(** ** The failures of a run, one by one *)

(** The driver goes as far as the group without a table: the file of A
    is saved, that of B is not. *)
Example driver_stops_at_missing_table :
  (generate_ppt ex_dataframes ex_fs).1 = Err KeyError ∧
  (generate_ppt ex_dataframes ex_fs).2 !! output_path "A" = Some ex_filled ∧
  (generate_ppt ex_dataframes ex_fs).2 !! output_path "B" = None.
Proof. vm_compute. done. Qed.

Example fails_without_template :
  ex_run ∅ = (Err PackageNotFoundError, ∅).
Proof. apply edit_pres_fails. vm_compute. reflexivity. Qed.

Example fails_without_chart_title :
  ex_run ex_fs_no_chart_title = (Err IndexError, ex_fs_no_chart_title).
Proof. apply edit_pres_fails. vm_compute. reflexivity. Qed.

Example fails_without_table_title :
  ex_run ex_fs_no_table_title = (Err IndexError, ex_fs_no_table_title).
Proof. apply edit_pres_fails. vm_compute. reflexivity. Qed.

(** When the chart dataset cannot be read, that error comes first. *)
Example fails_earlier_without_pie_columns :
  edit_pres "A" ex_chart_no_pie ex_table template_path (output_path "A")
    ex_fs_no_table_title
  = (Err KeyError, ex_fs_no_table_title).
Proof. apply edit_pres_fails. vm_compute. reflexivity. Qed.

Example fails_without_table :
  ex_run ex_fs_no_table = (Err IndexError, ex_fs_no_table).
Proof. apply edit_pres_fails. vm_compute. reflexivity. Qed.

Example fails_on_short_table :
  ex_run ex_fs_short_table = (Err IndexError, ex_fs_short_table).
Proof. apply edit_pres_fails. vm_compute. reflexivity. Qed.

Example fails_on_names_in_totals :
  edit_pres "A" ex_chart ex_table_names template_path (output_path "A") ex_fs
  = (Err TypeError, ex_fs).
Proof. apply edit_pres_fails. vm_compute. reflexivity. Qed.

Example fails_without_chart_columns :
  edit_pres "A" {| columns := ["group"; "cat1_1"];
                   rows := [[VStr "A"; VInt 1]] |}
    ex_table template_path (output_path "A") ex_fs
  = (Err KeyError, ex_fs).
Proof. apply edit_pres_fails. vm_compute. reflexivity. Qed.

(** A group without a row in the chart dataset does not make the run
    fail: the selection is an empty frame, and the charts are saved with
    series that have no points. *)
Example completes_without_group_row :
  (edit_pres "C" ex_chart ex_table template_path (output_path "C") ex_fs).1
  = Ok "Successfully saved version C!" ∧
  ((edit_pres "C" ex_chart ex_table template_path (output_path "C") ex_fs).2
     !! output_path "C") ≫= chart_of 0
  = Some {| chart_title := Some "Sales by Category: Group C";
            plotted :=
              {| cd_categories :=
                   ["Category 1"; "Category 2"; "Category 3"; "Category 4"];
                 cd_series :=
                   [ {| series_name := "Series 1"; series_points := [] |};
                     {| series_name := "Series 2"; series_points := [] |};
                     {| series_name := "Series 3"; series_points := [] |} ]
              |} |}.
Proof. vm_compute. done. Qed.

(** Sums beyond [2 ^ 53] are printed as the nearest binary64. *)
Example format_1f_rounds :
  int_format_1f 8 = Ok "8.0" ∧
  int_format_1f (-3) = Ok "-3.0" ∧
  int_format_1f (2 ^ 53 + 1) = Ok "9007199254740992.0".
Proof. vm_compute. done. Qed.

(** ** More of the example *)

(** The slides of the example, before and after. *)
Lemma layout_kept_witness :
  ∃ out : list (list shape),
    (<[output_path "A" := ex_filled]> ex_fs) !! output_path "A" = Some out ∧
    length out = length ex_template ∧
    (∀ k (sl sl' : list shape),
       ex_template !! k = Some sl → out !! k = Some sl' →
       Forall2 same_kind sl sl') ∧
    (∀ k, (3 ≤ k)%nat → out !! k = ex_template !! k).
Proof.
  apply (layout_kept "A" ex_chart ex_table template_path (output_path "A")
           ex_fs _ ex_template "Successfully saved version A!").
  - vm_compute. reflexivity.
  - exact ex_run_saves.
Defined.

Lemma other_shapes_kept_witness :
  ∃ (out : list (list shape)) (s1 s2 s1' s2' : list shape),
    (<[output_path "A" := ex_filled]> ex_fs) !! output_path "A" = Some out ∧
    ex_template !! 1%nat = Some s1 ∧ ex_template !! 2%nat = Some s2 ∧
    out !! 1%nat = Some s1' ∧ out !! 2%nat = Some s2' ∧
    (∀ i, select_shapes (mentions "Chart") s1 !! 0%nat ≠ Some i →
          select_shapes has_chart s1 !! 0%nat ≠ Some i →
          select_shapes has_chart s1 !! 1%nat ≠ Some i →
          s1' !! i = s1 !! i) ∧
    (∀ i, select_shapes (mentions "Table") s2 !! 0%nat ≠ Some i →
          select_shapes has_table s2 !! 0%nat ≠ Some i →
          s2' !! i = s2 !! i).
Proof.
  apply (other_shapes_kept "A" ex_chart ex_table template_path
           (output_path "A") ex_fs _ ex_template
           "Successfully saved version A!").
  - vm_compute. reflexivity.
  - exact ex_run_saves.
Defined.

Lemma chart_titles_witness :
  ∃ (out : list (list shape)) bar pie,
    (<[output_path "A" := ex_filled]> ex_fs) !! output_path "A" = Some out ∧
    chart_of 0 out = Some bar ∧ chart_of 1 out = Some pie ∧
    chart_title bar = Some ("Sales by Category: Group " +:+ "A") ∧
    chart_title pie = Some ("Sales by Quarter: Group " +:+ "A") ∧
    cd_categories (plotted bar)
    = ["Category 1"; "Category 2"; "Category 3"; "Category 4"] ∧
    cd_categories (plotted pie) = ["1st Qtr"; "2nd Qtr"; "3rd Qtr"; "4th Qtr"].
Proof.
  apply (chart_titles "A" ex_chart ex_table template_path (output_path "A")
           ex_fs _ "Successfully saved version A!").
  exact ex_run_saves.
Defined.

Lemma table_kept_witness :
  ∃ (out : list (list shape)) (t t' : list (list string)),
    (<[output_path "A" := ex_filled]> ex_fs) !! output_path "A" = Some out ∧
    table_of ex_template = Some t ∧ table_of out = Some t' ∧
    length t' = length t ∧
    (∀ i (r r' : list string),
       t !! i = Some r → t' !! i = Some r' → length r' = length r) ∧
    (∀ i j, (10 ≤ i)%nat ∨ (5 ≤ j)%nat → cell t' i j = cell t i j).
Proof.
  apply (table_kept "A" ex_chart ex_table template_path (output_path "A")
           ex_fs _ ex_template "Successfully saved version A!").
  - vm_compute. reflexivity.
  - exact ex_run_saves.
Defined.

(** A detail table of 9 rows of ones: the data rows of the saved table
    are 8, and its totals are 9. *)
Lemma totals_of_all_rows_witness :
  (edit_pres "A" ex_chart ex_table_nine template_path (output_path "A")
     ex_fs).1 = Ok "Successfully saved version A!" ∧
  (8 ≤ length (rows ex_table_nine))%nat ∧
  ∃ (out : list (list shape)) (t : list (list string)),
    (edit_pres "A" ex_chart ex_table_nine template_path (output_path "A")
       ex_fs).2 !! output_path "A" = Some out ∧
    table_of out = Some t ∧
    (∀ i j, (1 ≤ i < 9)%nat → (j < 5)%nat →
       ∃ v, iloc ex_table_nine (i - 1) j = Ok v ∧
            cell t i j = Ok (py_str v)) ∧
    ∀ j, (j < 5)%nat →
      ∃ col total text,
        length col = length (rows ex_table_nine) ∧
        Forall2 (λ r v, r !! j = Some v) (rows ex_table_nine) col ∧
        py_sum col = Ok total ∧ format_1f total = Ok text ∧
        cell t 9 j = Ok text.
Proof.
  assert ((edit_pres "A" ex_chart ex_table_nine template_path
             (output_path "A") ex_fs).1
          = Ok "Successfully saved version A!") as Hrun
    by (vm_compute; reflexivity).
  split; [done|].
  exact (totals_of_all_rows "A" ex_chart ex_table_nine template_path
           (output_path "A") ex_fs _ _ (pair_eq_fst _ _ Hrun)).
Defined.

(** The detail table of the example cut down to 4 columns. *)
Lemma short_detail_table_witness :
  (length (columns (first_columns 4 ex_table)) < 5)%nat ∧
  ∃ e, edit_pres "A" ex_chart (first_columns 4 ex_table) template_path
         (output_path "A") ex_fs
       = (Err e, ex_fs).
Proof.
  assert (length (columns (first_columns 4 ex_table)) < 5)%nat as Hcols
    by (vm_compute; lia).
  split; [done|].
  apply (short_detail_table "A" ex_chart (first_columns 4 ex_table)
           template_path (output_path "A") ex_fs).
  by left.
Defined.

(** A template whose table has no row 9. *)
Lemma small_template_witness :
  ex_fs_short_table !! template_path = Some ex_template_short ∧
  too_small ex_template_short ∧
  ∃ e, edit_pres "A" ex_chart ex_table template_path (output_path "A")
         ex_fs_short_table
       = (Err e, ex_fs_short_table).
Proof.
  assert (ex_fs_short_table !! template_path = Some ex_template_short) as Hfs
    by (vm_compute; reflexivity).
  assert (too_small ex_template_short) as Hsmall.
  { do 3 right. exists (replicate 9 (replicate 5 "")), 9%nat, 0%nat.
    split; [vm_compute; reflexivity|]. split; [lia|]. split; [lia|].
    vm_compute. reflexivity. }
  split; [done|]. split; [done|].
  exact (small_template "A" ex_chart ex_table template_path (output_path "A")
           ex_fs_short_table ex_template_short Hfs Hsmall).
Defined.

(** A detail table with names in its first column. *)
Lemma text_in_detail_table_witness :
  [VStr "pen"; VInt 1; VInt 1; VInt 1; VInt 1] ∈ rows ex_table_names ∧
  ∃ e, edit_pres "A" ex_chart ex_table_names template_path (output_path "A")
         ex_fs
       = (Err e, ex_fs).
Proof.
  assert ([VStr "pen"; VInt 1; VInt 1; VInt 1; VInt 1] ∈ rows ex_table_names)
    as Hin by left.
  split; [done|].
  apply (text_in_detail_table "A" ex_chart ex_table_names template_path
           (output_path "A") ex_fs _ 0%nat "pen" Hin); [lia|done].
Defined.

(** The driver on the frames without a table for B. *)
Lemma driver_files_witness :
  group_values ex_dataframes = Ok [VStr "A"; VStr "B"] ∧
  (generate_ppt ex_dataframes ex_fs).2 !! template_path
  = ex_fs !! template_path ∧
  ∀ path,
    (generate_ppt ex_dataframes ex_fs).2 !! path = ex_fs !! path ∨
    ∃ group (out : list (list shape)),
      VStr group ∈ [VStr "A"; VStr "B"] ∧ path = output_path group ∧
      filled_for ex_dataframes ex_fs group out ∧
      (generate_ppt ex_dataframes ex_fs).2 !! path = Some out.
Proof.
  assert (group_values ex_dataframes = Ok [VStr "A"; VStr "B"]) as Hgroups
    by (vm_compute; reflexivity).
  split; [done|].
  exact (driver_files ex_dataframes _ ex_fs _ _ Hgroups
           (surjective_pairing _)).
Defined.


(** The driver fails at B, after the turn of A. *)
Lemma driver_failure_witness :
  group_values ex_dataframes = Ok [VStr "A"; VStr "B"] ∧
  (generate_ppt ex_dataframes ex_fs).1 = Err KeyError ∧
  ∃ gs1 g gs2,
    [VStr "A"; VStr "B"] = gs1 ++ g :: gs2 ∧
    generate_one ex_dataframes g (generate_ppt ex_dataframes ex_fs).2
    = (Err KeyError, (generate_ppt ex_dataframes ex_fs).2) ∧
    (∀ g', g' ∈ gs1 →
       ∃ group (out : list (list shape)),
         g' = VStr group ∧ filled_for ex_dataframes ex_fs group out ∧
         (generate_ppt ex_dataframes ex_fs).2 !! output_path group
         = Some out) ∧
    (∀ path, (∀ group, VStr group ∈ gs1 → path ≠ output_path group) →
       (generate_ppt ex_dataframes ex_fs).2 !! path = ex_fs !! path).
Proof.
  assert (group_values ex_dataframes = Ok [VStr "A"; VStr "B"]) as Hgroups
    by (vm_compute; reflexivity).
  assert ((generate_ppt ex_dataframes ex_fs).1 = Err KeyError) as Hrun
    by (vm_compute; reflexivity).
  split; [done|]. split; [done|].
  exact (driver_failure ex_dataframes _ ex_fs _ _ Hgroups
           (pair_eq_fst _ _ Hrun)).
Defined.

(** The data directory of the example, loaded. *)
Lemma loaded_frames_witness :
  ∃ dataframes,
    load_frames ex_disk ex_data_files ∅ = Frames dataframes ∧
    (∀ i, i ∈ ex_data_files →
       is_Some (dataframes !! before_dot (basename i))) ∧
    ∀ name df, dataframes !! name = Some df →
      ex_disk !! csv_path name = Some df ∧ has_char "." name = false ∧
      ∃ i, i ∈ ex_data_files ∧ name = before_dot (basename i).
Proof.
  destruct (load_frames ex_disk ex_data_files ∅) as [dataframes|path]
    eqn:Hload.
  - exists dataframes. split; [done|].
    exact (loaded_frames ex_disk ex_data_files dataframes Hload).
  - vm_compute in Hload. discriminate Hload.
Defined.

Lemma load_clean_witness :
  ∃ dataframes,
    load_frames ex_disk (csv_path <$> ["chart_df"; "table_A"]) ∅
    = Frames dataframes ∧
    ∀ name,
      dataframes !! name
      = if bool_decide (name ∈ ["chart_df"; "table_A"])
        then ex_disk !! csv_path name else None.
Proof.
  apply (load_clean ex_disk ["chart_df"; "table_A"]).
  repeat constructor; eexists; vm_compute; reflexivity.
Defined.

(** A second version of the table of A beside nothing else: the loader
    looks for [data/table_A.csv]. *)
Lemma dotted_data_file_witness :
  load_frames {[ "data/table_A.v2.csv" := ex_table ]}
    [csv_path ("table_A" +:+ "." +:+ "v2")] ∅
  = FileNotFoundError "data/table_A.csv".
Proof.
  rewrite (dotted_data_file {[ "data/table_A.v2.csv" := ex_table ]}
             "table_A" "v2" [] ∅ eq_refl eq_refl eq_refl).
  vm_compute. reflexivity.
Defined.
